(** * YKC charging-pile protocol parser: a shallow embedding and its properties

    The development follows the three Python modules of the parser:
    - [parse_ykc.py]: [ParserContext] (field codecs and the diagnostics
      lists) and [YKCProtocolParser] (the envelope parser);
    - [frame_parsers.py]: one body decoder per frame type;
    - [parser_factory.py]: the dispatch table from frame-type code to decoder.

    Python integers are [Z], [bytes] objects are [list byte], [str] objects
    are [string] (the UTF-8 bytes of the text), Python floats are binary64
    primitive floats, and a [dict] built by successive assignments is an
    association list in insertion order.  The diagnostics lists live in a
    [ParserContext] that is threaded through every call; a raised Python
    exception is the [Raise] outcome of the monad [M]. *)

From Stdlib Require Import String Ascii List ZArith Lia Bool Floats Uint63.
From Stdlib Require Import Strings.Byte.
From Stdlib Require Import Sorted Permutation.
Import ListNotations.

Local Open Scope list_scope.
Local Open Scope string_scope.
Local Open Scope Z_scope.

(* ================================================================== *)
(** * Python built-ins used by the parser *)
(* ================================================================== *)

(** The integer value of one element of a [bytes] object. *)
Definition byte_val (b : byte) : Z := Z.of_N (Byte.to_N b).

(** [len(x)] as a Python integer. *)
Definition len {A : Type} (l : list A) : Z := Z.of_nat (length l).

(** [bs[a:b]] and [bs[a:]]; every bound the program computes is
    non-negative, so Python's wrap-around of negative bounds is not needed. *)
Definition slice {A : Type} (l : list A) (a b : Z) : list A :=
  firstn (Z.to_nat (b - a)) (skipn (Z.to_nat a) l).

Definition slice_from {A : Type} (l : list A) (a : Z) : list A :=
  skipn (Z.to_nat a) l.

(** [int.from_bytes(bs, byteorder='little')] and [byteorder='big']. *)
Fixpoint int_from_bytes_little (bs : list byte) : Z :=
  match bs with
  | [] => 0
  | b :: rest => byte_val b + 256 * int_from_bytes_little rest
  end.

Definition int_from_bytes_big (bs : list byte) : Z :=
  fold_left (fun acc b => 256 * acc + byte_val b) bs 0.

Definition hex_digit_upper (d : Z) : ascii :=
  match d with
  | 0 => "0" | 1 => "1" | 2 => "2" | 3 => "3" | 4 => "4" | 5 => "5"
  | 6 => "6" | 7 => "7" | 8 => "8" | 9 => "9" | 10 => "A" | 11 => "B"
  | 12 => "C" | 13 => "D" | 14 => "E" | _ => "F"
  end%char.

Definition hex_digit_lower (d : Z) : ascii :=
  match d with
  | 0 => "0" | 1 => "1" | 2 => "2" | 3 => "3" | 4 => "4" | 5 => "5"
  | 6 => "6" | 7 => "7" | 8 => "8" | 9 => "9" | 10 => "a" | 11 => "b"
  | 12 => "c" | 13 => "d" | 14 => "e" | _ => "f"
  end%char.

Definition dec_digit (d : Z) : ascii :=
  match d with
  | 0 => "0" | 1 => "1" | 2 => "2" | 3 => "3" | 4 => "4" | 5 => "5"
  | 6 => "6" | 7 => "7" | 8 => "8" | _ => "9"
  end%char.

(** The digits of a non-negative integer in a base, most significant first. *)
Fixpoint to_base (digit : Z -> ascii) (base : Z) (fuel : nat) (n : Z)
  (acc : string) : string :=
  match fuel with
  | O => acc
  | S fuel' =>
      let acc' := String (digit (n mod base)) acc in
      if n / base =? 0 then acc' else to_base digit base fuel' (n / base) acc'
  end.

Definition digits_fuel (n : Z) : nat := S (Z.to_nat (Z.log2 n)).

(** Left padding with the character 0 up to a minimum width. *)
Definition zfill (width : nat) (s : string) : string :=
  let fix pad (k : nat) : string :=
    match k with
    | O => s
    | S k' => String "0"%char (pad k')
    end in
  pad (width - String.length s)%nat.

(** [f"{n}"], [f"{n:0wd}"] and [f"{n:0wX}"]; the program only formats
    non-negative integers. *)
Definition str_int (n : Z) : string :=
  to_base dec_digit 10 (digits_fuel n) n "".

Definition fmt_d (width : nat) (n : Z) : string := zfill width (str_int n).

Definition fmt_X (width : nat) (n : Z) : string :=
  zfill width (to_base hex_digit_upper 16 (digits_fuel n) n "").

Definition fmt_x (width : nat) (n : Z) : string :=
  zfill width (to_base hex_digit_lower 16 (digits_fuel n) n "").

(** [bs.hex()] and [bs.hex().upper()]. *)
Definition bytes_hex (bs : list byte) : string :=
  String.concat "" (map (fun b => fmt_x 2 (byte_val b)) bs).

Definition ascii_upper (c : ascii) : ascii :=
  let n := Z.of_nat (nat_of_ascii c) in
  if (97 <=? n) && (n <=? 122) then ascii_of_nat (Z.to_nat (n - 32)) else c.

Fixpoint str_upper (s : string) : string :=
  match s with
  | EmptyString => EmptyString
  | String c rest => String (ascii_upper c) (str_upper rest)
  end.

Definition bytes_hex_upper (bs : list byte) : string := str_upper (bytes_hex bs).

(** [sep.join(parts)]. *)
Definition str_join (sep : string) (parts : list string) : string :=
  String.concat sep parts.

(** [sorted(xs)] on integers, by insertion: the ascending arrangement of
    the elements is the same whatever the sorting method. *)
Fixpoint sorted_insert (x : Z) (l : list Z) : list Z :=
  match l with
  | [] => [x]
  | y :: rest => if x <=? y then x :: l else y :: sorted_insert x rest
  end.

Definition sorted (l : list Z) : list Z := fold_right sorted_insert [] l.

(** [int / float] on binary64: the integer is converted first (exactly, for
    the at most 40-bit integers the decoders divide), then divided. *)
Definition float_of_int (n : Z) : float := PrimFloat.of_uint63 (Uint63.of_Z n).

Definition int_div_float (n : Z) (d : float) : float :=
  PrimFloat.div (float_of_int n) d.

(* ================================================================== *)
(** * Field records: Python values and insertion-ordered dicts *)
(* ================================================================== *)

#[local] Unset Elimination Schemes.
Inductive value : Type :=
| VNone
| VBool (b : bool)
| VInt (n : Z)
| VFloat (f : float)
| VStr (s : string)
| VList (l : list value)
| VDict (d : list (string * value)).
#[local] Set Elimination Schemes.

Definition dict : Type := list (string * value).

Fixpoint dict_get (d : dict) (k : string) : option value :=
  match d with
  | [] => None
  | (k', v) :: rest => if String.eqb k k' then Some v else dict_get rest k
  end.

(** [d[k] = v]: an existing key keeps its position, a new key goes last. *)
Fixpoint dict_set (d : dict) (k : string) (v : value) : dict :=
  match d with
  | [] => [(k, v)]
  | (k', v') :: rest =>
      if String.eqb k k' then (k, v) :: rest else (k', v') :: dict_set rest k v
  end.

Definition dict_has (d : dict) (k : string) : bool :=
  match dict_get d k with Some _ => true | None => false end.

(** [table.get(code, default)] on a dict with integer keys. *)
Fixpoint table_get {A : Type} (table : list (Z * A)) (code : Z) (default : A) : A :=
  match table with
  | [] => default
  | (k, v) :: rest => if code =? k then v else table_get rest code default
  end.

Fixpoint table_mem {A : Type} (table : list (Z * A)) (code : Z) : bool :=
  match table with
  | [] => false
  | (k, _) :: rest => (code =? k) || table_mem rest code
  end.

(** [table[code] = v] and [table.keys()] on a dict with integer keys. *)
Fixpoint table_set {A : Type} (table : list (Z * A)) (code : Z) (v : A)
  : list (Z * A) :=
  match table with
  | [] => [(code, v)]
  | (k, v') :: rest =>
      if code =? k then (code, v) :: rest else (k, v') :: table_set rest code v
  end.

Definition table_keys {A : Type} (table : list (Z * A)) : list Z := map fst table.

(* ================================================================== *)
(** * The diagnostics sink and the parser monad *)
(* ================================================================== *)

(** [ParserContext]: the two lists every decode call appends to. *)
Record ParserContext : Type := mkContext {
  errors : list string;
  warnings : list string
}.

Definition empty_context : ParserContext := mkContext [] [].

(** The exceptions the parser can meet: indexing a [bytes] object out of
    range is the only one its own code can raise. *)
Inductive exn : Type :=
| IndexError.

Definition exn_str (e : exn) : string :=
  match e with
  | IndexError => "index out of range"
  end.

Inductive outcome (A : Type) : Type :=
| Ok (a : A)
| Raise (e : exn).

Arguments Ok {A} a.
Arguments Raise {A} e.

(** A computation over the shared context that returns or raises; what was
    appended before a raise stays appended. *)
Definition M (A : Type) : Type := ParserContext -> outcome A * ParserContext.

Definition ret {A : Type} (a : A) : M A := fun c => (Ok a, c).

Definition bind {A B : Type} (m : M A) (k : A -> M B) : M B :=
  fun c =>
    match m c with
    | (Ok a, c') => k a c'
    | (Raise e, c') => (Raise e, c')
    end.

Definition raise {A : Type} (e : exn) : M A := fun c => (Raise e, c).

(** [try: m  except Exception as e: h e]. *)
Definition try_except {A : Type} (m : M A) (h : exn -> M A) : M A :=
  fun c =>
    match m c with
    | (Ok a, c') => (Ok a, c')
    | (Raise e, c') => h e c'
    end.

Declare Scope parser_scope.
Delimit Scope parser_scope with parser.

Notation "x <- m ;; k" := (bind m (fun x => k))
  (at level 100, m at next level, right associativity) : parser_scope.
Notation "m ;;; k" := (bind m (fun _ => k))
  (at level 100, right associativity) : parser_scope.

Local Open Scope parser_scope.

(** [self.context.errors.append(msg)] and [self.context.warnings.append(msg)]. *)
Definition add_error (msg : string) : M unit :=
  fun c => (Ok tt, mkContext (errors c ++ [msg]) (warnings c)).

Definition add_warning (msg : string) : M unit :=
  fun c => (Ok tt, mkContext (errors c) (warnings c ++ [msg])).

(** [if cond: m] with no else branch. *)
Definition when (cond : bool) (m : M unit) : M unit :=
  if cond then m else ret tt.

(** [bs[i]] for a non-negative index: the byte as an integer, or [IndexError]. *)
Definition index (bs : list byte) (i : Z) : M Z :=
  match nth_error bs (Z.to_nat i) with
  | Some b => ret (byte_val b)
  | None => raise IndexError
  end.

(* ================================================================== *)
(** * parse_ykc.py: ParserContext, the field codecs *)
(* ================================================================== *)

(** [bcd_to_str]: two upper-case hex digits per byte (formatting an element
    of a [bytes] object cannot fail, so the [except] branch is dead). *)
Definition bcd_to_str (bcd_bytes : list byte) : string :=
  str_join "" (map (fun b => fmt_X 2 (byte_val b)) bcd_bytes).

(** [bs.rstrip(b'\x00')]. *)
Fixpoint rstrip_nul (bs : list byte) : list byte :=
  match bs with
  | [] => []
  | b :: rest =>
      match rstrip_nul rest with
      | [] => if byte_val b =? 0 then [] else [b]
      | rest' => b :: rest'
      end
  end.

Definition is_ascii_byte (b : byte) : bool := byte_val b <? 128.

Definition printable_or_nul (b : byte) : bool :=
  ((32 <=? byte_val b) && (byte_val b <? 127)) || (byte_val b =? 0).

(** [ascii_to_str]: decoding the stripped bytes as ASCII raises when a byte
    is 128 or more, which the [except] branch turns into a warning and the
    upper-case hex text; [decode('ascii', errors='ignore')] drops such bytes. *)
Definition ascii_to_str (ascii_bytes : list byte) : M string :=
  let stripped := rstrip_nul ascii_bytes in
  if forallb is_ascii_byte stripped then
    let text := string_of_list_byte stripped in
    when (negb (forallb printable_or_nul (filter is_ascii_byte ascii_bytes)))
         (add_warning ("ASCII字段包含非ASCII字符: " ++ bytes_hex ascii_bytes)) ;;;
    ret text
  else
    add_warning ("ASCII解码失败: " ++ bytes_hex ascii_bytes) ;;;
    ret (bytes_hex_upper ascii_bytes).

(** [parse_cp56time2a]: with seven bytes present nothing in the [try] block
    can raise, so the function is pure. *)
Definition parse_cp56time2a (time_bytes : list byte) : string :=
  if len time_bytes <? 7 then "无效时间"
  else
    let millisec := int_from_bytes_little (slice time_bytes 0 2) in
    let minute := Z.land (byte_val (nth 2 time_bytes x00)) 0x3F in
    let hour := Z.land (byte_val (nth 3 time_bytes x00)) 0x1F in
    let day := Z.land (byte_val (nth 4 time_bytes x00)) 0x1F in
    let month := Z.land (byte_val (nth 5 time_bytes x00)) 0x0F in
    let year := 2000 + Z.land (byte_val (nth 6 time_bytes x00)) 0x7F in
    let seconds := millisec / 1000 in
    let millis := millisec mod 1000 in
    fmt_d 4 year ++ "-" ++ fmt_d 2 month ++ "-" ++ fmt_d 2 day ++ " " ++
    fmt_d 2 hour ++ ":" ++ fmt_d 2 minute ++ ":" ++ fmt_d 2 seconds ++ "." ++
    fmt_d 3 millis.

(** The labels of the bits set in a mask, in declaration order:
    [for i, name in enumerate(names): if mask & (unit << (i * step)): ...]. *)
Fixpoint bit_labels (unit step : Z) (i : Z) (names : list string) (mask : Z)
  : list string :=
  match names with
  | [] => []
  | name :: rest =>
      let tail := bit_labels unit step (i + 1) rest mask in
      if Z.land mask (Z.shiftl unit (i * step)) =? 0 then tail else name :: tail
  end.

Definition fault_names : list string :=
  [ "急停按钮动作"; "无可用整流模块"; "出风口温度过高"; "交流防雷故障";
    "DC20通信中断"; "FC08通信中断"; "电度表通信中断"; "读卡器通信中断";
    "RC10通信中断"; "风扇调速板故障"; "直流熔断器故障"; "高压接触器故障";
    "门打开" ].

Definition parse_fault_bits (fault : Z) : list string :=
  let faults := bit_labels 1 1 0 fault_names fault in
  match faults with
  | [] => ["无故障"]
  | _ => faults
  end.

(* ================================================================== *)
(** * frame_parsers.py: the body decoders *)
(* ================================================================== *)

(** The subclasses of the abstract base class [FrameParser], in the order
    of their definition. *)
Inductive FrameParser : Type :=
| LoginParser | LoginResponseParser
| ReadRealtimeParser | RealtimeDataParser | ChargingHandshakeParser
| TransactionRecordParser | TransactionConfirmParser
| BalanceUpdateRequestParser | BalanceUpdateResponseParser
| DefaultParser
| ParameterConfigParser | ChargingEndParser | ErrorMessageParser
| BMSStopParser | ChargerStopParser | BMSDemandOutputParser | BMSInfoParser
| OfflineCardSyncParser | OfflineCardSyncResponseParser
| OfflineCardDeleteParser | OfflineCardDeleteResponseParser
| OfflineCardQueryParser | OfflineCardQueryResponseParser
| HeartbeatParser | HeartbeatResponseParser
| ChargingStartRequestParser | ChargingStartConfirmParser
| RemoteStartReplyParser | RemoteStartCommandParser
| RemoteStopReplyParser | RemoteStopCommandParser
| WorkParameterSetResponseParser | WorkParameterSetParser
| TimeSyncResponseParser | TimeSyncParser
| BillingModelResponseParser | BillingModelSetParser
| ParkingLockStatusParser | ParkingLockControlParser | ParkingLockResponseParser
| RemoteRebootResponseParser | RemoteRebootParser
| RemoteUpdateResponseParser | RemoteUpdateParser
| ParallelChargingRequestParser | ParallelChargingConfirmParser
| ParallelChargingReplyParser | ParallelChargingCommandParser
| QRCodePrefixSetParser | QRCodePrefixSetResponseParser.

(** [self.__class__.__name__]. *)
Definition class_name (p : FrameParser) : string :=
  match p with
  | LoginParser => "LoginParser"
  | LoginResponseParser => "LoginResponseParser"
  | ReadRealtimeParser => "ReadRealtimeParser"
  | RealtimeDataParser => "RealtimeDataParser"
  | ChargingHandshakeParser => "ChargingHandshakeParser"
  | TransactionRecordParser => "TransactionRecordParser"
  | TransactionConfirmParser => "TransactionConfirmParser"
  | BalanceUpdateRequestParser => "BalanceUpdateRequestParser"
  | BalanceUpdateResponseParser => "BalanceUpdateResponseParser"
  | DefaultParser => "DefaultParser"
  | ParameterConfigParser => "ParameterConfigParser"
  | ChargingEndParser => "ChargingEndParser"
  | ErrorMessageParser => "ErrorMessageParser"
  | BMSStopParser => "BMSStopParser"
  | ChargerStopParser => "ChargerStopParser"
  | BMSDemandOutputParser => "BMSDemandOutputParser"
  | BMSInfoParser => "BMSInfoParser"
  | OfflineCardSyncParser => "OfflineCardSyncParser"
  | OfflineCardSyncResponseParser => "OfflineCardSyncResponseParser"
  | OfflineCardDeleteParser => "OfflineCardDeleteParser"
  | OfflineCardDeleteResponseParser => "OfflineCardDeleteResponseParser"
  | OfflineCardQueryParser => "OfflineCardQueryParser"
  | OfflineCardQueryResponseParser => "OfflineCardQueryResponseParser"
  | HeartbeatParser => "HeartbeatParser"
  | HeartbeatResponseParser => "HeartbeatResponseParser"
  | ChargingStartRequestParser => "ChargingStartRequestParser"
  | ChargingStartConfirmParser => "ChargingStartConfirmParser"
  | RemoteStartReplyParser => "RemoteStartReplyParser"
  | RemoteStartCommandParser => "RemoteStartCommandParser"
  | RemoteStopReplyParser => "RemoteStopReplyParser"
  | RemoteStopCommandParser => "RemoteStopCommandParser"
  | WorkParameterSetResponseParser => "WorkParameterSetResponseParser"
  | WorkParameterSetParser => "WorkParameterSetParser"
  | TimeSyncResponseParser => "TimeSyncResponseParser"
  | TimeSyncParser => "TimeSyncParser"
  | BillingModelResponseParser => "BillingModelResponseParser"
  | BillingModelSetParser => "BillingModelSetParser"
  | ParkingLockStatusParser => "ParkingLockStatusParser"
  | ParkingLockControlParser => "ParkingLockControlParser"
  | ParkingLockResponseParser => "ParkingLockResponseParser"
  | RemoteRebootResponseParser => "RemoteRebootResponseParser"
  | RemoteRebootParser => "RemoteRebootParser"
  | RemoteUpdateResponseParser => "RemoteUpdateResponseParser"
  | RemoteUpdateParser => "RemoteUpdateParser"
  | ParallelChargingRequestParser => "ParallelChargingRequestParser"
  | ParallelChargingConfirmParser => "ParallelChargingConfirmParser"
  | ParallelChargingReplyParser => "ParallelChargingReplyParser"
  | ParallelChargingCommandParser => "ParallelChargingCommandParser"
  | QRCodePrefixSetParser => "QRCodePrefixSetParser"
  | QRCodePrefixSetResponseParser => "QRCodePrefixSetResponseParser"
  end.

(** The [expected_min_length] property of each subclass. *)
Definition expected_min_length (p : FrameParser) : Z :=
  match p with
  | LoginParser => 28
  | LoginResponseParser => 8
  | ReadRealtimeParser => 8
  | RealtimeDataParser => 58
  | ChargingHandshakeParser => 65
  | TransactionRecordParser => 132
  | TransactionConfirmParser => 17
  | BalanceUpdateRequestParser => 20
  | BalanceUpdateResponseParser => 16
  | DefaultParser => 0
  | ParameterConfigParser => 41
  | ChargingEndParser => 35
  | ErrorMessageParser => 32
  | BMSStopParser => 28
  | ChargerStopParser => 28
  | BMSDemandOutputParser => 40
  | BMSInfoParser => 31
  | OfflineCardSyncParser => 8
  | OfflineCardSyncResponseParser => 9
  | OfflineCardDeleteParser => 8
  | OfflineCardDeleteResponseParser => 7
  | OfflineCardQueryParser => 8
  | OfflineCardQueryResponseParser => 7
  | HeartbeatParser => 7
  | HeartbeatResponseParser => 7
  | ChargingStartRequestParser => 21
  | ChargingStartConfirmParser => 13
  | RemoteStartReplyParser => 15
  | RemoteStartCommandParser => 21
  | RemoteStopReplyParser => 14
  | RemoteStopCommandParser => 12
  | WorkParameterSetResponseParser => 8
  | WorkParameterSetParser => 18
  | TimeSyncResponseParser => 8
  | TimeSyncParser => 14
  | BillingModelResponseParser => 8
  | BillingModelSetParser => 29
  | ParkingLockStatusParser => 9
  | ParkingLockControlParser => 8
  | ParkingLockResponseParser => 8
  | RemoteRebootResponseParser => 8
  | RemoteRebootParser => 7
  | RemoteUpdateResponseParser => 8
  | RemoteUpdateParser => 17
  | ParallelChargingRequestParser => 8
  | ParallelChargingConfirmParser => 8
  | ParallelChargingReplyParser => 8
  | ParallelChargingCommandParser => 8
  | QRCodePrefixSetParser => 9
  | QRCodePrefixSetResponseParser => 8
  end.

(** The message [validate_length] appends. *)
Definition length_error (p : FrameParser) (body : list byte) : string :=
  class_name p ++ " 消息体长度不足: " ++
  "需要" ++ str_int (expected_min_length p) ++ "字节, 实际" ++
  str_int (len body) ++ "字节".

(** [FrameParser.validate_length]. *)
Definition validate_length (p : FrameParser) (body : list byte) : M bool :=
  if len body <? expected_min_length p then
    add_error (length_error p body) ;;;
    ret false
  else ret true.

(** [code_table.get(code, f"未知({code})")]. *)
Definition code_label (table : list (Z * string)) (code : Z) : string :=
  table_get table code ("未知(" ++ str_int code ++ ")").

(** [f"{n:016X}" if n > 0 else none_label]. *)
Definition card_number_str (n : Z) (none_label : string) : string :=
  if 0 <? n then fmt_X 16 n else none_label.

(** The labels whose mask meets the value, in declaration order: a chain of
    [if value & mask: labels.append(label)]. *)
Definition mask_labels (table : list (Z * string)) (v : Z) : list string :=
  map snd (filter (fun p => negb (Z.land v (fst p) =? 0)) table).

(** ["; ".join(labels) if labels else "无"]. *)
Definition join_or_none (labels : list string) : string :=
  match labels with
  | [] => "无"
  | _ => str_join "; " labels
  end.

(** [float - int]. *)
Definition float_sub_int (f : float) (n : Z) : float :=
  PrimFloat.sub f (float_of_int n).

(** ** Registration and heartbeat frames *)

(** [f"v{protocol_version / 10:.1f}"]: for a byte value the quotient
    rounded to one decimal is the integer part, a dot and the last digit. *)
Definition protocol_version_str (protocol_version : Z) : string :=
  "v" ++ str_int (protocol_version / 10) ++ "." ++ str_int (protocol_version mod 10).

Definition network_types : list (Z * string) :=
  [(0, "SIM卡"); (1, "LAN"); (2, "WAN"); (3, "其他")].

Definition operators : list (Z * string) :=
  [(0, "移动"); (2, "电信"); (3, "联通"); (4, "其他")].

(** [LoginParser.parse] (0x01). *)
Definition LoginParser_parse (body : list byte) : M dict :=
  ok <- validate_length LoginParser body ;;
  if negb ok then ret [] else
  let result := [] in
  let offset := 0 in
  let result := dict_set result "pile_code" (VStr (bcd_to_str (slice body offset (offset + 7)))) in
  let offset := offset + 7 in
  pile_type <- index body offset ;;
  let result := dict_set result "pile_type" (VStr (if pile_type =? 0 then "直流桩" else "交流桩")) in
  let result := dict_set result "pile_type_code" (VInt pile_type) in
  let offset := offset + 1 in
  gun_count <- index body offset ;;
  let result := dict_set result "gun_count" (VInt gun_count) in
  let offset := offset + 1 in
  protocol_version <- index body offset ;;
  let result := dict_set result "protocol_version" (VStr (protocol_version_str protocol_version)) in
  let offset := offset + 1 in
  program_version <- ascii_to_str (slice body offset (offset + 8)) ;;
  let result := dict_set result "program_version" (VStr program_version) in
  let offset := offset + 8 in
  network_type <- index body offset ;;
  let result := dict_set result "network_type" (VStr (code_label network_types network_type)) in
  let offset := offset + 1 in
  let result := dict_set result "sim_card" (VStr (bcd_to_str (slice body offset (offset + 10)))) in
  let offset := offset + 10 in
  operator <- index body offset ;;
  let result := dict_set result "operator" (VStr (code_label operators operator)) in
  ret result.

(** [LoginResponseParser.parse] (0x02). *)
Definition LoginResponseParser_parse (body : list byte) : M dict :=
  ok <- validate_length LoginResponseParser body ;;
  if negb ok then ret [] else
  let result := [] in
  let result := dict_set result "pile_code" (VStr (bcd_to_str (slice body 0 7))) in
  login_result <- index body 7 ;;
  let result := dict_set result "login_result" (VStr (if login_result =? 0 then "登录成功" else "登录失败")) in
  let result := dict_set result "login_result_code" (VInt login_result) in
  ret result.

(** [HeartbeatParser.parse] (0x03). *)
Definition HeartbeatParser_parse (body : list byte) : M dict :=
  ok <- validate_length HeartbeatParser body ;;
  if negb ok then ret [] else
  let result := [] in
  let result := dict_set result "pile_code" (VStr (bcd_to_str (slice body 0 7))) in
  ret result.

(** [HeartbeatResponseParser.parse] (0x04). *)
Definition HeartbeatResponseParser_parse (body : list byte) : M dict :=
  ok <- validate_length HeartbeatResponseParser body ;;
  if negb ok then ret [] else
  let result := [] in
  let result := dict_set result "pile_code" (VStr (bcd_to_str (slice body 0 7))) in
  ret result.

(** ** Real-time data frames *)

(** [ReadRealtimeParser.parse] (0x12). *)
Definition ReadRealtimeParser_parse (body : list byte) : M dict :=
  ok <- validate_length ReadRealtimeParser body ;;
  if negb ok then ret [] else
  let result := [] in
  let result := dict_set result "pile_code" (VStr (bcd_to_str (slice body 0 7))) in
  gun <- index body 7 ;;
  let result := dict_set result "gun_number" (VStr (fmt_X 2 gun)) in
  ret result.

Definition realtime_statuses : list (Z * string) :=
  [(0, "离线"); (1, "故障"); (2, "空闲"); (3, "充电")].

Definition gun_returned_labels : list (Z * string) :=
  [(0, "否"); (1, "是"); (2, "未知")].

(** [RealtimeDataParser.parse] (0x13). *)
Definition RealtimeDataParser_parse (body : list byte) : M dict :=
  ok <- validate_length RealtimeDataParser body ;;
  if negb ok then ret [] else
  let result := [] in
  let offset := 0 in
  let result := dict_set result "transaction_id" (VStr (bcd_to_str (slice body offset (offset + 16)))) in
  let offset := offset + 16 in
  let result := dict_set result "pile_code" (VStr (bcd_to_str (slice body offset (offset + 7)))) in
  let offset := offset + 7 in
  gun <- index body offset ;;
  let result := dict_set result "gun_number" (VStr (fmt_X 2 gun)) in
  let offset := offset + 1 in
  status <- index body offset ;;
  let result := dict_set result "status" (VStr (code_label realtime_statuses status)) in
  let result := dict_set result "status_code" (VInt status) in
  let offset := offset + 1 in
  gun_returned <- index body offset ;;
  let result := dict_set result "gun_returned" (VStr (table_get gun_returned_labels gun_returned "未知")) in
  let offset := offset + 1 in
  gun_plugged <- index body offset ;;
  let result := dict_set result "gun_plugged" (VStr (if gun_plugged =? 1 then "是" else "否")) in
  let offset := offset + 1 in
  let voltage := int_from_bytes_little (slice body offset (offset + 2)) in
  let result := dict_set result "output_voltage" (VFloat (int_div_float voltage 10)) in
  let offset := offset + 2 in
  let current := int_from_bytes_little (slice body offset (offset + 2)) in
  let result := dict_set result "output_current" (VFloat (int_div_float current 10)) in
  let offset := offset + 2 in
  cable_temperature <- index body offset ;;
  let result := dict_set result "cable_temperature" (VInt (cable_temperature - 50)) in
  let offset := offset + 1 in
  let result := dict_set result "cable_code" (VStr (bytes_hex_upper (slice body offset (offset + 8)))) in
  let offset := offset + 8 in
  soc <- index body offset ;;
  let result := dict_set result "soc" (VInt soc) in
  let offset := offset + 1 in
  battery_max_temperature <- index body offset ;;
  let result := dict_set result "battery_max_temperature" (VInt (battery_max_temperature - 50)) in
  let offset := offset + 1 in
  let charge_time := int_from_bytes_little (slice body offset (offset + 2)) in
  let result := dict_set result "total_charge_time_minutes" (VInt charge_time) in
  let offset := offset + 2 in
  let remain_time := int_from_bytes_little (slice body offset (offset + 2)) in
  let result := dict_set result "remaining_time_minutes" (VInt remain_time) in
  let offset := offset + 2 in
  let energy := int_from_bytes_little (slice body offset (offset + 4)) in
  let result := dict_set result "charged_energy_kwh" (VFloat (int_div_float energy 10000)) in
  let offset := offset + 4 in
  let energy_loss := int_from_bytes_little (slice body offset (offset + 4)) in
  let result := dict_set result "charged_energy_with_loss_kwh" (VFloat (int_div_float energy_loss 10000)) in
  let offset := offset + 4 in
  let amount := int_from_bytes_little (slice body offset (offset + 4)) in
  let result := dict_set result "charged_amount_yuan" (VFloat (int_div_float amount 10000)) in
  let offset := offset + 4 in
  let fault := int_from_bytes_little (slice body offset (offset + 2)) in
  let result := dict_set result "hardware_fault_code" (VStr ("0x" ++ fmt_X 4 fault)) in
  let result := dict_set result "hardware_faults" (VList (map VStr (parse_fault_bits fault))) in
  ret result.

Definition battery_types : list (Z * string) :=
  [(0x01, "铅酸电池"); (0x02, "氢电池"); (0x03, "磷酸铁锂电池");
   (0x04, "锰酸锂电池"); (0x05, "钴酸锂电池"); (0x06, "三元材料电池");
   (0x07, "聚合物锂离子电池"); (0x08, "钛酸锂电池"); (0xFF, "其他")].

(** [ChargingHandshakeParser.parse] (0x15). *)
Definition ChargingHandshakeParser_parse (body : list byte) : M dict :=
  ok <- validate_length ChargingHandshakeParser body ;;
  if negb ok then ret [] else
  let result := [] in
  let offset := 0 in
  let result := dict_set result "transaction_id" (VStr (bcd_to_str (slice body offset (offset + 16)))) in
  let offset := offset + 16 in
  let result := dict_set result "pile_code" (VStr (bcd_to_str (slice body offset (offset + 7)))) in
  let offset := offset + 7 in
  let result := dict_set result "gun_number" (VStr (bcd_to_str (slice body offset (offset + 1)))) in
  let offset := offset + 1 in
  let version_bytes := slice body offset (offset + 3) in
  version_major <- index version_bytes 2 ;;
  let result := dict_set result "bms_protocol_version"
    (VStr ("V" ++ str_int version_major ++ "." ++
           str_int (int_from_bytes_little (slice version_bytes 0 2)))) in
  let offset := offset + 3 in
  battery_type <- index body offset ;;
  let result := dict_set result "bms_battery_type" (VStr (code_label battery_types battery_type)) in
  let result := dict_set result "bms_battery_type_code" (VInt battery_type) in
  let offset := offset + 1 in
  let capacity := int_from_bytes_little (slice body offset (offset + 2)) in
  let result := dict_set result "bms_rated_capacity_ah" (VFloat (int_div_float capacity 10)) in
  let offset := offset + 2 in
  let voltage := int_from_bytes_little (slice body offset (offset + 2)) in
  let result := dict_set result "bms_rated_voltage_v" (VFloat (int_div_float voltage 10)) in
  let offset := offset + 2 in
  bms_manufacturer <- ascii_to_str (slice body offset (offset + 4)) ;;
  let result := dict_set result "bms_manufacturer" (VStr bms_manufacturer) in
  let offset := offset + 4 in
  let result := dict_set result "bms_battery_serial" (VStr (bytes_hex_upper (slice body offset (offset + 4)))) in
  let offset := offset + 4 in
  year_raw <- index body offset ;;
  let year := year_raw + 1985 in
  month <- index body (offset + 1) ;;
  day <- index body (offset + 2) ;;
  let result := dict_set result "bms_production_date"
    (VStr (fmt_d 4 year ++ "-" ++ fmt_d 2 month ++ "-" ++ fmt_d 2 day)) in
  let offset := offset + 3 in
  let charge_times := int_from_bytes_little (slice body offset (offset + 3)) in
  let result := dict_set result "bms_charge_times" (VInt charge_times) in
  let offset := offset + 3 in
  ownership <- index body offset ;;
  let result := dict_set result "bms_ownership" (VStr (if ownership =? 0 then "租赁" else "车自有")) in
  let result := dict_set result "bms_ownership_code" (VInt ownership) in
  let offset := offset + 1 in
  let offset := offset + 1 in
  bms_vin <- ascii_to_str (slice body offset (offset + 17)) ;;
  let result := dict_set result "bms_vin" (VStr bms_vin) in
  let offset := offset + 17 in
  let ver_bytes := slice body offset (offset + 8) in
  let result := dict_set result "bms_software_version" (VStr (bytes_hex_upper ver_bytes)) in
  ret result.

(** ** Transaction frames *)

(** One pass of the loop over the four tariff periods of a transaction
    record: price, energy, energy with loss and amount, four bytes each. *)
Definition transaction_period (body : list byte) (acc : dict * Z)
  (period_name : string) : dict * Z :=
  let '(result, offset) := acc in
  let price := int_from_bytes_little (slice body offset (offset + 4)) in
  let result := dict_set result (period_name ++ "_unit_price") (VFloat (int_div_float price 100000)) in
  let offset := offset + 4 in
  let energy := int_from_bytes_little (slice body offset (offset + 4)) in
  let result := dict_set result (period_name ++ "_energy_kwh") (VFloat (int_div_float energy 10000)) in
  let offset := offset + 4 in
  let energy_loss := int_from_bytes_little (slice body offset (offset + 4)) in
  let result := dict_set result (period_name ++ "_energy_with_loss_kwh") (VFloat (int_div_float energy_loss 10000)) in
  let offset := offset + 4 in
  let amount := int_from_bytes_little (slice body offset (offset + 4)) in
  let result := dict_set result (period_name ++ "_amount_yuan") (VFloat (int_div_float amount 10000)) in
  let offset := offset + 4 in
  (result, offset).

Definition trade_types : list (Z * string) :=
  [(0x01, "app启动"); (0x02, "卡启动"); (0x04, "离线卡启动"); (0x05, "VIN码启动充电")].

(** [TransactionRecordParser.parse] (0x3B). *)
Definition TransactionRecordParser_parse (body : list byte) : M dict :=
  ok <- validate_length TransactionRecordParser body ;;
  if negb ok then ret [] else
  let result := [] in
  let offset := 0 in
  let result := dict_set result "transaction_id" (VStr (bcd_to_str (slice body offset (offset + 16)))) in
  let offset := offset + 16 in
  let result := dict_set result "pile_code" (VStr (bcd_to_str (slice body offset (offset + 7)))) in
  let offset := offset + 7 in
  let result := dict_set result "gun_number" (VStr (bcd_to_str (slice body offset (offset + 1)))) in
  let offset := offset + 1 in
  let result := dict_set result "start_time" (VStr (parse_cp56time2a (slice body offset (offset + 7)))) in
  let offset := offset + 7 in
  let result := dict_set result "end_time" (VStr (parse_cp56time2a (slice body offset (offset + 7)))) in
  let offset := offset + 7 in
  let '(result, offset) :=
    fold_left (transaction_period body) ["sharp"; "peak"; "flat"; "valley"] (result, offset) in
  let meter_start := int_from_bytes_little (slice body offset (offset + 5)) in
  let result := dict_set result "meter_start_value_kwh" (VFloat (int_div_float meter_start 10000)) in
  let offset := offset + 5 in
  let meter_end := int_from_bytes_little (slice body offset (offset + 5)) in
  let result := dict_set result "meter_end_value_kwh" (VFloat (int_div_float meter_end 10000)) in
  let offset := offset + 5 in
  let total_energy := int_from_bytes_little (slice body offset (offset + 4)) in
  let result := dict_set result "total_energy_kwh" (VFloat (int_div_float total_energy 10000)) in
  let offset := offset + 4 in
  let total_energy_loss := int_from_bytes_little (slice body offset (offset + 4)) in
  let result := dict_set result "total_energy_with_loss_kwh" (VFloat (int_div_float total_energy_loss 10000)) in
  let offset := offset + 4 in
  let total_amount := int_from_bytes_little (slice body offset (offset + 4)) in
  let result := dict_set result "total_amount_yuan" (VFloat (int_div_float total_amount 10000)) in
  let offset := offset + 4 in
  vin_code <- ascii_to_str (slice body offset (offset + 17)) ;;
  let result := dict_set result "vin_code" (VStr vin_code) in
  let offset := offset + 17 in
  trade_type <- index body offset ;;
  let result := dict_set result "trade_type" (VStr (code_label trade_types trade_type)) in
  let result := dict_set result "trade_type_code" (VInt trade_type) in
  let offset := offset + 1 in
  let result := dict_set result "trade_datetime" (VStr (parse_cp56time2a (slice body offset (offset + 7)))) in
  let offset := offset + 7 in
  stop_reason <- index body offset ;;
  let result := dict_set result "stop_reason_code" (VInt stop_reason) in
  let result := dict_set result "stop_reason" (VStr ("停止原因代码: " ++ str_int stop_reason)) in
  let offset := offset + 1 in
  let card_number := int_from_bytes_little (slice body offset (offset + 8)) in
  let result := dict_set result "physical_card_number" (VStr (card_number_str card_number "无卡")) in
  ret result.

(** [TransactionConfirmParser.parse] (0x40). *)
Definition TransactionConfirmParser_parse (body : list byte) : M dict :=
  ok <- validate_length TransactionConfirmParser body ;;
  if negb ok then ret [] else
  let result := [] in
  let result := dict_set result "transaction_id" (VStr (bcd_to_str (slice body 0 16))) in
  confirm_result <- index body 16 ;;
  let result := dict_set result "confirm_result" (VStr (if confirm_result =? 0x00 then "上传成功" else "非法账单")) in
  let result := dict_set result "confirm_result_code" (VInt confirm_result) in
  ret result.

(** [BalanceUpdateRequestParser.parse] (0x42). *)
Definition BalanceUpdateRequestParser_parse (body : list byte) : M dict :=
  ok <- validate_length BalanceUpdateRequestParser body ;;
  if negb ok then ret [] else
  let result := [] in
  let offset := 0 in
  let result := dict_set result "pile_code" (VStr (bcd_to_str (slice body offset (offset + 7)))) in
  let offset := offset + 7 in
  let result := dict_set result "gun_number" (VStr (bcd_to_str (slice body offset (offset + 1)))) in
  let offset := offset + 1 in
  let card_number := int_from_bytes_little (slice body offset (offset + 8)) in
  let result := dict_set result "physical_card_number" (VStr (card_number_str card_number "无需校验")) in
  let offset := offset + 8 in
  let balance := int_from_bytes_little (slice body offset (offset + 4)) in
  let result := dict_set result "new_balance_yuan" (VFloat (int_div_float balance 100)) in
  ret result.

Definition modify_results : list (Z * string) :=
  [(0x00, "修改成功"); (0x01, "设备编号错误"); (0x02, "卡号错误")].

(** [BalanceUpdateResponseParser.parse] (0x41). *)
Definition BalanceUpdateResponseParser_parse (body : list byte) : M dict :=
  ok <- validate_length BalanceUpdateResponseParser body ;;
  if negb ok then ret [] else
  let result := [] in
  let offset := 0 in
  let result := dict_set result "pile_code" (VStr (bcd_to_str (slice body offset (offset + 7)))) in
  let offset := offset + 7 in
  let card_number := int_from_bytes_little (slice body offset (offset + 8)) in
  let result := dict_set result "physical_card_number" (VStr (card_number_str card_number "无")) in
  let offset := offset + 8 in
  modify_result <- index body offset ;;
  let result := dict_set result "modify_result" (VStr (code_label modify_results modify_result)) in
  let result := dict_set result "modify_result_code" (VInt modify_result) in
  ret result.

(** ** The default decoder *)

(** [DefaultParser.parse]: the raw body in upper-case hex and a note that
    the frame type has no detailed decoder yet; it does not validate a
    length. *)
Definition DefaultParser_parse (body : list byte) : M dict :=
  ret [ ("raw", VStr (bytes_hex_upper body));
        ("note", VStr "该帧类型暂未实现详细解析") ].

(** ** BMS frames *)

(** [ParameterConfigParser.parse] (0x17). *)
Definition ParameterConfigParser_parse (body : list byte) : M dict :=
  ok <- validate_length ParameterConfigParser body ;;
  if negb ok then ret [] else
  let result := [] in
  let offset := 0 in
  let result := dict_set result "transaction_id" (VStr (bcd_to_str (slice body offset (offset + 16)))) in
  let offset := offset + 16 in
  let result := dict_set result "pile_code" (VStr (bcd_to_str (slice body offset (offset + 7)))) in
  let offset := offset + 7 in
  let result := dict_set result "gun_number" (VStr (bcd_to_str (slice body offset (offset + 1)))) in
  let offset := offset + 1 in
  let max_cell_voltage := int_from_bytes_little (slice body offset (offset + 2)) in
  let result := dict_set result "bms_max_cell_voltage_v" (VFloat (int_div_float max_cell_voltage 100)) in
  let offset := offset + 2 in
  let max_current := int_from_bytes_little (slice body offset (offset + 2)) in
  let result := dict_set result "bms_max_charge_current_a" (VFloat (float_sub_int (int_div_float max_current 10) 400)) in
  let offset := offset + 2 in
  let total_energy := int_from_bytes_little (slice body offset (offset + 2)) in
  let result := dict_set result "bms_rated_energy_kwh" (VFloat (int_div_float total_energy 10)) in
  let offset := offset + 2 in
  let max_voltage := int_from_bytes_little (slice body offset (offset + 2)) in
  let result := dict_set result "bms_max_total_voltage_v" (VFloat (int_div_float max_voltage 10)) in
  let offset := offset + 2 in
  max_temp <- index body offset ;;
  let result := dict_set result "bms_max_temperature_celsius" (VInt (max_temp - 50)) in
  let offset := offset + 1 in
  let soc := int_from_bytes_little (slice body offset (offset + 2)) in
  let result := dict_set result "bms_soc_percent" (VFloat (int_div_float soc 10)) in
  let offset := offset + 2 in
  let current_voltage := int_from_bytes_little (slice body offset (offset + 2)) in
  let result := dict_set result "bms_current_voltage_v" (VFloat (int_div_float current_voltage 10)) in
  let offset := offset + 2 in
  let charger_max_voltage := int_from_bytes_little (slice body offset (offset + 2)) in
  let result := dict_set result "charger_max_output_voltage_v" (VFloat (int_div_float charger_max_voltage 10)) in
  let offset := offset + 2 in
  let charger_min_voltage := int_from_bytes_little (slice body offset (offset + 2)) in
  let result := dict_set result "charger_min_output_voltage_v" (VFloat (int_div_float charger_min_voltage 10)) in
  let offset := offset + 2 in
  let charger_max_current := int_from_bytes_little (slice body offset (offset + 2)) in
  let result := dict_set result "charger_max_output_current_a" (VFloat (float_sub_int (int_div_float charger_max_current 10) 400)) in
  let offset := offset + 2 in
  let charger_min_current := int_from_bytes_little (slice body offset (offset + 2)) in
  let result := dict_set result "charger_min_output_current_a" (VFloat (float_sub_int (int_div_float charger_min_current 10) 400)) in
  ret result.

(** [ChargingEndParser.parse] (0x19). *)
Definition ChargingEndParser_parse (body : list byte) : M dict :=
  ok <- validate_length ChargingEndParser body ;;
  if negb ok then ret [] else
  let result := [] in
  let offset := 0 in
  let result := dict_set result "transaction_id" (VStr (bcd_to_str (slice body offset (offset + 16)))) in
  let offset := offset + 16 in
  let result := dict_set result "pile_code" (VStr (bcd_to_str (slice body offset (offset + 7)))) in
  let offset := offset + 7 in
  let result := dict_set result "gun_number" (VStr (bcd_to_str (slice body offset (offset + 1)))) in
  let offset := offset + 1 in
  stop_soc <- index body offset ;;
  let result := dict_set result "bms_stop_soc_percent" (VInt stop_soc) in
  let offset := offset + 1 in
  let min_voltage := int_from_bytes_little (slice body offset (offset + 2)) in
  let result := dict_set result "bms_min_cell_voltage_v" (VFloat (int_div_float min_voltage 100)) in
  let offset := offset + 2 in
  let max_voltage := int_from_bytes_little (slice body offset (offset + 2)) in
  let result := dict_set result "bms_max_cell_voltage_v" (VFloat (int_div_float max_voltage 100)) in
  let offset := offset + 2 in
  min_temp <- index body offset ;;
  let result := dict_set result "bms_min_temperature_celsius" (VInt (min_temp - 50)) in
  let offset := offset + 1 in
  max_temp <- index body offset ;;
  let result := dict_set result "bms_max_temperature_celsius" (VInt (max_temp - 50)) in
  let offset := offset + 1 in
  let charge_time := int_from_bytes_little (slice body offset (offset + 2)) in
  let result := dict_set result "charger_total_time_minutes" (VInt charge_time) in
  let offset := offset + 2 in
  let output_energy := int_from_bytes_little (slice body offset (offset + 2)) in
  let result := dict_set result "charger_output_energy_kwh" (VFloat (int_div_float output_energy 10)) in
  let offset := offset + 2 in
  let charger_number := int_from_bytes_little (slice body offset (offset + 4)) in
  let result := dict_set result "charger_number" (VInt charger_number) in
  ret result.

(** [[f"错误字节{i+1}: 0x{b:02X}" for i, b in enumerate(error_bytes)]]. *)
Fixpoint error_byte_labels (i : Z) (error_bytes : list byte) : list value :=
  match error_bytes with
  | [] => []
  | b :: rest =>
      VStr ("错误字节" ++ str_int (i + 1) ++ ": 0x" ++ fmt_X 2 (byte_val b))
      :: error_byte_labels (i + 1) rest
  end.

(** [ErrorMessageParser.parse] (0x1B). *)
Definition ErrorMessageParser_parse (body : list byte) : M dict :=
  ok <- validate_length ErrorMessageParser body ;;
  if negb ok then ret [] else
  let result := [] in
  let offset := 0 in
  let result := dict_set result "transaction_id" (VStr (bcd_to_str (slice body offset (offset + 16)))) in
  let offset := offset + 16 in
  let result := dict_set result "pile_code" (VStr (bcd_to_str (slice body offset (offset + 7)))) in
  let offset := offset + 7 in
  let result := dict_set result "gun_number" (VStr (bcd_to_str (slice body offset (offset + 1)))) in
  let offset := offset + 1 in
  let error_bytes := slice body offset (offset + 8) in
  let result := dict_set result "error_bytes_hex" (VStr (bytes_hex_upper error_bytes)) in
  let result := dict_set result "errors" (VList (error_byte_labels 0 error_bytes)) in
  ret result.

Definition bms_stop_reasons : list (Z * string) :=
  [(0x03, "达到所需求的SOC目标值"); (0x0C, "达到总电压的设定值");
   (0x30, "达到单体电压设定值"); (0xC0, "充电机主动中止")].

Definition bms_fault_names : list string :=
  [ "绝缘故障"; "输出连接器过温故障"; "BMS元件、输出连接器过温";
    "充电连接器故障"; "电池组温度过高故障"; "高压继电器故障";
    "检测点2电压检测故障"; "其他故障" ].

Definition bms_error_reasons : list (Z * string) :=
  [(0x03, "电流过大"); (0x0C, "电压异常")].

Definition _parse_bms_stop_reason (reason : Z) : string :=
  join_or_none (mask_labels bms_stop_reasons reason).

Definition _parse_bms_fault_reason (fault : Z) : string :=
  join_or_none (bit_labels 0x03 2 0 bms_fault_names fault).

Definition _parse_bms_error_reason (error : Z) : string :=
  join_or_none (mask_labels bms_error_reasons error).

(** [BMSStopParser.parse] (0x1D). *)
Definition BMSStopParser_parse (body : list byte) : M dict :=
  ok <- validate_length BMSStopParser body ;;
  if negb ok then ret [] else
  let result := [] in
  let offset := 0 in
  let result := dict_set result "transaction_id" (VStr (bcd_to_str (slice body offset (offset + 16)))) in
  let offset := offset + 16 in
  let result := dict_set result "pile_code" (VStr (bcd_to_str (slice body offset (offset + 7)))) in
  let offset := offset + 7 in
  let result := dict_set result "gun_number" (VStr (bcd_to_str (slice body offset (offset + 1)))) in
  let offset := offset + 1 in
  stop_reason <- index body offset ;;
  let result := dict_set result "bms_stop_reason_code" (VInt stop_reason) in
  let result := dict_set result "bms_stop_reason" (VStr (_parse_bms_stop_reason stop_reason)) in
  let offset := offset + 1 in
  let fault_reason := int_from_bytes_little (slice body offset (offset + 2)) in
  let result := dict_set result "bms_fault_reason_code" (VInt fault_reason) in
  let result := dict_set result "bms_fault_reason" (VStr (_parse_bms_fault_reason fault_reason)) in
  let offset := offset + 2 in
  error_reason <- index body offset ;;
  let result := dict_set result "bms_error_reason_code" (VInt error_reason) in
  let result := dict_set result "bms_error_reason" (VStr (_parse_bms_error_reason error_reason)) in
  ret result.

Definition charger_stop_reasons : list (Z * string) :=
  [(0x03, "达到充电机设定的条件中止"); (0x0C, "人工中止");
   (0x30, "异常中止"); (0xC0, "BMS主动中止")].

Definition charger_fault_names : list string :=
  [ "充电机过温故障"; "充电连接器故障"; "充电机内部过温故障";
    "所需电量不能传送"; "充电机急停故障"; "其他故障" ].

Definition charger_error_reasons : list (Z * string) :=
  [(0x03, "电流不匹配"); (0x0C, "电压异常")].

Definition _parse_charger_stop_reason (reason : Z) : string :=
  join_or_none (mask_labels charger_stop_reasons reason).

Definition _parse_charger_fault_reason (fault : Z) : string :=
  join_or_none (bit_labels 0x03 2 0 charger_fault_names fault).

Definition _parse_charger_error_reason (error : Z) : string :=
  join_or_none (mask_labels charger_error_reasons error).

(** [ChargerStopParser.parse] (0x21). *)
Definition ChargerStopParser_parse (body : list byte) : M dict :=
  ok <- validate_length ChargerStopParser body ;;
  if negb ok then ret [] else
  let result := [] in
  let offset := 0 in
  let result := dict_set result "transaction_id" (VStr (bcd_to_str (slice body offset (offset + 16)))) in
  let offset := offset + 16 in
  let result := dict_set result "pile_code" (VStr (bcd_to_str (slice body offset (offset + 7)))) in
  let offset := offset + 7 in
  let result := dict_set result "gun_number" (VStr (bcd_to_str (slice body offset (offset + 1)))) in
  let offset := offset + 1 in
  stop_reason <- index body offset ;;
  let result := dict_set result "charger_stop_reason_code" (VInt stop_reason) in
  let result := dict_set result "charger_stop_reason" (VStr (_parse_charger_stop_reason stop_reason)) in
  let offset := offset + 1 in
  let fault_reason := int_from_bytes_little (slice body offset (offset + 2)) in
  let result := dict_set result "charger_fault_reason_code" (VInt fault_reason) in
  let result := dict_set result "charger_fault_reason" (VStr (_parse_charger_fault_reason fault_reason)) in
  let offset := offset + 2 in
  error_reason <- index body offset ;;
  let result := dict_set result "charger_error_reason_code" (VInt error_reason) in
  let result := dict_set result "charger_error_reason" (VStr (_parse_charger_error_reason error_reason)) in
  ret result.

(** [BMSDemandOutputParser.parse] (0x23). *)
Definition BMSDemandOutputParser_parse (body : list byte) : M dict :=
  ok <- validate_length BMSDemandOutputParser body ;;
  if negb ok then ret [] else
  let result := [] in
  let offset := 0 in
  let result := dict_set result "transaction_id" (VStr (bcd_to_str (slice body offset (offset + 16)))) in
  let offset := offset + 16 in
  let result := dict_set result "pile_code" (VStr (bcd_to_str (slice body offset (offset + 7)))) in
  let offset := offset + 7 in
  let result := dict_set result "gun_number" (VStr (bcd_to_str (slice body offset (offset + 1)))) in
  let offset := offset + 1 in
  let bms_voltage_demand := int_from_bytes_little (slice body offset (offset + 2)) in
  let result := dict_set result "bms_voltage_demand_v" (VFloat (int_div_float bms_voltage_demand 10)) in
  let offset := offset + 2 in
  let bms_current_demand := int_from_bytes_little (slice body offset (offset + 2)) in
  let result := dict_set result "bms_current_demand_a" (VFloat (float_sub_int (int_div_float bms_current_demand 10) 400)) in
  let offset := offset + 2 in
  charge_mode <- index body offset ;;
  let result := dict_set result "bms_charge_mode" (VStr (if charge_mode =? 0x01 then "恒压充电" else "恒流充电")) in
  let result := dict_set result "bms_charge_mode_code" (VInt charge_mode) in
  let offset := offset + 1 in
  let bms_voltage_measured := int_from_bytes_little (slice body offset (offset + 2)) in
  let result := dict_set result "bms_voltage_measured_v" (VFloat (int_div_float bms_voltage_measured 10)) in
  let offset := offset + 2 in
  let bms_current_measured := int_from_bytes_little (slice body offset (offset + 2)) in
  let result := dict_set result "bms_current_measured_a" (VFloat (float_sub_int (int_div_float bms_current_measured 10) 400)) in
  let offset := offset + 2 in
  let cell_voltage_data := int_from_bytes_little (slice body offset (offset + 2)) in
  let cell_voltage := int_div_float (Z.land cell_voltage_data 0x0FFF) 100 in
  let cell_group := Z.land (Z.shiftr cell_voltage_data 12) 0x0F in
  let result := dict_set result "bms_max_cell_voltage_v" (VFloat cell_voltage) in
  let result := dict_set result "bms_max_cell_group_number" (VInt cell_group) in
  let offset := offset + 2 in
  soc <- index body offset ;;
  let result := dict_set result "bms_current_soc_percent" (VInt soc) in
  let offset := offset + 1 in
  let remaining_time := int_from_bytes_little (slice body offset (offset + 2)) in
  let result := dict_set result "bms_estimated_remaining_time_minutes" (VInt remaining_time) in
  let offset := offset + 2 in
  let charger_voltage := int_from_bytes_little (slice body offset (offset + 2)) in
  let result := dict_set result "charger_output_voltage_v" (VFloat (int_div_float charger_voltage 10)) in
  let offset := offset + 2 in
  let charger_current := int_from_bytes_little (slice body offset (offset + 2)) in
  let result := dict_set result "charger_output_current_a" (VFloat (float_sub_int (int_div_float charger_current 10) 400)) in
  let offset := offset + 2 in
  let total_time := int_from_bytes_little (slice body offset (offset + 2)) in
  let result := dict_set result "total_charge_time_minutes" (VInt total_time) in
  ret result.

(** [BMSInfoParser._parse_bms_status_flags]: seven two-bit fields. *)
Definition _parse_bms_status_flags (status_bytes : list byte) : dict :=
  let status_int := int_from_bytes_little status_bytes in
  let flags := [] in
  let cell_voltage := Z.land (Z.shiftr status_int 0) 0x03 in
  let flags := dict_set flags "单体电压"
    (VStr (table_get [(0, "正常"); (1, "过高"); (2, "过低")] cell_voltage "未知")) in
  let soc := Z.land (Z.shiftr status_int 2) 0x03 in
  let flags := dict_set flags "SOC"
    (VStr (table_get [(0, "正常"); (1, "过高"); (2, "过低")] soc "未知")) in
  let overcurrent := Z.land (Z.shiftr status_int 4) 0x03 in
  let flags := dict_set flags "充电过电流"
    (VStr (table_get [(0, "正常"); (1, "过流"); (2, "不可信")] overcurrent "未知")) in
  let temp := Z.land (Z.shiftr status_int 6) 0x03 in
  let flags := dict_set flags "电池温度"
    (VStr (table_get [(0, "正常"); (1, "过高"); (2, "不可信")] temp "未知")) in
  let insulation := Z.land (Z.shiftr status_int 8) 0x03 in
  let flags := dict_set flags "绝缘状态"
    (VStr (table_get [(0, "正常"); (1, "故障"); (2, "不可信")] insulation "未知")) in
  let connector := Z.land (Z.shiftr status_int 10) 0x03 in
  let flags := dict_set flags "输出连接器"
    (VStr (table_get [(0, "正常"); (1, "故障"); (2, "不可信")] connector "未知")) in
  let charge_permit := Z.land (Z.shiftr status_int 12) 0x03 in
  let flags := dict_set flags "充电许可"
    (VStr (table_get [(0, "禁止"); (1, "允许")] charge_permit "未知")) in
  flags.

(** [BMSInfoParser.parse] (0x25). *)
Definition BMSInfoParser_parse (body : list byte) : M dict :=
  ok <- validate_length BMSInfoParser body ;;
  if negb ok then ret [] else
  let result := [] in
  let offset := 0 in
  let result := dict_set result "transaction_id" (VStr (bcd_to_str (slice body offset (offset + 16)))) in
  let offset := offset + 16 in
  let result := dict_set result "pile_code" (VStr (bcd_to_str (slice body offset (offset + 7)))) in
  let offset := offset + 7 in
  let result := dict_set result "gun_number" (VStr (bcd_to_str (slice body offset (offset + 1)))) in
  let offset := offset + 1 in
  max_cell_number <- index body offset ;;
  let result := dict_set result "bms_max_cell_number" (VInt (max_cell_number + 1)) in
  let offset := offset + 1 in
  max_temp <- index body offset ;;
  let result := dict_set result "bms_max_temperature_celsius" (VInt (max_temp - 50)) in
  let offset := offset + 1 in
  max_temp_sensor <- index body offset ;;
  let result := dict_set result "max_temperature_sensor_number" (VInt (max_temp_sensor + 1)) in
  let offset := offset + 1 in
  min_temp <- index body offset ;;
  let result := dict_set result "bms_min_temperature_celsius" (VInt (min_temp - 50)) in
  let offset := offset + 1 in
  min_temp_sensor <- index body offset ;;
  let result := dict_set result "min_temperature_sensor_number" (VInt (min_temp_sensor + 1)) in
  let offset := offset + 1 in
  let status_bytes := slice body offset (offset + 2) in
  let result := dict_set result "status_hex" (VStr (bytes_hex_upper status_bytes)) in
  let result := dict_set result "status_flags" (VDict (_parse_bms_status_flags status_bytes)) in
  ret result.

(** ** Offline-card frames *)

(** The message of the count check in the three batch decoders. *)
Definition offline_length_error (expected_len : Z) (body : list byte) : string :=
  "离线卡数据长度不足: 需要" ++ str_int expected_len ++ "字节, 实际" ++
  str_int (len body) ++ "字节".

(** [for i in range(n)] of [OfflineCardSyncParser]: a logical and a
    physical card number, eight bytes each. *)
Fixpoint sync_cards_loop (n : nat) (body : list byte) (offset : Z)
  (cards : list value) : list value :=
  match n with
  | O => cards
  | S n' =>
      let card := [] in
      let card := dict_set card "logical_card_number" (VStr (bcd_to_str (slice body offset (offset + 8)))) in
      let offset := offset + 8 in
      let physical := int_from_bytes_little (slice body offset (offset + 8)) in
      let card := dict_set card "physical_card_number" (VStr (fmt_X 16 physical)) in
      let offset := offset + 8 in
      sync_cards_loop n' body offset (cards ++ [VDict card])
  end.

(** [OfflineCardSyncParser.parse] (0x44). *)
Definition OfflineCardSyncParser_parse (body : list byte) : M dict :=
  ok <- validate_length OfflineCardSyncParser body ;;
  if negb ok then ret [] else
  let result := [] in
  let offset := 0 in
  let result := dict_set result "pile_code" (VStr (bcd_to_str (slice body offset (offset + 7)))) in
  let offset := offset + 7 in
  card_count <- index body offset ;;
  let result := dict_set result "card_count" (VInt card_count) in
  let offset := offset + 1 in
  let expected_len := 8 + card_count * 16 in
  when (len body <? expected_len) (add_error (offline_length_error expected_len body)) ;;;
  let cards := sync_cards_loop (Z.to_nat (Z.min card_count ((len body - 8) / 16))) body offset [] in
  let result := dict_set result "cards" (VList cards) in
  ret result.

Definition sync_fail_reasons : list (Z * string) :=
  [(0x00, "无"); (0x01, "卡号格式错误"); (0x02, "储存空间不足")].

(** [OfflineCardSyncResponseParser.parse] (0x43). *)
Definition OfflineCardSyncResponseParser_parse (body : list byte) : M dict :=
  ok <- validate_length OfflineCardSyncResponseParser body ;;
  if negb ok then ret [] else
  let result := [] in
  let result := dict_set result "pile_code" (VStr (bcd_to_str (slice body 0 7))) in
  save_result <- index body 7 ;;
  let result := dict_set result "save_result" (VStr (if save_result =? 0x01 then "成功" else "失败")) in
  let result := dict_set result "save_result_code" (VInt save_result) in
  fail_reason <- index body 8 ;;
  let result := dict_set result "fail_reason" (VStr (code_label sync_fail_reasons fail_reason)) in
  let result := dict_set result "fail_reason_code" (VInt fail_reason) in
  ret result.

(** [for i in range(n)] of the delete and query batches: one physical card
    number of eight bytes per record. *)
Fixpoint card_numbers_loop (n : nat) (body : list byte) (offset : Z)
  (cards : list value) : list value :=
  match n with
  | O => cards
  | S n' =>
      let physical := int_from_bytes_little (slice body offset (offset + 8)) in
      let cards := (cards ++ [VStr (fmt_X 16 physical)])%list in
      let offset := offset + 8 in
      card_numbers_loop n' body offset cards
  end.

(** [OfflineCardDeleteParser.parse] (0x46). *)
Definition OfflineCardDeleteParser_parse (body : list byte) : M dict :=
  ok <- validate_length OfflineCardDeleteParser body ;;
  if negb ok then ret [] else
  let result := [] in
  let offset := 0 in
  let result := dict_set result "pile_code" (VStr (bcd_to_str (slice body offset (offset + 7)))) in
  let offset := offset + 7 in
  card_count <- index body offset ;;
  let result := dict_set result "card_count" (VInt card_count) in
  let offset := offset + 1 in
  let expected_len := 8 + card_count * 8 in
  when (len body <? expected_len) (add_error (offline_length_error expected_len body)) ;;;
  let cards := card_numbers_loop (Z.to_nat (Z.min card_count ((len body - 8) / 8))) body offset [] in
  let result := dict_set result "card_numbers" (VList cards) in
  ret result.

Definition delete_fail_reasons : list (Z * string) :=
  [(0x00, "清除成功"); (0x01, "卡号格式错误")].

(** [while offset + 10 <= len(body)] of [OfflineCardDeleteResponseParser];
    every pass advances the offset by ten, so [length body] passes are
    more than the loop can make. *)
Fixpoint delete_response_loop (fuel : nat) (body : list byte) (offset : Z)
  (cards : list value) : M (list value) :=
  match fuel with
  | O => ret cards
  | S fuel' =>
      if offset + 10 <=? len body then
        let card := [] in
        let physical := int_from_bytes_little (slice body offset (offset + 8)) in
        let card := dict_set card "physical_card_number" (VStr (fmt_X 16 physical)) in
        let offset := offset + 8 in
        delete_flag <- index body offset ;;
        let card := dict_set card "delete_result" (VStr (if delete_flag =? 0x01 then "清除成功" else "清除失败")) in
        let card := dict_set card "delete_flag" (VInt delete_flag) in
        let offset := offset + 1 in
        fail_reason <- index body offset ;;
        let card := dict_set card "fail_reason" (VStr (code_label delete_fail_reasons fail_reason)) in
        let card := dict_set card "fail_reason_code" (VInt fail_reason) in
        let offset := offset + 1 in
        delete_response_loop fuel' body offset (cards ++ [VDict card])
      else ret cards
  end.

(** [OfflineCardDeleteResponseParser.parse] (0x45). *)
Definition OfflineCardDeleteResponseParser_parse (body : list byte) : M dict :=
  ok <- validate_length OfflineCardDeleteResponseParser body ;;
  if negb ok then ret [] else
  let result := [] in
  let offset := 0 in
  let result := dict_set result "pile_code" (VStr (bcd_to_str (slice body offset (offset + 7)))) in
  let offset := offset + 7 in
  cards <- delete_response_loop (length body) body offset [] ;;
  let result := dict_set result "cards" (VList cards) in
  ret result.

(** [OfflineCardQueryParser.parse] (0x48). *)
Definition OfflineCardQueryParser_parse (body : list byte) : M dict :=
  ok <- validate_length OfflineCardQueryParser body ;;
  if negb ok then ret [] else
  let result := [] in
  let offset := 0 in
  let result := dict_set result "pile_code" (VStr (bcd_to_str (slice body offset (offset + 7)))) in
  let offset := offset + 7 in
  card_count <- index body offset ;;
  let result := dict_set result "card_count" (VInt card_count) in
  let offset := offset + 1 in
  let expected_len := 8 + card_count * 8 in
  when (len body <? expected_len) (add_error (offline_length_error expected_len body)) ;;;
  let cards := card_numbers_loop (Z.to_nat (Z.min card_count ((len body - 8) / 8))) body offset [] in
  let result := dict_set result "card_numbers" (VList cards) in
  ret result.

(** [while offset + 9 <= len(body)] of [OfflineCardQueryResponseParser];
    every pass advances the offset by nine. *)
Fixpoint query_response_loop (fuel : nat) (body : list byte) (offset : Z)
  (cards : list value) : M (list value) :=
  match fuel with
  | O => ret cards
  | S fuel' =>
      if offset + 9 <=? len body then
        let card := [] in
        let physical := int_from_bytes_little (slice body offset (offset + 8)) in
        let card := dict_set card "physical_card_number" (VStr (fmt_X 16 physical)) in
        let offset := offset + 8 in
        query_result <- index body offset ;;
        let card := dict_set card "exists" (VBool (query_result =? 0x01)) in
        let card := dict_set card "query_result" (VStr (if query_result =? 0x01 then "存在" else "不存在")) in
        let card := dict_set card "query_result_code" (VInt query_result) in
        let offset := offset + 1 in
        query_response_loop fuel' body offset (cards ++ [VDict card])
      else ret cards
  end.

(** [OfflineCardQueryResponseParser.parse] (0x47). *)
Definition OfflineCardQueryResponseParser_parse (body : list byte) : M dict :=
  ok <- validate_length OfflineCardQueryResponseParser body ;;
  if negb ok then ret [] else
  let result := [] in
  let offset := 0 in
  let result := dict_set result "pile_code" (VStr (bcd_to_str (slice body offset (offset + 7)))) in
  let offset := offset + 7 in
  cards <- query_response_loop (length body) body offset [] ;;
  let result := dict_set result "cards" (VList cards) in
  ret result.

(** ** Start and stop frames *)

Definition start_modes : list (Z * string) :=
  [(0x01, "刷卡启动"); (0x02, "VIN启动"); (0x03, "自动充满");
   (0x04, "按电量"); (0x05, "按金额"); (0x06, "按时间")].

Definition charge_modes : list (Z * string) :=
  [(0x01, "自动充满"); (0x02, "按电量"); (0x03, "按金额"); (0x04, "按时间")].

(** [ChargingStartRequestParser.parse] (0x31). *)
Definition ChargingStartRequestParser_parse (body : list byte) : M dict :=
  ok <- validate_length ChargingStartRequestParser body ;;
  if negb ok then ret [] else
  let result := [] in
  let offset := 0 in
  let result := dict_set result "pile_code" (VStr (bcd_to_str (slice body offset (offset + 7)))) in
  let offset := offset + 7 in
  let result := dict_set result "gun_number" (VStr (bcd_to_str (slice body offset (offset + 1)))) in
  let offset := offset + 1 in
  let card_number := int_from_bytes_little (slice body offset (offset + 8)) in
  let result := dict_set result "physical_card_number" (VStr (card_number_str card_number "无卡")) in
  let offset := offset + 8 in
  let balance := int_from_bytes_little (slice body offset (offset + 4)) in
  let result := dict_set result "card_balance_yuan" (VFloat (int_div_float balance 100)) in
  let offset := offset + 4 in
  start_mode <- index body offset ;;
  let result := dict_set result "start_mode" (VStr (code_label start_modes start_mode)) in
  let result := dict_set result "start_mode_code" (VInt start_mode) in
  ret result.

(** [ChargingStartConfirmParser.parse] (0x32). *)
Definition ChargingStartConfirmParser_parse (body : list byte) : M dict :=
  ok <- validate_length ChargingStartConfirmParser body ;;
  if negb ok then ret [] else
  let result := [] in
  let offset := 0 in
  let result := dict_set result "pile_code" (VStr (bcd_to_str (slice body offset (offset + 7)))) in
  let offset := offset + 7 in
  let result := dict_set result "gun_number" (VStr (bcd_to_str (slice body offset (offset + 1)))) in
  let offset := offset + 1 in
  start_result <- index body offset ;;
  let result := dict_set result "start_result" (VStr (if start_result =? 0x00 then "启动成功" else "启动失败")) in
  let result := dict_set result "start_result_code" (VInt start_result) in
  let offset := offset + 1 in
  charge_mode <- index body offset ;;
  let result := dict_set result "charge_mode" (VStr (code_label charge_modes charge_mode)) in
  let result := dict_set result "charge_mode_code" (VInt charge_mode) in
  let offset := offset + 1 in
  let order_number := int_from_bytes_little (slice body offset (offset + 4)) in
  let result := dict_set result "order_number" (VInt order_number) in
  ret result.

Definition start_fail_reasons : list (Z * string) :=
  [(0x00, "无"); (0x01, "此充电桩不存在"); (0x02, "此充电枪不存在");
   (0x03, "设备故障"); (0x04, "设备离线"); (0x05, "充电桩有车占位");
   (0x06, "充电桩已在充电")].

(** [RemoteStartReplyParser.parse] (0x33). *)
Definition RemoteStartReplyParser_parse (body : list byte) : M dict :=
  ok <- validate_length RemoteStartReplyParser body ;;
  if negb ok then ret [] else
  let result := [] in
  let offset := 0 in
  let result := dict_set result "pile_code" (VStr (bcd_to_str (slice body offset (offset + 7)))) in
  let offset := offset + 7 in
  let result := dict_set result "gun_number" (VStr (bcd_to_str (slice body offset (offset + 1)))) in
  let offset := offset + 1 in
  exec_result <- index body offset ;;
  let result := dict_set result "exec_result" (VStr (if exec_result =? 0x00 then "执行成功" else "执行失败")) in
  let result := dict_set result "exec_result_code" (VInt exec_result) in
  let offset := offset + 1 in
  let order_number := int_from_bytes_little (slice body offset (offset + 4)) in
  let result := dict_set result "order_number" (VInt order_number) in
  let offset := offset + 4 in
  fail_reason <- index body offset ;;
  let result := dict_set result "fail_reason" (VStr (code_label start_fail_reasons fail_reason)) in
  let result := dict_set result "fail_reason_code" (VInt fail_reason) in
  ret result.

(** [RemoteStartCommandParser.parse] (0x34). *)
Definition RemoteStartCommandParser_parse (body : list byte) : M dict :=
  ok <- validate_length RemoteStartCommandParser body ;;
  if negb ok then ret [] else
  let result := [] in
  let offset := 0 in
  let result := dict_set result "pile_code" (VStr (bcd_to_str (slice body offset (offset + 7)))) in
  let offset := offset + 7 in
  let result := dict_set result "gun_number" (VStr (bcd_to_str (slice body offset (offset + 1)))) in
  let offset := offset + 1 in
  let card_number := int_from_bytes_little (slice body offset (offset + 8)) in
  let result := dict_set result "physical_card_number" (VStr (card_number_str card_number "无卡")) in
  let offset := offset + 8 in
  let balance := int_from_bytes_little (slice body offset (offset + 4)) in
  let result := dict_set result "card_balance_yuan" (VFloat (int_div_float balance 100)) in
  let offset := offset + 4 in
  charge_mode <- index body offset ;;
  let result := dict_set result "charge_mode" (VStr (code_label charge_modes charge_mode)) in
  let result := dict_set result "charge_mode_code" (VInt charge_mode) in
  ret result.

Definition stop_fail_reasons : list (Z * string) :=
  [(0x00, "无"); (0x01, "此充电桩不存在"); (0x02, "此充电枪不存在");
   (0x03, "设备故障"); (0x04, "设备离线"); (0x05, "充电枪空闲")].

(** [RemoteStopReplyParser.parse] (0x35). *)
Definition RemoteStopReplyParser_parse (body : list byte) : M dict :=
  ok <- validate_length RemoteStopReplyParser body ;;
  if negb ok then ret [] else
  let result := [] in
  let offset := 0 in
  let result := dict_set result "pile_code" (VStr (bcd_to_str (slice body offset (offset + 7)))) in
  let offset := offset + 7 in
  let result := dict_set result "gun_number" (VStr (bcd_to_str (slice body offset (offset + 1)))) in
  let offset := offset + 1 in
  exec_result <- index body offset ;;
  let result := dict_set result "exec_result" (VStr (if exec_result =? 0x00 then "执行成功" else "执行失败")) in
  let result := dict_set result "exec_result_code" (VInt exec_result) in
  let offset := offset + 1 in
  let order_number := int_from_bytes_little (slice body offset (offset + 4)) in
  let result := dict_set result "order_number" (VInt order_number) in
  let offset := offset + 4 in
  fail_reason <- index body offset ;;
  let result := dict_set result "fail_reason" (VStr (code_label stop_fail_reasons fail_reason)) in
  let result := dict_set result "fail_reason_code" (VInt fail_reason) in
  ret result.

(** [RemoteStopCommandParser.parse] (0x36). *)
Definition RemoteStopCommandParser_parse (body : list byte) : M dict :=
  ok <- validate_length RemoteStopCommandParser body ;;
  if negb ok then ret [] else
  let result := [] in
  let offset := 0 in
  let result := dict_set result "pile_code" (VStr (bcd_to_str (slice body offset (offset + 7)))) in
  let offset := offset + 7 in
  let result := dict_set result "gun_number" (VStr (bcd_to_str (slice body offset (offset + 1)))) in
  let offset := offset + 1 in
  let order_number := int_from_bytes_little (slice body offset (offset + 4)) in
  let result := dict_set result "order_number" (VInt order_number) in
  ret result.

(** ** Platform settings frames *)

(** [WorkParameterSetResponseParser.parse] (0x51). *)
Definition WorkParameterSetResponseParser_parse (body : list byte) : M dict :=
  ok <- validate_length WorkParameterSetResponseParser body ;;
  if negb ok then ret [] else
  let result := [] in
  let result := dict_set result "pile_code" (VStr (bcd_to_str (slice body 0 7))) in
  set_result <- index body 7 ;;
  let result := dict_set result "set_result" (VStr (if set_result =? 0x00 then "设置成功" else "设置失败")) in
  let result := dict_set result "set_result_code" (VInt set_result) in
  ret result.

Definition param_types : list (Z * string) :=
  [(0x01, "心跳周期"); (0x02, "IP地址"); (0x03, "端口号"); (0x04, "APN");
   (0x05, "服务器域名")].

(** [WorkParameterSetParser.parse] (0x52). *)
Definition WorkParameterSetParser_parse (body : list byte) : M dict :=
  ok <- validate_length WorkParameterSetParser body ;;
  if negb ok then ret [] else
  let result := [] in
  let offset := 0 in
  let result := dict_set result "pile_code" (VStr (bcd_to_str (slice body offset (offset + 7)))) in
  let offset := offset + 7 in
  param_type <- index body offset ;;
  let result := dict_set result "param_type" (VStr (code_label param_types param_type)) in
  let result := dict_set result "param_type_code" (VInt param_type) in
  let offset := offset + 1 in
  let param_value := slice body offset (offset + 10) in
  let result := dict_set result "param_value" (VStr (bytes_hex_upper param_value)) in
  param_value_ascii <- ascii_to_str param_value ;;
  let result := dict_set result "param_value_ascii" (VStr param_value_ascii) in
  ret result.

(** [TimeSyncResponseParser.parse] (0x55). *)
Definition TimeSyncResponseParser_parse (body : list byte) : M dict :=
  ok <- validate_length TimeSyncResponseParser body ;;
  if negb ok then ret [] else
  let result := [] in
  let result := dict_set result "pile_code" (VStr (bcd_to_str (slice body 0 7))) in
  sync_result <- index body 7 ;;
  let result := dict_set result "sync_result" (VStr (if sync_result =? 0x00 then "对时成功" else "对时失败")) in
  let result := dict_set result "sync_result_code" (VInt sync_result) in
  ret result.

(** [TimeSyncParser.parse] (0x56). *)
Definition TimeSyncParser_parse (body : list byte) : M dict :=
  ok <- validate_length TimeSyncParser body ;;
  if negb ok then ret [] else
  let result := [] in
  let result := dict_set result "pile_code" (VStr (bcd_to_str (slice body 0 7))) in
  let result := dict_set result "sync_time" (VStr (parse_cp56time2a (slice body 7 14))) in
  ret result.

(** [BillingModelResponseParser.parse] (0x57). *)
Definition BillingModelResponseParser_parse (body : list byte) : M dict :=
  ok <- validate_length BillingModelResponseParser body ;;
  if negb ok then ret [] else
  let result := [] in
  let result := dict_set result "pile_code" (VStr (bcd_to_str (slice body 0 7))) in
  set_result <- index body 7 ;;
  let result := dict_set result "set_result" (VStr (if set_result =? 0x00 then "设置成功" else "设置失败")) in
  let result := dict_set result "set_result_code" (VInt set_result) in
  ret result.

(** [BillingModelSetParser.parse] (0x58). *)
Definition BillingModelSetParser_parse (body : list byte) : M dict :=
  ok <- validate_length BillingModelSetParser body ;;
  if negb ok then ret [] else
  let result := [] in
  let result := dict_set result "pile_code" (VStr (bcd_to_str (slice body 0 7))) in
  let result := dict_set result "billing_model_data" (VStr (bytes_hex_upper (slice_from body 7))) in
  let result := dict_set result "note" (VStr "计费模型数据结构待详细解析") in
  ret result.

(** ** Parking-lock frames *)

Definition lock_statuses : list (Z * string) :=
  [(0x00, "降下"); (0x01, "升起"); (0x02, "故障")].

Definition control_cmds : list (Z * string) :=
  [(0x00, "降下"); (0x01, "升起")].

(** [ParkingLockStatusParser.parse] (0x61). *)
Definition ParkingLockStatusParser_parse (body : list byte) : M dict :=
  ok <- validate_length ParkingLockStatusParser body ;;
  if negb ok then ret [] else
  let result := [] in
  let result := dict_set result "pile_code" (VStr (bcd_to_str (slice body 0 7))) in
  lock_status <- index body 7 ;;
  let result := dict_set result "lock_status" (VStr (code_label lock_statuses lock_status)) in
  let result := dict_set result "lock_status_code" (VInt lock_status) in
  battery_level <- index body 8 ;;
  let result := dict_set result "battery_level_percent" (VInt battery_level) in
  ret result.

(** [ParkingLockControlParser.parse] (0x62). *)
Definition ParkingLockControlParser_parse (body : list byte) : M dict :=
  ok <- validate_length ParkingLockControlParser body ;;
  if negb ok then ret [] else
  let result := [] in
  let result := dict_set result "pile_code" (VStr (bcd_to_str (slice body 0 7))) in
  control_cmd <- index body 7 ;;
  let result := dict_set result "control_command" (VStr (code_label control_cmds control_cmd)) in
  let result := dict_set result "control_command_code" (VInt control_cmd) in
  ret result.

(** [ParkingLockResponseParser.parse] (0x63). *)
Definition ParkingLockResponseParser_parse (body : list byte) : M dict :=
  ok <- validate_length ParkingLockResponseParser body ;;
  if negb ok then ret [] else
  let result := [] in
  let result := dict_set result "pile_code" (VStr (bcd_to_str (slice body 0 7))) in
  exec_result <- index body 7 ;;
  let result := dict_set result "exec_result" (VStr (if exec_result =? 0x00 then "执行成功" else "执行失败")) in
  let result := dict_set result "exec_result_code" (VInt exec_result) in
  ret result.

(** ** Remote maintenance frames *)

(** [RemoteRebootResponseParser.parse] (0x91). *)
Definition RemoteRebootResponseParser_parse (body : list byte) : M dict :=
  ok <- validate_length RemoteRebootResponseParser body ;;
  if negb ok then ret [] else
  let result := [] in
  let result := dict_set result "pile_code" (VStr (bcd_to_str (slice body 0 7))) in
  reboot_result <- index body 7 ;;
  let result := dict_set result "reboot_result" (VStr (if reboot_result =? 0x00 then "重启成功" else "重启失败")) in
  let result := dict_set result "reboot_result_code" (VInt reboot_result) in
  ret result.

(** [RemoteRebootParser.parse] (0x92). *)
Definition RemoteRebootParser_parse (body : list byte) : M dict :=
  ok <- validate_length RemoteRebootParser body ;;
  if negb ok then ret [] else
  let result := [] in
  let result := dict_set result "pile_code" (VStr (bcd_to_str (slice body 0 7))) in
  ret result.

(** [RemoteUpdateResponseParser.parse] (0x93). *)
Definition RemoteUpdateResponseParser_parse (body : list byte) : M dict :=
  ok <- validate_length RemoteUpdateResponseParser body ;;
  if negb ok then ret [] else
  let result := [] in
  let result := dict_set result "pile_code" (VStr (bcd_to_str (slice body 0 7))) in
  update_result <- index body 7 ;;
  let result := dict_set result "update_result" (VStr (if update_result =? 0x00 then "更新成功" else "更新失败")) in
  let result := dict_set result "update_result_code" (VInt update_result) in
  ret result.

(** [RemoteUpdateParser.parse] (0x94). *)
Definition RemoteUpdateParser_parse (body : list byte) : M dict :=
  ok <- validate_length RemoteUpdateParser body ;;
  if negb ok then ret [] else
  let result := [] in
  let result := dict_set result "pile_code" (VStr (bcd_to_str (slice body 0 7))) in
  let result := dict_set result "update_params" (VStr (bytes_hex_upper (slice_from body 7))) in
  let result := dict_set result "note" (VStr "更新参数数据待详细解析") in
  ret result.

(** ** Parallel-charging frames *)

(** [ParallelChargingRequestParser.parse] (0xA1). *)
Definition ParallelChargingRequestParser_parse (body : list byte) : M dict :=
  ok <- validate_length ParallelChargingRequestParser body ;;
  if negb ok then ret [] else
  let result := [] in
  let result := dict_set result "pile_code" (VStr (bcd_to_str (slice body 0 7))) in
  request_type <- index body 7 ;;
  let result := dict_set result "request_type"
    (VStr (if request_type =? 0x01 then "申请并充" else "未知(" ++ str_int request_type ++ ")")) in
  let result := dict_set result "request_type_code" (VInt request_type) in
  ret result.

(** [ParallelChargingConfirmParser.parse] (0xA2). *)
Definition ParallelChargingConfirmParser_parse (body : list byte) : M dict :=
  ok <- validate_length ParallelChargingConfirmParser body ;;
  if negb ok then ret [] else
  let result := [] in
  let result := dict_set result "pile_code" (VStr (bcd_to_str (slice body 0 7))) in
  confirm_result <- index body 7 ;;
  let result := dict_set result "confirm_result" (VStr (if confirm_result =? 0x00 then "确认成功" else "确认失败")) in
  let result := dict_set result "confirm_result_code" (VInt confirm_result) in
  ret result.

(** [ParallelChargingReplyParser.parse] (0xA3). *)
Definition ParallelChargingReplyParser_parse (body : list byte) : M dict :=
  ok <- validate_length ParallelChargingReplyParser body ;;
  if negb ok then ret [] else
  let result := [] in
  let result := dict_set result "pile_code" (VStr (bcd_to_str (slice body 0 7))) in
  exec_result <- index body 7 ;;
  let result := dict_set result "exec_result" (VStr (if exec_result =? 0x00 then "执行成功" else "执行失败")) in
  let result := dict_set result "exec_result_code" (VInt exec_result) in
  ret result.

(** [ParallelChargingCommandParser.parse] (0xA4). *)
Definition ParallelChargingCommandParser_parse (body : list byte) : M dict :=
  ok <- validate_length ParallelChargingCommandParser body ;;
  if negb ok then ret [] else
  let result := [] in
  let result := dict_set result "pile_code" (VStr (bcd_to_str (slice body 0 7))) in
  control_cmd <- index body 7 ;;
  let result := dict_set result "control_command"
    (VStr (if control_cmd =? 0x01 then "启动并充" else "未知(" ++ str_int control_cmd ++ ")")) in
  let result := dict_set result "control_command_code" (VInt control_cmd) in
  ret result.

(** ** QR-code prefix frames (defined, but not in the dispatch table) *)

Definition prefix_formats : list (Z * string) :=
  [(0x00, "第一种前缀+桩编号"); (0x01, "第二种前缀+组织号+桩编号")].

(** [QRCodePrefixSetParser.parse] (0xF0). *)
Definition QRCodePrefixSetParser_parse (body : list byte) : M dict :=
  ok <- validate_length QRCodePrefixSetParser body ;;
  if negb ok then ret [] else
  let result := [] in
  let offset := 0 in
  let result := dict_set result "pile_code" (VStr (bcd_to_str (slice body offset (offset + 7)))) in
  let offset := offset + 7 in
  prefix_format <- index body offset ;;
  let result := dict_set result "qrcode_prefix_format" (VStr (code_label prefix_formats prefix_format)) in
  let result := dict_set result "qrcode_prefix_format_code" (VInt prefix_format) in
  let offset := offset + 1 in
  prefix_length <- index body offset ;;
  let result := dict_set result "qrcode_prefix_length" (VInt prefix_length) in
  let offset := offset + 1 in
  let remaining := len body - offset in
  let take := Z.max 0 (Z.min prefix_length remaining) in
  let prefix_bytes := slice body offset (offset + take) in
  qrcode_prefix <- (if 0 <? take then ascii_to_str prefix_bytes else ret "") ;;
  let result := dict_set result "qrcode_prefix" (VStr qrcode_prefix) in
  let result := dict_set result "qrcode_prefix_hex" (VStr (bytes_hex_upper prefix_bytes)) in
  (if remaining <? prefix_length then
     add_warning ("二维码前缀数据不完整: 期望" ++ str_int prefix_length ++
                  "字节，实际" ++ str_int remaining ++ "字节")
   else if prefix_length <? remaining then
     add_warning ("二维码前缀数据长度超出预期: 期望" ++ str_int prefix_length ++
                  "字节，实际" ++ str_int remaining ++ "字节")
   else ret tt) ;;;
  ret result.

(** [QRCodePrefixSetResponseParser.parse] (0xF1). *)
Definition QRCodePrefixSetResponseParser_parse (body : list byte) : M dict :=
  ok <- validate_length QRCodePrefixSetResponseParser body ;;
  if negb ok then ret [] else
  let result := [] in
  let offset := 0 in
  let result := dict_set result "pile_code" (VStr (bcd_to_str (slice body offset (offset + 7)))) in
  let offset := offset + 7 in
  set_result <- index body offset ;;
  let result := dict_set result "set_result" (VStr (if set_result =? 0x01 then "成功" else "失败")) in
  let result := dict_set result "set_result_code" (VInt set_result) in
  when (set_result =? 0x01)
       (add_warning "注意: 返回成功不代表二维码一定设置成功，需要确认厂商实现方式") ;;;
  ret result.

(** The [parse] method, by subclass. *)
Definition parse (p : FrameParser) (body : list byte) : M dict :=
  match p with
  | LoginParser => LoginParser_parse body
  | LoginResponseParser => LoginResponseParser_parse body
  | ReadRealtimeParser => ReadRealtimeParser_parse body
  | RealtimeDataParser => RealtimeDataParser_parse body
  | ChargingHandshakeParser => ChargingHandshakeParser_parse body
  | TransactionRecordParser => TransactionRecordParser_parse body
  | TransactionConfirmParser => TransactionConfirmParser_parse body
  | BalanceUpdateRequestParser => BalanceUpdateRequestParser_parse body
  | BalanceUpdateResponseParser => BalanceUpdateResponseParser_parse body
  | DefaultParser => DefaultParser_parse body
  | ParameterConfigParser => ParameterConfigParser_parse body
  | ChargingEndParser => ChargingEndParser_parse body
  | ErrorMessageParser => ErrorMessageParser_parse body
  | BMSStopParser => BMSStopParser_parse body
  | ChargerStopParser => ChargerStopParser_parse body
  | BMSDemandOutputParser => BMSDemandOutputParser_parse body
  | BMSInfoParser => BMSInfoParser_parse body
  | OfflineCardSyncParser => OfflineCardSyncParser_parse body
  | OfflineCardSyncResponseParser => OfflineCardSyncResponseParser_parse body
  | OfflineCardDeleteParser => OfflineCardDeleteParser_parse body
  | OfflineCardDeleteResponseParser => OfflineCardDeleteResponseParser_parse body
  | OfflineCardQueryParser => OfflineCardQueryParser_parse body
  | OfflineCardQueryResponseParser => OfflineCardQueryResponseParser_parse body
  | HeartbeatParser => HeartbeatParser_parse body
  | HeartbeatResponseParser => HeartbeatResponseParser_parse body
  | ChargingStartRequestParser => ChargingStartRequestParser_parse body
  | ChargingStartConfirmParser => ChargingStartConfirmParser_parse body
  | RemoteStartReplyParser => RemoteStartReplyParser_parse body
  | RemoteStartCommandParser => RemoteStartCommandParser_parse body
  | RemoteStopReplyParser => RemoteStopReplyParser_parse body
  | RemoteStopCommandParser => RemoteStopCommandParser_parse body
  | WorkParameterSetResponseParser => WorkParameterSetResponseParser_parse body
  | WorkParameterSetParser => WorkParameterSetParser_parse body
  | TimeSyncResponseParser => TimeSyncResponseParser_parse body
  | TimeSyncParser => TimeSyncParser_parse body
  | BillingModelResponseParser => BillingModelResponseParser_parse body
  | BillingModelSetParser => BillingModelSetParser_parse body
  | ParkingLockStatusParser => ParkingLockStatusParser_parse body
  | ParkingLockControlParser => ParkingLockControlParser_parse body
  | ParkingLockResponseParser => ParkingLockResponseParser_parse body
  | RemoteRebootResponseParser => RemoteRebootResponseParser_parse body
  | RemoteRebootParser => RemoteRebootParser_parse body
  | RemoteUpdateResponseParser => RemoteUpdateResponseParser_parse body
  | RemoteUpdateParser => RemoteUpdateParser_parse body
  | ParallelChargingRequestParser => ParallelChargingRequestParser_parse body
  | ParallelChargingConfirmParser => ParallelChargingConfirmParser_parse body
  | ParallelChargingReplyParser => ParallelChargingReplyParser_parse body
  | ParallelChargingCommandParser => ParallelChargingCommandParser_parse body
  | QRCodePrefixSetParser => QRCodePrefixSetParser_parse body
  | QRCodePrefixSetResponseParser => QRCodePrefixSetResponseParser_parse body
  end.

(* ================================================================== *)
(** * parser_factory.py: the dispatch table *)
(* ================================================================== *)

Module FrameParserFactory.

(** [FrameParserFactory._parsers] as the module defines it
    ([register_parser] is never called by the parser). *)
Definition _parsers : list (Z * FrameParser) :=
  [ (0x01, LoginParser); (0x02, LoginResponseParser);
    (0x03, HeartbeatParser); (0x04, HeartbeatResponseParser);
    (0x12, ReadRealtimeParser); (0x13, RealtimeDataParser);
    (0x15, ChargingHandshakeParser); (0x17, ParameterConfigParser);
    (0x19, ChargingEndParser); (0x1B, ErrorMessageParser);
    (0x1D, BMSStopParser); (0x21, ChargerStopParser);
    (0x23, BMSDemandOutputParser); (0x25, BMSInfoParser);
    (0x31, ChargingStartRequestParser); (0x32, ChargingStartConfirmParser);
    (0x33, RemoteStartReplyParser); (0x34, RemoteStartCommandParser);
    (0x35, RemoteStopReplyParser); (0x36, RemoteStopCommandParser);
    (0x3B, TransactionRecordParser); (0x40, TransactionConfirmParser);
    (0x41, BalanceUpdateResponseParser); (0x42, BalanceUpdateRequestParser);
    (0x43, OfflineCardSyncResponseParser); (0x44, OfflineCardSyncParser);
    (0x45, OfflineCardDeleteResponseParser); (0x46, OfflineCardDeleteParser);
    (0x47, OfflineCardQueryResponseParser); (0x48, OfflineCardQueryParser);
    (0x51, WorkParameterSetResponseParser); (0x52, WorkParameterSetParser);
    (0x55, TimeSyncResponseParser); (0x56, TimeSyncParser);
    (0x57, BillingModelResponseParser); (0x58, BillingModelSetParser);
    (0x61, ParkingLockStatusParser); (0x62, ParkingLockControlParser);
    (0x63, ParkingLockResponseParser);
    (0x91, RemoteRebootResponseParser); (0x92, RemoteRebootParser);
    (0x93, RemoteUpdateResponseParser); (0x94, RemoteUpdateParser);
    (0xA1, ParallelChargingRequestParser); (0xA2, ParallelChargingConfirmParser);
    (0xA3, ParallelChargingReplyParser); (0xA4, ParallelChargingCommandParser) ].

(** [get_parser]: [cls._parsers.get(frame_type, DefaultParser)]. *)
Definition get_parser (frame_type : Z) : FrameParser :=
  table_get _parsers frame_type DefaultParser.

(** The class attribute [_parsers] is mutable: [register_parser] assigns
    into it.  For the callers that register decoders the table is passed
    explicitly; [get_parser] above is [get_parser_in _parsers], the lookup
    in the table as the module defines it. *)
Definition get_parser_in (parsers : list (Z * FrameParser)) (frame_type : Z)
  : FrameParser :=
  table_get parsers frame_type DefaultParser.

(** [register_parser]: [cls._parsers[frame_type] = parser_class]. *)
Definition register_parser (parsers : list (Z * FrameParser)) (frame_type : Z)
  (parser_class : FrameParser) : list (Z * FrameParser) :=
  table_set parsers frame_type parser_class.

(** [get_supported_frame_types]: [sorted(cls._parsers.keys())]. *)
Definition get_supported_frame_types (parsers : list (Z * FrameParser)) : list Z :=
  sorted (table_keys parsers).

End FrameParserFactory.

(* ================================================================== *)
(** * Python string built-ins used on the input text *)
(* ================================================================== *)

(** The input text is a string of code points below 256. *)
Definition char_code (c : ascii) : Z := Z.of_nat (nat_of_ascii c).

(** [s.replace(c, "")] for a one-character [c]. *)
Fixpoint str_remove (c : ascii) (s : string) : string :=
  match s with
  | EmptyString => EmptyString
  | String c' rest =>
      if Ascii.eqb c c' then str_remove c rest else String c' (str_remove c rest)
  end.

(** The characters [str.strip()] removes, among the code points below 256. *)
Definition is_str_space (c : ascii) : bool :=
  let n := char_code c in
  ((9 <=? n) && (n <=? 13)) || ((28 <=? n) && (n <=? 32)) ||
  (n =? 133) || (n =? 160).

Fixpoint str_lstrip (s : string) : string :=
  match s with
  | EmptyString => EmptyString
  | String c rest => if is_str_space c then str_lstrip rest else s
  end.

Fixpoint str_rstrip (s : string) : string :=
  match s with
  | EmptyString => EmptyString
  | String c rest =>
      match str_rstrip rest with
      | EmptyString => if is_str_space c then EmptyString else String c EmptyString
      | rest' => String c rest'
      end
  end.

Definition str_strip (s : string) : string := str_rstrip (str_lstrip s).

(** The value of a hexadecimal digit of either case. *)
Definition hex_value (c : ascii) : option Z :=
  let n := char_code c in
  if (48 <=? n) && (n <=? 57) then Some (n - 48)
  else if (65 <=? n) && (n <=? 70) then Some (n - 55)
  else if (97 <=? n) && (n <=? 102) then Some (n - 87)
  else None.

(** The white space [bytes.fromhex] skips between two bytes. *)
Definition is_ascii_space (c : ascii) : bool :=
  let n := char_code c in
  ((9 <=? n) && (n <=? 13)) || (n =? 32).

Definition byte_of_int (n : Z) : byte :=
  match Byte.of_N (Z.to_N n) with
  | Some b => b
  | None => x00
  end.

(** The position of the first character of code 128 or more. *)
Fixpoint first_non_ascii (s : string) (pos : Z) : option Z :=
  match s with
  | EmptyString => None
  | String c rest =>
      if 128 <=? char_code c then Some pos else first_non_ascii rest (pos + 1)
  end.

(** The scanning loop of [bytes.fromhex]: the bytes, or the position of the
    character that is not a hexadecimal digit (one past the end when the
    text stops after the first digit of a pair). *)
Fixpoint fromhex_loop (s : string) (pos : Z) : Z + list byte :=
  match s with
  | EmptyString => inr []
  | String c rest =>
      if is_ascii_space c then fromhex_loop rest (pos + 1)
      else
        match hex_value c with
        | None => inl pos
        | Some top =>
            match rest with
            | EmptyString => inl (pos + 1)
            | String c2 rest2 =>
                match hex_value c2 with
                | None => inl (pos + 1)
                | Some bot =>
                    match fromhex_loop rest2 (pos + 2) with
                    | inl p => inl p
                    | inr bs => inr (byte_of_int (16 * top + bot) :: bs)
                    end
                end
            end
        end
  end.

(** [bytes.fromhex(s)]: the bytes, or the position its [ValueError] names. *)
Definition bytes_fromhex (s : string) : Z + list byte :=
  match first_non_ascii s 0 with
  | Some pos => inl pos
  | None => fromhex_loop s 0
  end.

Definition fromhex_error (pos : Z) : string :=
  "non-hexadecimal number found in fromhex() arg at position " ++ str_int pos.

(* ================================================================== *)
(** * parse_ykc.py: YKCProtocolParser, the envelope parser *)
(* ================================================================== *)

Module YKCProtocolParser.

(** [YKCProtocolParser.FRAME_TYPES]: the display name of each frame type. *)
Definition FRAME_TYPES : list (Z * string) :=
  [ (0x01, "充电桩登录认证"); (0x02, "登录认证应答");
    (0x03, "充电桩心跳包"); (0x04, "心跳包应答");
    (0x05, "计费模型验证请求"); (0x06, "计费模型验证应答");
    (0x09, "充电桩计费模型请求"); (0x0A, "计费模型请求应答");
    (0x12, "读取实时监测数据"); (0x13, "上传实时监测数据");
    (0x15, "充电握手"); (0x17, "参数配置"); (0x19, "充电结束");
    (0x1B, "错误报文"); (0x1D, "充电阶段BMS中止");
    (0x21, "充电阶段充电机中止"); (0x23, "BMS需求/充电机输出");
    (0x25, "BMS信息"); (0x31, "充电桩主动申请启动");
    (0x32, "确认启动充电"); (0x33, "远程启机回复");
    (0x34, "远程控制启机"); (0x35, "远程停机回复"); (0x36, "远程停机");
    (0x3B, "交易记录"); (0x40, "交易记录确认"); (0x41, "余额更新应答");
    (0x42, "远程账户余额更新"); (0x43, "离线卡数据同步应答");
    (0x44, "离线卡数据同步"); (0x45, "离线卡数据清除应答");
    (0x46, "离线卡数据清除"); (0x47, "离线卡数据查询应答");
    (0x48, "离线卡数据查询"); (0x51, "工作参数设置应答");
    (0x52, "工作参数设置"); (0x55, "对时设置应答"); (0x56, "对时设置");
    (0x57, "计费模型应答"); (0x58, "计费模型设置");
    (0x61, "地锁数据上送"); (0x62, "遥控地锁升降");
    (0x63, "充电桩返回数据"); (0x91, "远程重启应答"); (0x92, "远程重启");
    (0x93, "远程更新应答"); (0x94, "远程更新"); (0xA1, "主动申请并充");
    (0xA2, "确认并充启动"); (0xA3, "远程并充启机回复");
    (0xA4, "远程控制并充启机"); (0xF0, "后台下发二维码前缀指令");
    (0xF1, "桩应答返回下发二维码前缀指令") ].

(** [_error_response]. *)
Definition _error_response (msg : string) : dict :=
  [ ("code", VInt 500); ("msg", VStr msg); ("data", VNone) ].

(** The messages of the envelope parser. *)
Definition start_flag_error (start_flag : Z) : string :=
  "起始标志错误: 期望0x68, 实际0x" ++ fmt_X 2 start_flag.

Definition length_mismatch_error (expected_total_len : Z) (data : list byte) : string :=
  "报文长度不匹配: 期望" ++ str_int expected_total_len ++ "字节, 实际" ++
  str_int (len data) ++ "字节".

Definition unknown_type_warning (frame_type : Z) : string :=
  "未知的帧类型: 0x" ++ fmt_X 2 frame_type.

Definition data_length_error (data_len : Z) : string :=
  "数据长度字段错误: " ++ str_int data_len.

Definition truncated_body_error (body_end : Z) (data : list byte) : string :=
  "报文长度不足,无法读取完整消息体: 需要" ++ str_int body_end ++ "字节, 实际" ++
  str_int (len data) ++ "字节".

Definition crc_mismatch_warning (crc_received crc_calculated : Z) : string :=
  "CRC16校验失败: 期望0x" ++ fmt_X 4 crc_received ++ ", 计算0x" ++
  fmt_X 4 crc_calculated.

Definition crc_short_error : string := "报文过短,无法读取CRC16校验码".

Definition body_parse_error (e : exn) : string :=
  "消息体解析失败: " ++ exn_str e.

Section WithChecksum.

(** [crc16.calculate_crc16] is imported by parse_ykc.py from a module that
    is not among the sources; the envelope parser is modelled over any
    function from the checksummed bytes to an unsigned integer. *)
Variable calculate_crc16 : list byte -> N.

(** [_parse_structure]; each [return result] of the source ends its branch
    here. *)
Definition _parse_structure (data : list byte) : M dict :=
  let result := [] in
  start_flag <- index data 0 ;;
  let result := dict_set result "start_flag" (VStr ("0x" ++ fmt_X 2 start_flag)) in
  when (negb (start_flag =? 0x68)) (add_error (start_flag_error start_flag)) ;;;
  data_len <- index data 1 ;;
  let result := dict_set result "data_length" (VInt data_len) in
  let expected_total_len := 1 + 1 + data_len + 2 in
  when (negb (len data =? expected_total_len))
       (add_error (length_mismatch_error expected_total_len data)) ;;;
  if negb (4 <=? len data) then
    add_error "报文过短,无法读取序列号" ;;; ret result
  else
  let seq_num := int_from_bytes_little (slice data 2 4) in
  let result := dict_set result "sequence_number" (VInt seq_num) in
  if negb (5 <=? len data) then
    add_error "报文过短,无法读取加密标志" ;;; ret result
  else
  encrypt_flag <- index data 4 ;;
  let result := dict_set result "encrypt_flag" (VStr ("0x" ++ fmt_X 2 encrypt_flag)) in
  let result := dict_set result "is_encrypted" (VBool (encrypt_flag =? 0x01)) in
  if negb (6 <=? len data) then
    add_error "报文过短,无法读取帧类型" ;;; ret result
  else
  frame_type <- index data 5 ;;
  let result := dict_set result "frame_type" (VStr ("0x" ++ fmt_X 2 frame_type)) in
  let result := dict_set result "frame_type_name"
    (VStr (table_get FRAME_TYPES frame_type "未知帧类型")) in
  when (negb (table_mem FRAME_TYPES frame_type))
       (add_warning (unknown_type_warning frame_type)) ;;;
  let body_len := data_len - 4 in
  if body_len <? 0 then
    add_error (data_length_error data_len) ;;; ret result
  else
  let body_start := 6 in
  let body_end := body_start + body_len in
  body <- (if len data <? body_end then
             add_error (truncated_body_error body_end data) ;;;
             ret (slice_from data body_start)
           else ret (slice data body_start body_end)) ;;
  let result := dict_set result "body_length" (VInt (len body)) in
  let result := dict_set result "body_hex" (VStr (bytes_hex_upper body)) in
  result <- (if body_end + 2 <=? len data then
               let crc_bytes := slice data body_end (body_end + 2) in
               let crc_received := int_from_bytes_big crc_bytes in
               let result := dict_set result "crc16_received" (VStr ("0x" ++ fmt_X 4 crc_received)) in
               let crc_data := slice data 2 body_end in
               let crc_calculated := Z.of_N (calculate_crc16 crc_data) in
               let result := dict_set result "crc16_calculated" (VStr ("0x" ++ fmt_X 4 crc_calculated)) in
               if negb (crc_calculated =? crc_received) then
                 add_warning (crc_mismatch_warning crc_received crc_calculated) ;;;
                 ret (dict_set result "crc16_valid" (VBool false))
               else ret (dict_set result "crc16_valid" (VBool true))
             else
               add_error crc_short_error ;;;
               ret (dict_set result "crc16_valid" (VBool false))) ;;
  match body with
  | [] => ret result
  | _ :: _ =>
      try_except
        (let parser := FrameParserFactory.get_parser frame_type in
         body_data <- parse parser body ;;
         ret (dict_set result "body_data" (VDict body_data)))
        (fun e =>
           add_error (body_parse_error e) ;;;
           ret (dict_set result "body_data" VNone))
  end.

(** [parse]: the context is reset, the text is cleaned and converted, and
    the status is set from the errors the structural pass recorded.  The
    result comes with the context the call leaves behind. *)
Definition parse (hex_str : string) : dict * ParserContext :=
  let context := mkContext [] [] in
  let hex_str := str_strip (str_remove "010"%char (str_remove " "%char hex_str)) in
  if negb (Z.of_nat (String.length hex_str) mod 2 =? 0) then
    (_error_response "报文长度必须是偶数个十六进制字符", context)
  else
    match bytes_fromhex hex_str with
    | inl pos =>
        (_error_response ("十六进制字符串格式错误: " ++ fromhex_error pos), context)
    | inr data =>
        if len data <? 8 then
          (_error_response ("报文长度过短: " ++ str_int (len data) ++ "字节,最少需要8字节"),
           context)
        else
          match _parse_structure data context with
          | (Raise e, context) =>
              (_error_response ("解析异常: " ++ exn_str e), context)
          | (Ok result, context) =>
              let result :=
                match errors context with
                | _ :: _ =>
                    let result := dict_set result "code" (VInt 500) in
                    let result := dict_set result "msg"
                      (VStr ("解析失败: " ++ str_join "; " (firstn 3 (errors context)))) in
                    dict_set result "errors" (VList (map VStr (errors context)))
                | [] =>
                    let result := dict_set result "code" (VInt 200) in
                    dict_set result "msg" (VStr "解析成功")
                end in
              let result :=
                match warnings context with
                | _ :: _ => dict_set result "warnings" (VList (map VStr (warnings context)))
                | [] => result
                end in
              (result, context)
          end
    end.

End WithChecksum.

End YKCProtocolParser.

(** [main], the command-line entry: the dictionary it prints (through
    [json.dumps]) for the argument vector [sys.argv], program name first. *)
Definition main (calculate_crc16 : list byte -> N) (argv : list string) : dict :=
  if len argv <? 2 then
    [ ("code", VInt 500);
      ("msg", VStr "用法: python parse_ykc_v2.py <hex_string>");
      ("data", VNone) ]
  else
    let hex_input := str_join " " (slice_from argv 1) in
    fst (YKCProtocolParser.parse calculate_crc16 hex_input).

(** A 16-bit cyclic redundancy check (reflected polynomial 0xA001, initial
    value 0xFFFF) to put in place of the checksum function where a closed
    example needs one; it stands for no code of the repository, and every
    property below is stated for all checksum functions. *)
Definition crc16_step (crc : Z) (b : byte) : Z :=
  let fix shift (k : nat) (crc : Z) : Z :=
    match k with
    | O => crc
    | S k' =>
        shift k' (if Z.testbit crc 0
                  then Z.lxor (Z.shiftr crc 1) 0xA001
                  else Z.shiftr crc 1)
    end in
  shift 8%nat (Z.lxor crc (byte_val b)).

Definition crc16_sample (bs : list byte) : N :=
  Z.to_N (fold_left crc16_step bs 0xFFFF).

(* ================================================================== *)
(** * Definitions used to state the properties *)
(* ================================================================== *)

(** The context after some errors and warnings have been appended. *)
Definition ctx_add (c : ParserContext) (es ws : list string) : ParserContext :=
  mkContext (errors c ++ es) (warnings c ++ ws).

(** The two kinds of error a body decoder records. *)
Inductive decoder_error : string -> Prop :=
| DE_length (p : FrameParser) (body : list byte) :
    decoder_error (length_error p body)
| DE_offline (expected_len : Z) (body : list byte) :
    decoder_error (offline_length_error expected_len body).

(** A computation that only appends to the context: the same outcome and
    the same diagnostics whatever the context holds, every error a decoder
    error. *)
Definition appends {A : Type} (m : M A) : Prop :=
  exists o es ws,
    Forall decoder_error es /\ forall c, m c = (o, ctx_add c es ws).

(** What a decoder returns and records on a body, read off a run from the
    empty context. *)
Definition decoder_outcome (p : FrameParser) (body : list byte) : outcome dict :=
  fst (parse p body empty_context).

Definition decoder_errors (p : FrameParser) (body : list byte) : list string :=
  errors (snd (parse p body empty_context)).

Definition decoder_warnings (p : FrameParser) (body : list byte) : list string :=
  warnings (snd (parse p body empty_context)).

(** What [ascii_to_str] returns and the warnings it records. *)
Definition ascii_to_str_value (bs : list byte) : string :=
  if forallb is_ascii_byte (rstrip_nul bs) then string_of_list_byte (rstrip_nul bs)
  else bytes_hex_upper bs.

Definition ascii_to_str_warnings (bs : list byte) : list string :=
  if forallb is_ascii_byte (rstrip_nul bs) then
    if negb (forallb printable_or_nul (filter is_ascii_byte bs))
    then ["ASCII字段包含非ASCII字符: " ++ bytes_hex bs] else []
  else ["ASCII解码失败: " ++ bytes_hex bs].

(** The packed timestamp in the words of the specification: milliseconds
    as a little-endian pair, then the low 6, 5, 5, 4 and 7 bits of the next
    five bytes, printed as YYYY-MM-DD HH:MM:SS.mmm. *)
Definition cp56_fields (b0 b1 b2 b3 b4 b5 b6 : byte)
  : Z * Z * Z * Z * Z * Z :=
  (byte_val b0 + 256 * byte_val b1,
   byte_val b2 mod 64, byte_val b3 mod 32, byte_val b4 mod 32,
   byte_val b5 mod 16, 2000 + byte_val b6 mod 128).

Definition cp56_text (fields : Z * Z * Z * Z * Z * Z) : string :=
  let '(millisec, minute, hour, day, month, year) := fields in
  fmt_d 4 year ++ "-" ++ fmt_d 2 month ++ "-" ++ fmt_d 2 day ++ " " ++
  fmt_d 2 hour ++ ":" ++ fmt_d 2 minute ++ ":" ++ fmt_d 2 (millisec / 1000) ++
  "." ++ fmt_d 3 (millisec mod 1000).

(** The three count-prefixed batch decoders, the size of one record and
    the key their records are stored under. *)
Definition batch_record_size (p : FrameParser) : Z :=
  match p with
  | OfflineCardSyncParser => 16
  | _ => 8
  end.

Definition batch_records_key (p : FrameParser) : string :=
  match p with
  | OfflineCardSyncParser => "cards"
  | _ => "card_numbers"
  end.

Definition is_batch_parser (p : FrameParser) : bool :=
  match p with
  | OfflineCardSyncParser | OfflineCardDeleteParser | OfflineCardQueryParser => true
  | _ => false
  end.

(** ** The envelope, field by field *)

Definition frame_byte (data : list byte) (i : nat) : Z := byte_val (nth i data x00).

Definition declared_length (data : list byte) : Z := frame_byte data 1.

Definition frame_type_code (data : list byte) : Z := frame_byte data 5.

Definition expected_total_length (data : list byte) : Z :=
  1 + 1 + declared_length data + 2.

Definition frame_body_end (data : list byte) : Z := 6 + (declared_length data - 4).

Definition frame_body (data : list byte) : list byte :=
  if len data <? frame_body_end data then slice_from data 6
  else slice data 6 (frame_body_end data).

Definition envelope_fields (data : list byte) : dict :=
  [ ("start_flag", VStr ("0x" ++ fmt_X 2 (frame_byte data 0)));
    ("data_length", VInt (declared_length data));
    ("sequence_number", VInt (int_from_bytes_little (slice data 2 4)));
    ("encrypt_flag", VStr ("0x" ++ fmt_X 2 (frame_byte data 4)));
    ("is_encrypted", VBool (frame_byte data 4 =? 0x01));
    ("frame_type", VStr ("0x" ++ fmt_X 2 (frame_type_code data)));
    ("frame_type_name",
     VStr (table_get YKCProtocolParser.FRAME_TYPES (frame_type_code data) "未知帧类型")) ].

Definition header_errors (data : list byte) : list string :=
  ((if frame_byte data 0 =? 0x68 then []
    else [YKCProtocolParser.start_flag_error (frame_byte data 0)]) ++
   (if len data =? expected_total_length data then []
    else [YKCProtocolParser.length_mismatch_error (expected_total_length data) data]))%list.

Definition type_warnings (data : list byte) : list string :=
  if table_mem YKCProtocolParser.FRAME_TYPES (frame_type_code data) then []
  else [YKCProtocolParser.unknown_type_warning (frame_type_code data)].

Definition body_slice_errors (data : list byte) : list string :=
  if len data <? frame_body_end data
  then [YKCProtocolParser.truncated_body_error (frame_body_end data) data]
  else [].

Definition checksum_readable (data : list byte) : bool :=
  frame_body_end data + 2 <=? len data.

Definition checksum_received (data : list byte) : Z :=
  int_from_bytes_big (slice data (frame_body_end data) (frame_body_end data + 2)).

Definition checksum_calculated (crc : list byte -> N) (data : list byte) : Z :=
  Z.of_N (crc (slice data 2 (frame_body_end data))).

Definition checksum_errors (data : list byte) : list string :=
  if checksum_readable data then [] else [YKCProtocolParser.crc_short_error].

Definition checksum_warnings (crc : list byte -> N) (data : list byte) : list string :=
  if checksum_readable data then
    if checksum_calculated crc data =? checksum_received data then []
    else [YKCProtocolParser.crc_mismatch_warning
            (checksum_received data) (checksum_calculated crc data)]
  else [].

Definition checksum_fields (crc : list byte -> N) (data : list byte) : dict :=
  if checksum_readable data then
    [ ("crc16_received", VStr ("0x" ++ fmt_X 4 (checksum_received data)));
      ("crc16_calculated", VStr ("0x" ++ fmt_X 4 (checksum_calculated crc data)));
      ("crc16_valid", VBool (checksum_calculated crc data =? checksum_received data)) ]
  else [ ("crc16_valid", VBool false) ].

Definition body_fields (data : list byte) : dict :=
  [ ("body_length", VInt (len (frame_body data)));
    ("body_hex", VStr (bytes_hex_upper (frame_body data))) ].

(** The decoder the frame type selects, and what the body stage adds: the
    [body_data] entry (the decoder's record, or [None] when it raised) and
    the decoder's diagnostics; nothing at all for an empty body. *)
Definition frame_parser (data : list byte) : FrameParser :=
  FrameParserFactory.get_parser (frame_type_code data).

Definition body_data_field (data : list byte) : dict :=
  match frame_body data with
  | [] => []
  | _ :: _ =>
      [ ("body_data",
         match decoder_outcome (frame_parser data) (frame_body data) with
         | Ok body_data => VDict body_data
         | Raise _ => VNone
         end) ]
  end.

Definition body_decode_errors (data : list byte) : list string :=
  match frame_body data with
  | [] => []
  | _ :: _ =>
      (decoder_errors (frame_parser data) (frame_body data) ++
       match decoder_outcome (frame_parser data) (frame_body data) with
       | Ok _ => []
       | Raise e => [YKCProtocolParser.body_parse_error e]
       end)%list
  end.

Definition body_decode_warnings (data : list byte) : list string :=
  match frame_body data with
  | [] => []
  | _ :: _ => decoder_warnings (frame_parser data) (frame_body data)
  end.

(** ** The input text *)

(** The text [parse] converts, and the frame it passes to the structural
    pass: [None] when a pre-check rejects the input. *)
Definition clean_hex (hex_str : string) : string :=
  str_strip (str_remove "010"%char (str_remove " "%char hex_str)).

Definition frame_of_hex (hex_str : string) : option (list byte) :=
  if Z.of_nat (String.length (clean_hex hex_str)) mod 2 =? 0 then
    match bytes_fromhex (clean_hex hex_str) with
    | inr data => if len data <? 8 then None else Some data
    | inl _ => None
    end
  else None.

Definition status_code (result : dict) : option value := dict_get result "code".

(** [s.startswith(prefix)]. *)
Fixpoint starts_with (prefix s : string) : bool :=
  match prefix with
  | EmptyString => true
  | String a prefix' =>
      match s with
      | EmptyString => false
      | String b s' => Ascii.eqb a b && starts_with prefix' s'
      end
  end.

(** The length-mismatch errors of a list: the entries that start with the
    text of [length_mismatch_error]. *)
Definition is_length_mismatch (s : string) : bool :=
  starts_with "报文长度不匹配" s.

Definition count_length_mismatch (es : list string) : nat :=
  length (filter is_length_mismatch es).

(** Whether a text starts with a 7-bit character, as every class name does
    and no message of the envelope parser. *)
Definition starts_ascii (s : string) : bool :=
  match s with
  | EmptyString => false
  | String c _ => char_code c <? 128
  end.

(** The record of the default decoder. *)
Definition default_record (body : list byte) : dict :=
  [ ("raw", VStr (bytes_hex_upper body));
    ("note", VStr "该帧类型暂未实现详细解析") ].

(** The frame-type codes that have a display name and no decoder. *)
Definition named_without_decoder : list Z := [0x05; 0x06; 0x09; 0x0A; 0xF0; 0xF1].

(** ** Auxiliary checks and the sample inputs of the closed examples *)

(** The decoders whose declared minimum is smaller than the last index
    they read. *)
Definition reads_past_minimum (p : FrameParser) : bool :=
  match p with
  | LoginParser | TransactionRecordParser => true
  | _ => false
  end.

(** A number below the width's power of ten prints in exactly that many
    digits; checked on every such number for the widths the timestamp uses. *)
Definition fmt_d_exact (width : nat) (bound : Z) : bool :=
  forallb (fun k => Nat.eqb (String.length (fmt_d width (Z.of_nat k))) width)
          (seq 0 (Z.to_nat bound)).

(** A real-time body of 58 bytes, all zero but the two voltage bytes. *)
Definition realtime_sample_body : list byte :=
  (repeat x00 27 ++ [xff; xff] ++ repeat x00 29)%list.

(** A sync body that declares two cards and carries one. *)
Definition sync_body_one_of_two : list byte :=
  ([x01; x02; x03; x04; x05; x06; x07; x02] ++ repeat x11 16)%list.

(** A login frame whose body is 28 zero bytes: start marker, declared
    length 32, sequence number 1, no encryption, type 0x01, the body and
    two checksum bytes. *)
Definition login_frame_28 : list byte :=
  ([x68; x20; x01; x00; x00; x01] ++ repeat x00 28 ++ [x00; x00])%list.

(** Sample frames for the closed examples: a heartbeat whose checksum bytes
    are zero, and an eight-byte login frame that declares one body byte and
    so ends before its checksum. *)
Definition heartbeat_frame_bad_crc : list byte :=
  [x68; x0b; x01; x00; x00; x03; x32; x01; x02; x00; x00; x00; x11; x00; x00].

Definition login_frame_cut : list byte :=
  [x68; x05; x01; x00; x00; x01; x00; x00].

(** A frame of eight bytes that declares a length of three, less than the
    four bytes of sequence number, flag and type. *)
Definition short_declared_frame : list byte :=
  [x68; x03; x01; x00; x00; x03; xaa; xbb].

(** A frame of type 0x99 with a two-byte body. *)
Definition unknown_type_frame : list byte :=
  [x68; x06; x01; x00; x00; x99; xaa; xbb; x00; x00].

(** A frame of type 0x05 (named, without a decoder) with a two-byte body. *)
Definition billing_check_frame : list byte :=
  [x68; x06; x01; x00; x00; x05; xaa; xbb; x00; x00].

(** A login frame (decoder minimum 28) that declares an empty body. *)
Definition login_frame_empty_body : list byte :=
  [x68; x04; x01; x00; x00; x01; x00; x00].

(** The [w] low hexadecimal digits of [n], most significant first. *)
Fixpoint hex_digits (w : nat) (n : Z) : string :=
  match w with
  | O => ""
  | S w' => hex_digits w' (n / 16) ++ String (hex_digit_upper (n mod 16)) ""
  end.

(** [k] times the character 0. *)
Fixpoint zeros (k : nat) : string :=
  match k with
  | O => ""
  | S k' => String "0"%char (zeros k')
  end.

(** The integers [start], [start + 1], ... ([count] of them). *)
Fixpoint z_range (start : Z) (count : nat) : list Z :=
  match count with
  | O => []
  | S count' => start :: z_range (start + 1) count'
  end.

(** A computation that records no error: the same outcome whatever the
    context holds, the errors left as they are, warnings appended. *)
Definition records_no_error {A : Type} (m : M A) : Prop :=
  exists o ws, forall c, m c = (o, ctx_add c [] ws).

(** The [i]-th record of a batch body, as the wire bytes give it: the
    logical card number in wire order, the physical card number most
    significant byte first. *)
Definition batch_record (p : FrameParser) (body : list byte) (i : Z) : value :=
  match p with
  | OfflineCardSyncParser =>
      VDict
        [ ("logical_card_number",
           VStr (bcd_to_str (slice body (8 + 16 * i) (8 + 16 * i + 8))));
          ("physical_card_number",
           VStr (bcd_to_str (rev (slice body (8 + 16 * i + 8) (8 + 16 * i + 16))))) ]
  | _ => VStr (bcd_to_str (rev (slice body (8 + 8 * i) (8 + 8 * i + 8))))
  end.

(** A delete body that declares one card and carries one trailing byte. *)
Definition delete_body_one_card : list byte :=
  [x32; x01; x02; x00; x00; x00; x11; x01;
   x01; x02; x03; x04; x05; x06; x07; x08; xff].

(** A delete-response body: the pile code, one whole record and four
    bytes of a second one. *)
Definition delete_response_body_cut : list byte :=
  [x32; x01; x02; x00; x00; x00; x11;
   x01; x02; x03; x04; x05; x06; x07; x08; x01; x00;
   x09; x0a; x0b; x0c].

(** What [parse] adds to the result of the structural pass: the status,
    the message, and the lists that are not empty. *)
Definition final_fields (c : ParserContext) : dict :=
  (match errors c with
   | [] => [ ("code", VInt 200); ("msg", VStr "解析成功") ]
   | _ :: _ =>
       [ ("code", VInt 500);
         ("msg", VStr ("解析失败: " ++ str_join "; " (firstn 3 (errors c))));
         ("errors", VList (map VStr (errors c))) ]
   end ++
   match warnings c with
   | [] => []
   | _ :: _ => [ ("warnings", VList (map VStr (warnings c))) ]
   end)%list.

(** The usual way of writing a frame: two upper-case digits per byte, one
    blank between the bytes. *)
Definition spaced_hex (data : list byte) : string :=
  str_join " " (map (fun b => fmt_X 2 (byte_val b)) data).

(** A frame as the structural pass reads it: the start flag, the length
    byte (the four header bytes and the body), the sequence number, the
    encryption flag, the frame type, the body, and the checksum of
    everything after the length byte, high byte first. *)
Definition make_frame (crc : list byte -> N) (seq_lo seq_hi enc ft : byte)
  (body : list byte) : list byte :=
  let payload := seq_lo :: seq_hi :: enc :: ft :: body in
  let sum := Z.of_N (crc payload) in
  (x68 :: byte_of_int (len payload) :: payload ++
   [byte_of_int (sum / 256); byte_of_int (sum mod 256)])%list.

(** A heartbeat frame, made for the sample checksum. *)
Definition heartbeat_frame_made : list byte :=
  make_frame crc16_sample x01 x00 x00 x03 [x32; x01; x02; x00; x00; x00; x11].

(* ================================================================== *)
(** * The built-ins and codecs on sample values *)
(* ================================================================== *)

Example fmt_X_byte : fmt_X 2 10 = "0A". Proof. reflexivity. Qed.
Example fmt_X_word : fmt_X 4 0xBEEF = "BEEF". Proof. reflexivity. Qed.
Example fmt_d_year : fmt_d 4 2024 = "2024". Proof. reflexivity. Qed.
Example fmt_d_pad : fmt_d 3 7 = "007". Proof. reflexivity. Qed.
Example str_int_0 : str_int 0 = "0". Proof. reflexivity. Qed.
Example str_int_150 : str_int 150 = "150". Proof. reflexivity. Qed.
Example bcd_ex : bcd_to_str [x12; xab; x00] = "12AB00". Proof. reflexivity. Qed.
Example hexu_ex : bytes_hex_upper [x12; xab; x00] = "12AB00". Proof. reflexivity. Qed.
Example cp56_ex :
  parse_cp56time2a [xf4; x01; x1e; x0e; x0f; x03; x18] = "2024-03-15 14:30:00.500".
Proof. reflexivity. Qed.
Example rstrip_ex : rstrip_nul [x41; x00; x42; x00; x00] = [x41; x00; x42].
Proof. reflexivity. Qed.
Example float_ex : int_div_float 65535 10 = 6553.5%float.
Proof. reflexivity. Qed.

(* ================================================================== *)
(** * The parser monad: run equations *)
(* ================================================================== *)

Lemma ctx_add_nil c : ctx_add c [] [] = c.
Proof. destruct c; unfold ctx_add; simpl; now rewrite !app_nil_r. Qed.

Lemma ctx_add_add c e1 w1 e2 w2 :
  ctx_add (ctx_add c e1 w1) e2 w2 = ctx_add c (e1 ++ e2) (w1 ++ w2).
Proof. unfold ctx_add; simpl; now rewrite !app_assoc. Qed.

Lemma ctx_add_empty es ws : ctx_add empty_context es ws = mkContext es ws.
Proof. reflexivity. Qed.

Lemma index_ok bs i c :
  0 <= i < len bs -> index bs i c = (Ok (byte_val (nth (Z.to_nat i) bs x00)), c).
Proof.
  intros H. unfold index.
  destruct (nth_error bs (Z.to_nat i)) eqn:E.
  - apply nth_error_nth with (d := x00) in E. now rewrite E.
  - apply nth_error_None in E. unfold len in H. lia.
Qed.

Lemma index_out bs i c :
  len bs <= i -> index bs i c = (Raise IndexError, c).
Proof.
  intros H. unfold index.
  destruct (nth_error bs (Z.to_nat i)) eqn:E; [|reflexivity].
  assert (nth_error bs (Z.to_nat i) <> None) as N by congruence.
  apply nth_error_Some in N. unfold len in H. lia.
Qed.

Lemma bind_ret {A B} (a : A) (k : A -> M B) c : bind (ret a) k c = k a c.
Proof. reflexivity. Qed.

Lemma bind_assoc {A B C} (m : M A) (f : A -> M B) (g : B -> M C) c :
  bind (bind m f) g c = bind m (fun x => bind (f x) g) c.
Proof. unfold bind. destruct (m c) as [[a|e] c']; reflexivity. Qed.

Lemma bind_index_ok {B} bs i (k : Z -> M B) c :
  0 <= i < len bs ->
  bind (index bs i) k c = k (byte_val (nth (Z.to_nat i) bs x00)) c.
Proof. intros H. unfold bind. now rewrite index_ok. Qed.

Lemma bind_index_out {B} bs i (k : Z -> M B) c :
  len bs <= i -> bind (index bs i) k c = (Raise IndexError, c).
Proof. intros H. unfold bind. now rewrite index_out. Qed.

Lemma bind_add_error {B} s (k : unit -> M B) c :
  bind (add_error s) k c = k tt (ctx_add c [s] []).
Proof. unfold bind, add_error, ctx_add. simpl. now rewrite app_nil_r. Qed.

Lemma bind_add_warning {B} s (k : unit -> M B) c :
  bind (add_warning s) k c = k tt (ctx_add c [] [s]).
Proof. unfold bind, add_warning, ctx_add. simpl. now rewrite app_nil_r. Qed.

Lemma bind_when_error {B} (b : bool) s (k : unit -> M B) c :
  bind (when b (add_error s)) k c = k tt (ctx_add c (if b then [s] else []) []).
Proof. destruct b; simpl; [apply bind_add_error | now rewrite ctx_add_nil]. Qed.

Lemma bind_when_warning {B} (b : bool) s (k : unit -> M B) c :
  bind (when b (add_warning s)) k c = k tt (ctx_add c [] (if b then [s] else [])).
Proof. destruct b; simpl; [apply bind_add_warning | now rewrite ctx_add_nil]. Qed.

Lemma bind_ascii_to_str {B} bs (k : string -> M B) c :
  bind (ascii_to_str bs) k c =
  k (ascii_to_str_value bs) (ctx_add c [] (ascii_to_str_warnings bs)).
Proof.
  unfold ascii_to_str, ascii_to_str_value, ascii_to_str_warnings.
  destruct (forallb is_ascii_byte (rstrip_nul bs)).
  - rewrite bind_assoc, bind_when_warning. reflexivity.
  - rewrite bind_assoc, bind_add_warning. reflexivity.
Qed.

Lemma validate_length_short p body c :
  len body < expected_min_length p ->
  validate_length p body c = (Ok false, ctx_add c [length_error p body] []).
Proof.
  intros H. unfold validate_length.
  destruct (Z.ltb_spec (len body) (expected_min_length p)); [|lia].
  now rewrite bind_add_error.
Qed.

Lemma validate_length_ok p body c :
  expected_min_length p <= len body ->
  validate_length p body c = (Ok true, c).
Proof.
  intros H. unfold validate_length.
  destruct (Z.ltb_spec (len body) (expected_min_length p)); [lia|reflexivity].
Qed.

Lemma bind_validate_ok {B} p body (k : bool -> M B) c :
  expected_min_length p <= len body ->
  bind (validate_length p body) k c = k true c.
Proof. intros H. unfold bind. now rewrite validate_length_ok. Qed.

Lemma len_slice {A} (l : list A) a b :
  0 <= a -> a <= b -> b <= len l -> len (slice l a b) = b - a.
Proof.
  intros. unfold len, slice in *. rewrite length_firstn, length_skipn. lia.
Qed.

(** One step of symbolic execution of a computation applied to a context. *)
Ltac mstep :=
  cbv beta zeta;
  first
    [ rewrite bind_ret
    | rewrite bind_assoc
    | rewrite bind_index_ok by (cbn; lia)
    | rewrite bind_ascii_to_str
    | rewrite bind_when_error
    | rewrite bind_when_warning
    | rewrite bind_add_error
    | rewrite bind_add_warning ].

(* ================================================================== *)
(** * Every decoder only appends decoder errors and warnings *)
(* ================================================================== *)

Lemma appends_ret {A} (a : A) : appends (ret a).
Proof.
  exists (Ok a), [], []. split; [constructor|].
  intros c. now rewrite ctx_add_nil.
Qed.

Lemma appends_raise {A} e : appends (@raise A e).
Proof.
  exists (Raise e), [], []. split; [constructor|].
  intros c. now rewrite ctx_add_nil.
Qed.

Lemma appends_bind {A B} (m : M A) (k : A -> M B) :
  appends m -> (forall a, appends (k a)) -> appends (bind m k).
Proof.
  intros (o & es & ws & Hes & Hm) Hk. destruct o as [a|e].
  - destruct (Hk a) as (o' & es' & ws' & Hes' & Hk').
    exists o', (es ++ es')%list, (ws ++ ws')%list.
    split; [now apply Forall_app|].
    intros c. unfold bind. rewrite Hm, Hk'. now rewrite ctx_add_add.
  - exists (Raise e), es, ws. split; [assumption|].
    intros c. unfold bind. now rewrite Hm.
Qed.

Lemma appends_index bs i : appends (index bs i).
Proof.
  unfold index.
  destruct (nth_error bs (Z.to_nat i)); [apply appends_ret | apply appends_raise].
Qed.

Lemma appends_add_warning s : appends (add_warning s).
Proof.
  exists (Ok tt), [], [s]. split; [constructor|]. intros c.
  unfold add_warning, ctx_add. now rewrite app_nil_r.
Qed.

Lemma appends_add_error s : decoder_error s -> appends (add_error s).
Proof.
  intros H. exists (Ok tt), [s], []. split; [now repeat constructor|]. intros c.
  unfold add_error, ctx_add. now rewrite app_nil_r.
Qed.

Lemma appends_when b m : appends m -> appends (when b m).
Proof. intros H. destruct b; [exact H | apply appends_ret]. Qed.

Lemma appends_validate_length p body : appends (validate_length p body).
Proof.
  unfold validate_length. destruct (len body <? expected_min_length p).
  - apply appends_bind; [apply appends_add_error; constructor | intros; apply appends_ret].
  - apply appends_ret.
Qed.

Lemma appends_ascii_to_str bs : appends (ascii_to_str bs).
Proof.
  unfold ascii_to_str. destruct (forallb is_ascii_byte (rstrip_nul bs)).
  - apply appends_bind; [apply appends_when, appends_add_warning | intros; apply appends_ret].
  - apply appends_bind; [apply appends_add_warning | intros; apply appends_ret].
Qed.

Lemma appends_delete_response_loop fuel body : forall offset cards,
  appends (delete_response_loop fuel body offset cards).
Proof.
  induction fuel as [|fuel IH]; intros offset cards; cbn [delete_response_loop].
  - apply appends_ret.
  - destruct (offset + 10 <=? len body); [|apply appends_ret].
    cbv beta zeta.
    apply appends_bind; [apply appends_index|intros].
    apply appends_bind; [apply appends_index|intros].
    apply IH.
Qed.

Lemma appends_query_response_loop fuel body : forall offset cards,
  appends (query_response_loop fuel body offset cards).
Proof.
  induction fuel as [|fuel IH]; intros offset cards; cbn [query_response_loop].
  - apply appends_ret.
  - destruct (offset + 9 <=? len body); [|apply appends_ret].
    cbv beta zeta.
    apply appends_bind; [apply appends_index|intros].
    apply IH.
Qed.

Ltac appends_step :=
  cbv beta zeta;
  lazymatch goal with
  | |- appends (ret _) => apply appends_ret
  | |- appends (bind _ _) => apply appends_bind; [ | intros ]
  | |- appends (index _ _) => apply appends_index
  | |- appends (validate_length _ _) => apply appends_validate_length
  | |- appends (ascii_to_str _) => apply appends_ascii_to_str
  | |- appends (add_warning _) => apply appends_add_warning
  | |- appends (add_error (offline_length_error _ _)) =>
      apply appends_add_error; constructor
  | |- appends (when _ _) => apply appends_when
  | |- appends (delete_response_loop _ _ _ _) => apply appends_delete_response_loop
  | |- appends (query_response_loop _ _ _ _) => apply appends_query_response_loop
  | |- appends (if ?b then _ else _) => destruct b
  | |- appends (let '(_, _) := ?e in _) => destruct e
  end.

Lemma appends_parse p body : appends (parse p body).
Proof.
  destruct p; cbn [parse];
    match goal with |- appends (?f body) => unfold f end;
    repeat appends_step.
Qed.

(** A decoder does the same from any context: its outcome, and the errors
    and warnings it appends, are those of a run from the empty context. *)
Lemma parse_run p body c :
  parse p body c =
  (decoder_outcome p body,
   ctx_add c (decoder_errors p body) (decoder_warnings p body)).
Proof.
  destruct (appends_parse p body) as (o & es & ws & _ & H).
  unfold decoder_outcome, decoder_errors, decoder_warnings.
  rewrite (H empty_context), (H c). reflexivity.
Qed.

Lemma decoder_errors_shape p body : Forall decoder_error (decoder_errors p body).
Proof.
  destruct (appends_parse p body) as (o & es & ws & Hes & H).
  unfold decoder_errors. rewrite (H empty_context). exact Hes.
Qed.

(** A body shorter than the declared minimum: one error, an empty record. *)
Lemma parse_short_body p body c :
  len body < expected_min_length p ->
  parse p body c = (Ok [], ctx_add c [length_error p body] []).
Proof.
  intros H.
  destruct p; cbn [parse];
    try (match goal with |- ?f body c = _ => unfold f end;
         unfold bind at 1; rewrite validate_length_short by exact H; reflexivity).
  cbn in H. unfold len in H. lia.
Qed.

(* ================================================================== *)
(** * Which decoders read inside the body they validated *)
(* ================================================================== *)

(** The while loops of the two response decoders never raise: the guard
    leaves room for every byte a pass indexes. *)
Lemma delete_response_loop_safe body fuel : forall offset cards c,
  0 <= offset ->
  exists r c', delete_response_loop fuel body offset cards c = (Ok r, c').
Proof.
  induction fuel as [|fuel IH]; intros offset cards c Hoff; cbn [delete_response_loop].
  - unfold ret. eauto.
  - destruct (Z.leb_spec (offset + 10) (len body)); [|unfold ret; eauto].
    cbv beta zeta.
    rewrite bind_index_ok by lia. rewrite bind_index_ok by lia.
    apply IH. lia.
Qed.

Lemma query_response_loop_safe body fuel : forall offset cards c,
  0 <= offset ->
  exists r c', query_response_loop fuel body offset cards c = (Ok r, c').
Proof.
  induction fuel as [|fuel IH]; intros offset cards c Hoff; cbn [query_response_loop].
  - unfold ret. eauto.
  - destruct (Z.leb_spec (offset + 9) (len body)); [|unfold ret; eauto].
    cbv beta zeta.
    rewrite bind_index_ok by lia.
    apply IH. lia.
Qed.

(** The fuel of the two loops is never what stops them: once it covers the
    bytes left, more fuel changes nothing. *)
Lemma delete_response_loop_fuel body fuel : forall extra offset cards c,
  len body - offset < 10 * (Z.of_nat fuel + 1) ->
  delete_response_loop (fuel + extra) body offset cards c =
  delete_response_loop fuel body offset cards c.
Proof.
  induction fuel as [|fuel IH]; intros extra offset cards c H.
  - cbn [Nat.add delete_response_loop]. destruct extra; [reflexivity|].
    cbn [delete_response_loop].
    destruct (Z.leb_spec (offset + 10) (len body)); [lia|reflexivity].
  - cbn [Nat.add delete_response_loop].
    destruct (Z.leb_spec (offset + 10) (len body)); [|reflexivity].
    cbv beta zeta. unfold bind.
    destruct (index body (offset + 8) c) as [[a|e] c1]; [|reflexivity].
    destruct (index body (offset + 8 + 1) c1) as [[a'|e] c2]; [|reflexivity].
    apply IH. lia.
Qed.

Lemma query_response_loop_fuel body fuel : forall extra offset cards c,
  len body - offset < 9 * (Z.of_nat fuel + 1) ->
  query_response_loop (fuel + extra) body offset cards c =
  query_response_loop fuel body offset cards c.
Proof.
  induction fuel as [|fuel IH]; intros extra offset cards c H.
  - cbn [Nat.add query_response_loop]. destruct extra; [reflexivity|].
    cbn [query_response_loop].
    destruct (Z.leb_spec (offset + 9) (len body)); [lia|reflexivity].
  - cbn [Nat.add query_response_loop].
    destruct (Z.leb_spec (offset + 9) (len body)); [|reflexivity].
    cbv beta zeta. unfold bind.
    destruct (index body (offset + 8) c) as [[a|e] c1]; [|reflexivity].
    apply IH. lia.
Qed.

(** In particular the fuel the two decoders give their loop, the length
    of the body, is enough. *)
Lemma response_loops_fuel_enough body extra cards c :
  delete_response_loop (length body + extra) body 7 cards c =
    delete_response_loop (length body) body 7 cards c /\
  query_response_loop (length body + extra) body 7 cards c =
    query_response_loop (length body) body 7 cards c.
Proof.
  split; [apply delete_response_loop_fuel | apply query_response_loop_fuel];
    unfold len; lia.
Qed.

Ltac decoder_start H :=
  cbn in H; cbn [parse];
  match goal with |- exists r c', ?f ?body ?c = _ => unfold f end;
  rewrite bind_validate_ok by (cbn; lia); cbn [negb].

Ltac decoder_run :=
  repeat first
    [ mstep
    | rewrite bind_index_ok by (rewrite len_slice by (cbn; lia); cbn; lia)
    | match goal with
      | |- context [bind (if ?b then _ else _) _ _] => destruct b
      end ].

(** Every other decoder returns a record for every body of at least its
    declared minimum length: no index it reads is out of range. *)
Lemma parse_safe_at_minimum p body c :
  reads_past_minimum p = false ->
  expected_min_length p <= len body ->
  exists r c', parse p body c = (Ok r, c').
Proof.
  intros Hp H.
  destruct p; try discriminate Hp; clear Hp;
    try (decoder_start H; decoder_run; unfold ret; eauto; fail).
  - cbn [parse]. unfold DefaultParser_parse, ret. eauto.
  - decoder_start H. cbv beta zeta.
    destruct (delete_response_loop_safe body (length body) (0 + 7) [] c)
      as (r & c' & E); [lia|].
    unfold bind at 1. rewrite E. unfold ret. eauto.
  - decoder_start H. cbv beta zeta.
    destruct (query_response_loop_safe body (length body) (0 + 7) [] c)
      as (r & c' & E); [lia|].
    unfold bind at 1. rewrite E. unfold ret. eauto.
Qed.

(** [LoginParser] declares 28 bytes and reads index 29. *)
Lemma LoginParser_raises body c :
  28 <= len body < 30 ->
  fst (parse LoginParser body c) = Raise IndexError.
Proof.
  intros H. cbn [parse]. unfold LoginParser_parse.
  rewrite bind_validate_ok by (cbn; lia). cbn [negb].
  repeat mstep.
  rewrite bind_index_out by (cbn; lia). reflexivity.
Qed.

Lemma LoginParser_safe body c :
  30 <= len body -> exists r c', parse LoginParser body c = (Ok r, c').
Proof.
  intros H. cbn [parse]. unfold LoginParser_parse.
  rewrite bind_validate_ok by (cbn; lia). cbn [negb].
  decoder_run. unfold ret. eauto.
Qed.

(** [TransactionRecordParser] declares 132 bytes and reads indices 141 and
    149. *)
Lemma TransactionRecordParser_raises body c :
  132 <= len body < 150 ->
  fst (parse TransactionRecordParser body c) = Raise IndexError.
Proof.
  intros H. cbn [parse]. unfold TransactionRecordParser_parse.
  rewrite bind_validate_ok by (cbn; lia). cbn [negb].
  cbv beta zeta. cbn [fold_left transaction_period]. cbv beta iota zeta.
  mstep.
  destruct (Z.lt_ge_cases (len body) 142) as [Hlt|Hge].
  - rewrite bind_index_out by (cbn; lia). reflexivity.
  - repeat mstep. rewrite bind_index_out by (cbn; lia). reflexivity.
Qed.

Lemma TransactionRecordParser_safe body c :
  150 <= len body ->
  exists r c', parse TransactionRecordParser body c = (Ok r, c').
Proof.
  intros H. cbn [parse]. unfold TransactionRecordParser_parse.
  rewrite bind_validate_ok by (cbn; lia). cbn [negb].
  cbv beta zeta. cbn [fold_left transaction_period]. cbv beta iota zeta.
  decoder_run. unfold ret. eauto.
Qed.

(* ================================================================== *)
(** * Field codecs: the packed timestamp and scaled integers *)
(* ================================================================== *)

Lemma str_length_app (s1 s2 : string) :
  String.length (s1 ++ s2) = (String.length s1 + String.length s2)%nat.
Proof. induction s1 as [|a s1 IH]; cbn; [reflexivity | now rewrite IH]. Qed.

Lemma fmt_d_exact_length width bound n :
  fmt_d_exact width bound = true ->
  0 <= n < bound ->
  String.length (fmt_d width n) = width.
Proof.
  intros Hc Hn. unfold fmt_d_exact in Hc. rewrite forallb_forall in Hc.
  specialize (Hc (Z.to_nat n)). rewrite Z2Nat.id in Hc by lia.
  apply Nat.eqb_eq, Hc. apply in_seq. lia.
Qed.

Lemma fmt_d_2_length n : 0 <= n < 100 -> String.length (fmt_d 2 n) = 2%nat.
Proof.
  intros H. apply (fmt_d_exact_length 2 100); [vm_compute; reflexivity | lia].
Qed.

Lemma fmt_d_3_length n : 0 <= n < 1000 -> String.length (fmt_d 3 n) = 3%nat.
Proof.
  intros H. apply (fmt_d_exact_length 3 1000); [vm_compute; reflexivity | lia].
Qed.

Lemma fmt_d_4_length n : 0 <= n < 10000 -> String.length (fmt_d 4 n) = 4%nat.
Proof.
  intros H. apply (fmt_d_exact_length 4 10000); [vm_compute; reflexivity | lia].
Qed.

Lemma byte_val_range b : 0 <= byte_val b < 256.
Proof. destruct b; cbv; split; congruence. Qed.

(** C7: for every seven bytes, [parse_cp56time2a] reads the milliseconds as
    a little-endian pair, the minute, hour, day, month and year offset from
    the low 6, 5, 5, 4 and 7 bits of the next five bytes, and returns the
    23-character text YYYY-MM-DD HH:MM:SS.mmm (seconds and milliseconds
    being the quotient and remainder of the millisecond count by 1000);
    the bytes packing 2024-03-15 14:30:00.500 decode to that text. *)
Theorem C7_packed_timestamp_layout :
  (forall b0 b1 b2 b3 b4 b5 b6 : byte,
     parse_cp56time2a [b0; b1; b2; b3; b4; b5; b6] =
       cp56_text (cp56_fields b0 b1 b2 b3 b4 b5 b6) /\
     String.length (parse_cp56time2a [b0; b1; b2; b3; b4; b5; b6]) = 23%nat) /\
  cp56_fields xf4 x01 x1e x0e x0f x03 x18 = (500, 30, 14, 15, 3, 2024) /\
  parse_cp56time2a [xf4; x01; x1e; x0e; x0f; x03; x18] = "2024-03-15 14:30:00.500".
Proof.
  split; [|split; reflexivity].
  intros b0 b1 b2 b3 b4 b5 b6.
  assert (E : parse_cp56time2a [b0; b1; b2; b3; b4; b5; b6] =
              cp56_text (cp56_fields b0 b1 b2 b3 b4 b5 b6)).
  { unfold parse_cp56time2a, cp56_text, cp56_fields.
    change (len [b0; b1; b2; b3; b4; b5; b6] <? 7) with false.
    cbv beta iota zeta.
    change (slice [b0; b1; b2; b3; b4; b5; b6] 0 2) with [b0; b1].
    cbn [nth int_from_bytes_little].
    change 63 with (Z.ones 6). change 31 with (Z.ones 5).
    change 15 with (Z.ones 4). change 127 with (Z.ones 7).
    rewrite !Z.land_ones by lia.
    change (2 ^ 6) with 64. change (2 ^ 5) with 32.
    change (2 ^ 4) with 16. change (2 ^ 7) with 128.
    replace (byte_val b0 + 256 * (byte_val b1 + 256 * 0))
      with (byte_val b0 + 256 * byte_val b1) by lia.
    reflexivity. }
  split; [exact E|].
  rewrite E. unfold cp56_text, cp56_fields.
  pose proof (byte_val_range b0). pose proof (byte_val_range b1).
  pose proof (Z.mod_pos_bound (byte_val b2) 64).
  pose proof (Z.mod_pos_bound (byte_val b3) 32).
  pose proof (Z.mod_pos_bound (byte_val b4) 32).
  pose proof (Z.mod_pos_bound (byte_val b5) 16).
  pose proof (Z.mod_pos_bound (byte_val b6) 128).
  pose proof (Z.mod_pos_bound (byte_val b0 + 256 * byte_val b1) 1000).
  assert (0 <= (byte_val b0 + 256 * byte_val b1) / 1000 < 100).
  { split; [apply Z.div_pos; lia | apply Z.div_lt_upper_bound; lia]. }
  rewrite !str_length_app.
  rewrite fmt_d_4_length by lia.
  rewrite !fmt_d_2_length by lia.
  rewrite fmt_d_3_length by lia.
  reflexivity.
Qed.

Lemma int_from_bytes_little_zeros n : int_from_bytes_little (repeat x00 n) = 0.
Proof. induction n as [|n IH]; cbn [repeat int_from_bytes_little]; [reflexivity|]. rewrite IH. reflexivity. Qed.

(** The fields of the real-time record that the scaled-integer property is
    about, for every body the decoder accepts. *)
Lemma RealtimeDataParser_scaled_fields body c :
  58 <= len body ->
  exists r c',
    parse RealtimeDataParser body c = (Ok r, c') /\
    dict_get r "output_voltage" =
      Some (VFloat (int_div_float (int_from_bytes_little (slice body 27 29)) 10)) /\
    dict_get r "cable_temperature" =
      Some (VInt (byte_val (nth 31 body x00) - 50)).
Proof.
  intros H. cbn [parse]. unfold RealtimeDataParser_parse.
  rewrite bind_validate_ok by (cbn; lia). cbn [negb].
  decoder_run. unfold ret.
  eexists. eexists. split; [reflexivity|].
  split; reflexivity.
Qed.

Lemma ParameterConfigParser_scaled_fields body c :
  41 <= len body ->
  exists r c',
    parse ParameterConfigParser body c = (Ok r, c') /\
    dict_get r "bms_max_charge_current_a" =
      Some (VFloat (float_sub_int
                      (int_div_float (int_from_bytes_little (slice body 26 28)) 10) 400)).
Proof.
  intros H. cbn [parse]. unfold ParameterConfigParser_parse.
  rewrite bind_validate_ok by (cbn; lia). cbn [negb].
  decoder_run. unfold ret.
  eexists. eexists. split; reflexivity.
Qed.

(** C8: scaled-integer decoding is exact at the boundary values.  A raw
    value of zero (any number of zero bytes) divided by each divisor the
    decoders use is 0.0, and so minus 400 once the current offset is
    subtracted and minus 50 for a temperature byte; the two bytes FF FF
    divided by 10 are exactly 6553.5, and this is what the real-time
    decoder stores as the output voltage. *)
Theorem C8_scaled_integer_boundaries :
  (forall n d, In d [10; 100; 10000; 100000]%float ->
     int_div_float (int_from_bytes_little (repeat x00 n)) d = 0%float /\
     float_sub_int (int_div_float (int_from_bytes_little (repeat x00 n)) d) 400
       = (-400)%float) /\
  int_div_float (int_from_bytes_little [xff; xff]) 10 = 6553.5%float /\
  (forall body c, 58 <= len body ->
     exists r c',
       parse RealtimeDataParser body c = (Ok r, c') /\
       (slice body 27 29 = [xff; xff] ->
        dict_get r "output_voltage" = Some (VFloat 6553.5)) /\
       (slice body 27 29 = [x00; x00] ->
        dict_get r "output_voltage" = Some (VFloat 0)) /\
       (nth 31 body x00 = x00 ->
        dict_get r "cable_temperature" = Some (VInt (-50)))) /\
  (forall body c, 41 <= len body ->
     exists r c',
       parse ParameterConfigParser body c = (Ok r, c') /\
       (slice body 26 28 = [x00; x00] ->
        dict_get r "bms_max_charge_current_a" = Some (VFloat (-400)))).
Proof.
  split; [|split; [reflexivity|split]].
  - intros n d Hd. rewrite int_from_bytes_little_zeros.
    cbn [In] in Hd.
    destruct Hd as [<-|[<-|[<-|[<-|[]]]]]; split; reflexivity.
  - intros body c H.
    destruct (RealtimeDataParser_scaled_fields body c H) as (r & c' & E & Hv & Ht).
    exists r, c'. split; [exact E|]. repeat split.
    + intros Hs. rewrite Hv, Hs. reflexivity.
    + intros Hs. rewrite Hv, Hs. reflexivity.
    + intros Hb. rewrite Ht, Hb. reflexivity.
  - intros body c H.
    destruct (ParameterConfigParser_scaled_fields body c H) as (r & c' & E & Hv).
    exists r, c'. split; [exact E|].
    intros Hs. rewrite Hv, Hs. reflexivity.
Qed.

Lemma C8_scaled_integer_boundaries_witness :
  In 10%float [10; 100; 10000; 100000]%float /\
  58 <= len realtime_sample_body /\
  slice realtime_sample_body 27 29 = [xff; xff] /\
  exists r c',
    parse RealtimeDataParser realtime_sample_body empty_context = (Ok r, c') /\
    dict_get r "output_voltage" = Some (VFloat 6553.5).
Proof.
  split; [left; reflexivity|].
  split; [vm_compute; discriminate|].
  split; [reflexivity|].
  destruct (proj1 (proj2 (proj2 C8_scaled_integer_boundaries))
              realtime_sample_body empty_context)
    as (r & c' & E & Hv & _).
  - vm_compute. discriminate.
  - exists r, c'. split; [exact E|]. apply Hv. reflexivity.
Defined.

(* ================================================================== *)
(** * Body decoders: the record counts of the batch decoders *)
(* ================================================================== *)

Lemma sync_cards_loop_length n body : forall offset cards,
  length (sync_cards_loop n body offset cards) = (length cards + n)%nat.
Proof.
  induction n as [|n IH]; intros offset cards; cbn [sync_cards_loop].
  - lia.
  - cbv beta zeta. rewrite IH, length_app. cbn [length]. lia.
Qed.

Lemma card_numbers_loop_length n body : forall offset cards,
  length (card_numbers_loop n body offset cards) = (length cards + n)%nat.
Proof.
  induction n as [|n IH]; intros offset cards; cbn [card_numbers_loop].
  - lia.
  - cbv beta zeta. rewrite IH, length_app. cbn [length]. lia.
Qed.

(** The number of records a batch decoder reads when the declared count
    overruns the body: the records that fit after the eight header bytes. *)
Lemma clamped_count count size (body : list byte) :
  0 < size -> 8 <= len body -> len body < 8 + count * size ->
  Z.of_nat (Z.to_nat (Z.min count ((len body - 8) / size))) = (len body - 8) / size.
Proof.
  intros Hs Hl Hc.
  assert (0 <= (len body - 8) / size) by (apply Z.div_pos; lia).
  assert ((len body - 8) / size < count) by (apply Z.div_lt_upper_bound; nia).
  rewrite Z.min_r by lia. lia.
Qed.

(** C5 (amended): when the record count an offline-card sync, delete or
    query body declares needs more bytes than the body has, the decoder
    still returns a record, parses exactly the records that fit entirely
    in the body, and appends exactly one entry to the errors (nothing to
    the warnings) that reports the declared and the actual length. *)
Theorem C5_batch_count_clamped_with_error :
  forall p body c,
    is_batch_parser p = true ->
    8 <= len body ->
    let count := byte_val (nth 7 body x00) in
    let expected_len := 8 + count * batch_record_size p in
    len body < expected_len ->
    exists result cards,
      parse p body c =
        (Ok result, ctx_add c [offline_length_error expected_len body] []) /\
      dict_get result "card_count" = Some (VInt count) /\
      dict_get result (batch_records_key p) = Some (VList cards) /\
      len cards = (len body - 8) / batch_record_size p.
Proof.
  intros p body c Hp Hl count expected_len Hc.
  destruct p; try discriminate Hp; clear Hp;
    cbn [batch_record_size batch_records_key] in *; cbn [parse];
    match goal with |- exists _ _, ?f body c = _ /\ _ => unfold f end;
    rewrite bind_validate_ok by (cbn; lia); cbn [negb];
    mstep; mstep;
    change (Z.to_nat (0 + 7)) with 7%nat; fold count;
    match goal with
    | |- context [if ?b then _ else _] =>
        replace b with true by (symmetry; apply Z.ltb_lt; subst expected_len; lia)
    end;
    cbv beta iota zeta; unfold ret;
    eexists; eexists;
    (split; [reflexivity|]); (split; [reflexivity|]); (split; [reflexivity|]);
    unfold len at 1.
  - rewrite sync_cards_loop_length. cbn [length Nat.add].
    apply clamped_count; subst expected_len; lia.
  - rewrite card_numbers_loop_length. cbn [length Nat.add].
    apply clamped_count; subst expected_len; lia.
  - rewrite card_numbers_loop_length. cbn [length Nat.add].
    apply clamped_count; subst expected_len; lia.
Qed.

Lemma C5_batch_count_clamped_with_error_witness :
  is_batch_parser OfflineCardSyncParser = true /\
  8 <= len sync_body_one_of_two /\
  len sync_body_one_of_two < 8 + 2 * 16 /\
  exists result cards,
    parse OfflineCardSyncParser sync_body_one_of_two empty_context =
      (Ok result,
       ctx_add empty_context [offline_length_error 40 sync_body_one_of_two] []) /\
    dict_get result "card_count" = Some (VInt 2) /\
    dict_get result "cards" = Some (VList cards) /\
    len cards = 1.
Proof.
  split; [reflexivity|].
  split; [vm_compute; discriminate|].
  split; [vm_compute; reflexivity|].
  apply (C5_batch_count_clamped_with_error
           OfflineCardSyncParser sync_body_one_of_two empty_context).
  - reflexivity.
  - vm_compute. discriminate.
  - vm_compute. reflexivity.
Defined.

(** C5, as first stated, fails on that body: the mismatch between the
    declared and the available records is recorded in the errors, and the
    warnings stay empty. *)
Lemma C5_counterexample :
  errors (snd (parse OfflineCardSyncParser sync_body_one_of_two empty_context))
    = ["离线卡数据长度不足: 需要40字节, 实际24字节"] /\
  warnings (snd (parse OfflineCardSyncParser sync_body_one_of_two empty_context))
    = [].
Proof. split; vm_compute; reflexivity. Qed.

(* ================================================================== *)
(** * The envelope parser, stage by stage *)
(* ================================================================== *)

(** A frame whose declared length is below the four bytes of sequence
    number, flag and type: the pass stops after the frame type. *)
Lemma parse_structure_halt crc data c :
  6 <= len data -> declared_length data < 4 ->
  YKCProtocolParser._parse_structure crc data c =
    (Ok (envelope_fields data),
     ctx_add c (header_errors data ++
                [YKCProtocolParser.data_length_error (declared_length data)])
               (type_warnings data)).
Proof.
  intros Hlen Hdl.
  unfold YKCProtocolParser._parse_structure.
  do 4 mstep.
  replace (4 <=? len data) with true by (symmetry; apply Z.leb_le; lia).
  replace (5 <=? len data) with true by (symmetry; apply Z.leb_le; lia).
  replace (6 <=? len data) with true by (symmetry; apply Z.leb_le; lia).
  cbn [negb].
  do 3 mstep.
  change (Z.to_nat 0) with 0%nat. change (Z.to_nat 1) with 1%nat.
  change (Z.to_nat 4) with 4%nat. change (Z.to_nat 5) with 5%nat.
  fold (frame_byte data 0) (frame_byte data 1) (frame_byte data 4) (frame_byte data 5).
  fold (declared_length data) (frame_type_code data).
  replace (declared_length data - 4 <? 0) with true by (symmetry; apply Z.ltb_lt; lia).
  cbv beta iota zeta. rewrite bind_add_error. unfold ret.
  rewrite !ctx_add_add, !Bool.if_negb.
  unfold header_errors, type_warnings, envelope_fields, expected_total_length.
  cbn [dict_set String.eqb Ascii.eqb Bool.eqb andb].
  rewrite <- ?app_assoc; rewrite ?app_nil_r; cbn [app].
  reflexivity.
Qed.

(** A frame with room for its header and a declared length of four or
    more: the result is the envelope fields, the body length and hex view,
    the checksum fields and the body stage's entry, and the context gains
    the diagnostics of each stage in order. *)
Lemma parse_structure_body crc data c :
  6 <= len data -> 4 <= declared_length data ->
  YKCProtocolParser._parse_structure crc data c =
    (Ok (envelope_fields data ++ body_fields data ++ checksum_fields crc data ++
         body_data_field data)%list,
     ctx_add c
       (header_errors data ++ body_slice_errors data ++ checksum_errors data ++
        body_decode_errors data)
       (type_warnings data ++ checksum_warnings crc data ++
        body_decode_warnings data)).
Proof.
  intros Hlen Hdl.
  unfold YKCProtocolParser._parse_structure.
  do 4 mstep.
  replace (4 <=? len data) with true by (symmetry; apply Z.leb_le; lia).
  replace (5 <=? len data) with true by (symmetry; apply Z.leb_le; lia).
  replace (6 <=? len data) with true by (symmetry; apply Z.leb_le; lia).
  cbn [negb].
  do 3 mstep.
  change (Z.to_nat 0) with 0%nat. change (Z.to_nat 1) with 1%nat.
  change (Z.to_nat 4) with 4%nat. change (Z.to_nat 5) with 5%nat.
  fold (frame_byte data 0) (frame_byte data 1) (frame_byte data 4) (frame_byte data 5).
  fold (declared_length data) (frame_type_code data).
  replace (declared_length data - 4 <? 0) with false by (symmetry; apply Z.ltb_ge; lia).
  cbv beta zeta.
  fold (frame_body_end data).
  unfold body_data_field, body_decode_errors, body_decode_warnings, body_fields,
    checksum_fields, checksum_errors, checksum_warnings, body_slice_errors,
    frame_body, checksum_readable, header_errors, type_warnings, envelope_fields,
    expected_total_length, frame_parser.
  fold (checksum_received data) (checksum_calculated crc data).
  rewrite !ctx_add_add, !Bool.if_negb.
  destruct (len data <? frame_body_end data) eqn:Etr;
    (destruct (frame_body_end data + 2 <=? len data) eqn:Ecrc;
     [ try (apply Z.ltb_lt in Etr; apply Z.leb_le in Ecrc; lia);
       destruct (checksum_calculated crc data =? checksum_received data) eqn:Eeq | ]).
  all: cbn [negb];
    repeat (cbv beta iota zeta;
            first [ rewrite bind_assoc | rewrite bind_ret | rewrite bind_add_error
                  | rewrite bind_add_warning ]).
  all: rewrite ?ctx_add_add.
  all: cbn [dict_set String.eqb Ascii.eqb Bool.eqb andb].
  all: match goal with |- context [match ?b with [] => _ | _ :: _ => _ end] =>
         destruct b as [|b0 body'] eqn:Ebody end.
  all: rewrite <- ?app_assoc; rewrite ?app_nil_r; cbn [app].
  all: try reflexivity.
  all: unfold try_except, bind at 1; rewrite parse_run.
  all: destruct (decoder_outcome _ _) as [bd|e].
  all: rewrite ?bind_add_error; unfold ret; rewrite ?ctx_add_add.
  all: cbn [dict_set String.eqb Ascii.eqb Bool.eqb andb].
  all: rewrite <- ?app_assoc; rewrite ?app_nil_r; cbn [app].
  all: reflexivity.
Qed.

(** The pass never raises on a frame with room for its header. *)
Lemma parse_structure_returns crc data c :
  6 <= len data ->
  exists result c', YKCProtocolParser._parse_structure crc data c = (Ok result, c').
Proof.
  intros Hlen. destruct (Z.lt_ge_cases (declared_length data) 4).
  - rewrite parse_structure_halt by assumption. eauto.
  - rewrite parse_structure_body by assumption. eauto.
Qed.

(** Lookups in a record built by concatenation. *)
Lemma dict_get_app (d1 d2 : dict) k :
  dict_get (d1 ++ d2)%list k =
  match dict_get d1 k with Some v => Some v | None => dict_get d2 k end.
Proof.
  induction d1 as [|[k' v'] d1 IH]; cbn [app dict_get]; [reflexivity|].
  destruct (String.eqb k k'); [reflexivity | exact IH].
Qed.

Lemma dict_get_set d k v k' :
  dict_get (dict_set d k v) k' =
  if String.eqb k' k then Some v else dict_get d k'.
Proof.
  induction d as [|[k0 v0] d IH]; cbn [dict_set dict_get].
  - reflexivity.
  - destruct (String.eqb k k0) eqn:E.
    + apply String.eqb_eq in E. subst k0. cbn [dict_get].
      destruct (String.eqb k' k); reflexivity.
    + cbn [dict_get]. rewrite IH.
      destruct (String.eqb k' k0) eqn:E0; [|reflexivity].
      apply String.eqb_eq in E0. subst k0.
      rewrite String.eqb_sym in E. now rewrite E.
Qed.

Lemma envelope_fields_lookup data (d : dict) k v :
  In (k, v) (envelope_fields data) ->
  dict_get (envelope_fields data ++ d)%list k = Some v.
Proof.
  intros H. rewrite dict_get_app. unfold envelope_fields in *.
  cbn [In] in H.
  repeat (destruct H as [H|H]; [inversion H; subst; reflexivity|]).
  contradiction.
Qed.

(* ================================================================== *)
(** * The envelope parser: what a decode records *)
(* ================================================================== *)

Lemma body_fields_lookup data (d : dict) k v :
  In (k, v) (body_fields data) ->
  dict_get (envelope_fields data ++ body_fields data ++ d)%list k = Some v.
Proof.
  intros H. rewrite !dict_get_app. unfold body_fields in *. cbn [In] in H.
  repeat (destruct H as [H|H]; [inversion H; subst; reflexivity|]).
  contradiction.
Qed.

Lemma checksum_fields_no_body_data crc data :
  dict_get (checksum_fields crc data) "body_data" = None.
Proof. unfold checksum_fields. destruct (checksum_readable data); reflexivity. Qed.

Lemma body_data_lookup crc data :
  dict_get (envelope_fields data ++ body_fields data ++ checksum_fields crc data ++
            body_data_field data)%list "body_data" =
  dict_get (body_data_field data) "body_data".
Proof.
  rewrite !dict_get_app, checksum_fields_no_body_data. reflexivity.
Qed.

Lemma crc16_valid_lookup crc data (d : dict) :
  dict_get (envelope_fields data ++ body_fields data ++ checksum_fields crc data ++ d)%list
           "crc16_valid" =
  Some (VBool (checksum_readable data &&
               (checksum_calculated crc data =? checksum_received data))).
Proof.
  rewrite !dict_get_app. unfold checksum_fields.
  destruct (checksum_readable data); reflexivity.
Qed.

(** Every field of the envelope, of the body view and of the body stage is
    in the result under its own key. *)
Lemma structure_fields_lookup crc data k v :
  In (k, v) (envelope_fields data ++ body_fields data ++ body_data_field data)%list ->
  dict_get (envelope_fields data ++ body_fields data ++ checksum_fields crc data ++
            body_data_field data)%list k = Some v.
Proof.
  intros H. apply in_app_or in H. destruct H as [H|H].
  - now apply envelope_fields_lookup.
  - apply in_app_or in H. destruct H as [H|H].
    + now apply body_fields_lookup.
    + unfold body_data_field in H.
      destruct (frame_body data) eqn:E; [contradiction|].
      cbn [In] in H. destruct H as [H|[]]. inversion H; subst.
      rewrite body_data_lookup. unfold body_data_field. rewrite E. reflexivity.
Qed.

(** C2 (amended): on a frame of at least eight bytes whose declared length
    covers the four header bytes it counts (so that the structural pass
    reaches the checksum), a checksum that differs from the value
    computed over the bytes from the sequence number to the end of the body
    is recorded as one warning; the errors are those of the header and of
    the body decoder alone; the result holds every envelope field, the body
    view and the body decoder's record, and its validity flag is false.
    When the frame ends before the two checksum bytes, the fixed error of an
    unreadable checksum is recorded instead, with no checksum warning, and
    the flag is false as well. *)
Theorem C2_checksum_mismatch_is_a_warning :
  forall crc data,
    8 <= len data ->
    4 <= declared_length data ->
    exists result c',
      YKCProtocolParser._parse_structure crc data empty_context = (Ok result, c') /\
      (forall k v,
         In (k, v) (envelope_fields data ++ body_fields data ++ body_data_field data)%list ->
         dict_get result k = Some v) /\
      (frame_body_end data + 2 <= len data ->
       checksum_calculated crc data <> checksum_received data ->
       warnings c' =
         (type_warnings data ++
          [YKCProtocolParser.crc_mismatch_warning
             (checksum_received data) (checksum_calculated crc data)] ++
          body_decode_warnings data)%list /\
       errors c' = (header_errors data ++ body_decode_errors data)%list /\
       dict_get result "crc16_valid" = Some (VBool false)) /\
      (len data < frame_body_end data + 2 ->
       In YKCProtocolParser.crc_short_error (errors c') /\
       warnings c' = (type_warnings data ++ body_decode_warnings data)%list /\
       dict_get result "crc16_valid" = Some (VBool false)).
Proof.
  intros crc data Hlen Hdl.
  rewrite parse_structure_body by lia.
  eexists. eexists. split; [reflexivity|].
  split; [intros k v; apply structure_fields_lookup|].
  cbn [errors warnings ctx_add empty_context app].
  split.
  - intros Hcrc Hne.
    assert (Er : checksum_readable data = true)
      by (unfold checksum_readable; apply Z.leb_le; lia).
    assert (Eq : (checksum_calculated crc data =? checksum_received data) = false)
      by (apply Z.eqb_neq; exact Hne).
    assert (Et : (len data <? frame_body_end data) = false)
      by (apply Z.ltb_ge; lia).
    unfold checksum_warnings, checksum_errors, body_slice_errors.
    rewrite Er, Eq, Et. cbn [app].
    split; [reflexivity|]. split; [reflexivity|].
    rewrite crc16_valid_lookup, Er, Eq. reflexivity.
  - intros Hshort.
    assert (Er : checksum_readable data = false)
      by (unfold checksum_readable; apply Z.leb_gt; lia).
    unfold checksum_warnings, checksum_errors. rewrite Er. cbn [app].
    split; [|split; [reflexivity|]].
    + apply in_or_app. right. apply in_or_app. right. left. reflexivity.
    + rewrite crc16_valid_lookup, Er. reflexivity.
Qed.

(* ================================================================== *)
(** * Body decoders: a declared minimum that is too small *)
(* ================================================================== *)

(** C3: [LoginParser] on a body of exactly its declared minimum length.
    The 28 zero bytes pass [validate_length] (no error is recorded), and
    the decoder then indexes byte 29 and raises [IndexError] instead of
    returning a record; the envelope parser reports the frame with
    [body_data] set to [None] and the error of a failed body decode. *)
Theorem C3_login_body_of_minimum_length_raises :
  expected_min_length LoginParser <= len (repeat x00 28) /\
  parse LoginParser (repeat x00 28) empty_context = (Raise IndexError, empty_context) /\
  (forall crc,
     exists result c',
       YKCProtocolParser._parse_structure crc login_frame_28 empty_context
         = (Ok result, c') /\
       dict_get result "body_data" = Some VNone /\
       errors c' = ["消息体解析失败: index out of range"]).
Proof.
  split; [vm_compute; discriminate|].
  split; [vm_compute; reflexivity|].
  intros crc.
  rewrite parse_structure_body by (vm_compute; discriminate).
  eexists. eexists. split; [reflexivity|].
  split; [rewrite body_data_lookup|]; vm_compute; reflexivity.
Qed.

(* ================================================================== *)
(** * The envelope parser: the checksum and unknown frame types *)
(* ================================================================== *)

Lemma C2_checksum_mismatch_is_a_warning_witness :
  (8 <= len heartbeat_frame_bad_crc /\
   4 <= declared_length heartbeat_frame_bad_crc /\
   frame_body_end heartbeat_frame_bad_crc + 2 <= len heartbeat_frame_bad_crc /\
   checksum_calculated crc16_sample heartbeat_frame_bad_crc
     <> checksum_received heartbeat_frame_bad_crc /\
   exists result c',
     YKCProtocolParser._parse_structure crc16_sample heartbeat_frame_bad_crc
       empty_context = (Ok result, c') /\
     warnings c' = ["CRC16校验失败: 期望0x0000, 计算0xD3E9"] /\
     errors c' = [] /\
     dict_get result "crc16_valid" = Some (VBool false) /\
     dict_get result "body_data" =
       Some (VDict [("pile_code", VStr "32010200000011")])) /\
  (8 <= len login_frame_cut /\
   4 <= declared_length login_frame_cut /\
   len login_frame_cut < frame_body_end login_frame_cut + 2 /\
   exists result c',
     YKCProtocolParser._parse_structure crc16_sample login_frame_cut
       empty_context = (Ok result, c') /\
     In YKCProtocolParser.crc_short_error (errors c') /\
     dict_get result "crc16_valid" = Some (VBool false)).
Proof.
  split.
  - assert (H1 : 8 <= len heartbeat_frame_bad_crc) by (vm_compute; discriminate).
    assert (H2 : 4 <= declared_length heartbeat_frame_bad_crc) by (vm_compute; discriminate).
    assert (H3 : frame_body_end heartbeat_frame_bad_crc + 2 <= len heartbeat_frame_bad_crc)
      by (vm_compute; discriminate).
    assert (H4 : checksum_calculated crc16_sample heartbeat_frame_bad_crc
                 <> checksum_received heartbeat_frame_bad_crc)
      by (vm_compute; discriminate).
    repeat (split; [assumption|]).
    destruct (C2_checksum_mismatch_is_a_warning crc16_sample heartbeat_frame_bad_crc H1 H2)
      as (result & c' & E & Hf & Hm & _).
    destruct (Hm H3 H4) as (Hw & He & Hv).
    exists result, c'. split; [exact E|].
    split; [rewrite Hw; vm_compute; reflexivity|].
    split; [rewrite He; vm_compute; reflexivity|].
    split; [exact Hv|].
    apply Hf. vm_compute. right. right. right. right. right. right. right.
    right. right. left. reflexivity.
  - assert (H1 : 8 <= len login_frame_cut) by (vm_compute; discriminate).
    assert (H2 : 4 <= declared_length login_frame_cut) by (vm_compute; discriminate).
    assert (H3 : len login_frame_cut < frame_body_end login_frame_cut + 2)
      by (vm_compute; reflexivity).
    repeat (split; [assumption|]).
    destruct (C2_checksum_mismatch_is_a_warning crc16_sample login_frame_cut H1 H2)
      as (result & c' & E & _ & _ & Hs).
    destruct (Hs H3) as (He & _ & Hv).
    exists result, c'. split; [exact E|]. split; [exact He | exact Hv].
Defined.

(** C2, as first stated, fails on that frame: it is long enough to hold
    two checksum bytes after the declared end of the body and they differ
    from the computed value, yet the pass stops at the declared length: no
    warning is recorded and the result has no validity flag at all. *)
Lemma C2_counterexample :
  frame_body_end short_declared_frame + 2 <= len short_declared_frame /\
  checksum_calculated crc16_sample short_declared_frame
    <> checksum_received short_declared_frame /\
  YKCProtocolParser._parse_structure crc16_sample short_declared_frame empty_context
    = (Ok (envelope_fields short_declared_frame),
       mkContext ["报文长度不匹配: 期望7字节, 实际8字节"; "数据长度字段错误: 3"] []) /\
  dict_get (envelope_fields short_declared_frame) "crc16_valid" = None.
Proof.
  split; [vm_compute; discriminate|].
  split; [vm_compute; discriminate|].
  split; [|reflexivity].
  rewrite parse_structure_halt by (vm_compute; first [discriminate | reflexivity]).
  vm_compute. reflexivity.
Qed.

Lemma default_parser_run body c :
  parse DefaultParser body c = (Ok (default_record body), c).
Proof. reflexivity. Qed.

Lemma default_parser_outcome body :
  decoder_outcome DefaultParser body = Ok (default_record body) /\
  decoder_errors DefaultParser body = [] /\
  decoder_warnings DefaultParser body = [].
Proof. repeat split. Qed.

(** A code without a display name has no decoder either. *)
Lemma unnamed_type_has_default_parser code :
  table_mem YKCProtocolParser.FRAME_TYPES code = false ->
  FrameParserFactory.get_parser code = DefaultParser.
Proof.
  intros H. unfold YKCProtocolParser.FRAME_TYPES in H. cbn [table_mem] in H.
  repeat (apply orb_false_elim in H; destruct H as [? H]).
  unfold FrameParserFactory.get_parser, FrameParserFactory._parsers.
  cbn [table_get].
  repeat match goal with
    | E : (code =? ?k) = false |- _ => rewrite ?E; clear E
    end.
  reflexivity.
Qed.

(** Every code with a decoder has a display name. *)
Lemma decoder_codes_are_named code :
  table_mem FrameParserFactory._parsers code = true ->
  table_mem YKCProtocolParser.FRAME_TYPES code = true.
Proof.
  intros H. unfold FrameParserFactory._parsers in H. cbn [table_mem] in H.
  repeat (apply orb_prop in H; destruct H as [H|H];
          [apply Z.eqb_eq in H; subst code; reflexivity|]).
  discriminate H.
Qed.

(** A declared length below four leaves no body slice. *)
Lemma frame_body_halt data :
  6 <= len data -> declared_length data < 4 -> frame_body data = [].
Proof.
  intros Hlen Hdl. unfold frame_body, frame_body_end.
  destruct (Z.ltb_spec (len data) (6 + (declared_length data - 4))); [lia|].
  unfold slice. replace (Z.to_nat (6 + (declared_length data - 4) - 6)) with 0%nat by lia.
  reflexivity.
Qed.

(** The body stage when the default decoder is selected: no diagnostics,
    and the default record for a body that is not empty. *)
Lemma default_body_stage data :
  frame_parser data = DefaultParser ->
  body_decode_errors data = [] /\
  body_decode_warnings data = [] /\
  dict_get (body_data_field data) "body_data" =
    match frame_body data with
    | [] => None
    | _ :: _ => Some (VDict (default_record (frame_body data)))
    end.
Proof.
  intros Hp. unfold body_decode_errors, body_decode_warnings, body_data_field.
  rewrite Hp. destruct (frame_body data); repeat split.
Qed.

Lemma type_name_lookup data (d : dict) :
  dict_get (envelope_fields data ++ d)%list "frame_type_name" =
  Some (VStr (table_get YKCProtocolParser.FRAME_TYPES (frame_type_code data) "未知帧类型")).
Proof. rewrite dict_get_app. reflexivity. Qed.

Lemma unnamed_type_name code :
  table_mem YKCProtocolParser.FRAME_TYPES code = false ->
  table_get YKCProtocolParser.FRAME_TYPES code "未知帧类型" = "未知帧类型".
Proof.
  intros H. unfold YKCProtocolParser.FRAME_TYPES in *. cbn [table_mem] in H.
  repeat (apply orb_false_elim in H; destruct H as [? H]).
  cbn [table_get].
  repeat match goal with
    | E : (code =? ?k) = false |- _ => rewrite ?E; clear E
    end.
  reflexivity.
Qed.

(** C4 (amended): on a frame of at least eight bytes whose type code has no
    display name, the unknown-type warning is recorded, the errors are those
    of the header, the body slice and the checksum alone, the result's
    [frame_type_name] is the fixed placeholder text of the source, the
    default decoder is selected, and the result's [body_data] is its record
    of the body slice (the bytes in upper-case hex and the
    not-yet-implemented note), absent only when that slice is empty. *)
Theorem C4_unknown_frame_type_falls_back :
  forall crc data,
    8 <= len data ->
    table_mem YKCProtocolParser.FRAME_TYPES (frame_type_code data) = false ->
    exists result c',
      YKCProtocolParser._parse_structure crc data empty_context = (Ok result, c') /\
      In (YKCProtocolParser.unknown_type_warning (frame_type_code data)) (warnings c') /\
      errors c' =
        (header_errors data ++
         (if declared_length data <? 4
          then [YKCProtocolParser.data_length_error (declared_length data)]
          else body_slice_errors data ++ checksum_errors data))%list /\
      dict_get result "frame_type_name" = Some (VStr "未知帧类型") /\
      frame_parser data = DefaultParser /\
      dict_get result "body_data" =
        match frame_body data with
        | [] => None
        | _ :: _ =>
            Some (VDict [ ("raw", VStr (bytes_hex_upper (frame_body data)));
                          ("note", VStr "该帧类型暂未实现详细解析") ])
        end.
Proof.
  intros crc data Hlen Hty.
  pose proof (unnamed_type_has_default_parser _ Hty) as Hp.
  fold (frame_parser data) in Hp.
  destruct (default_body_stage data Hp) as (Hbe & Hbw & Hbd).
  assert (Hw : type_warnings data =
               [YKCProtocolParser.unknown_type_warning (frame_type_code data)])
    by (unfold type_warnings; now rewrite Hty).
  destruct (Z.ltb_spec (declared_length data) 4) as [Hdl|Hdl].
  - rewrite parse_structure_halt by lia.
    eexists. eexists. split; [reflexivity|].
    cbn [errors warnings ctx_add empty_context app].
    split; [rewrite Hw; left; reflexivity|].
    split; [reflexivity|].
    split; [|split; [exact Hp | now rewrite frame_body_halt by lia]].
    rewrite <- (app_nil_r (envelope_fields data)), type_name_lookup.
    now rewrite unnamed_type_name.
  - rewrite parse_structure_body by lia.
    eexists. eexists. split; [reflexivity|].
    cbn [errors warnings ctx_add empty_context app].
    split; [rewrite Hw; left; reflexivity|].
    split; [rewrite Hbe, !app_nil_r; reflexivity|].
    split; [rewrite type_name_lookup; now rewrite unnamed_type_name|].
    split; [exact Hp|].
    rewrite body_data_lookup. exact Hbd.
Qed.

Lemma C4_unknown_frame_type_falls_back_witness :
  8 <= len unknown_type_frame /\
  table_mem YKCProtocolParser.FRAME_TYPES (frame_type_code unknown_type_frame) = false /\
  exists result c',
    YKCProtocolParser._parse_structure crc16_sample unknown_type_frame empty_context
      = (Ok result, c') /\
    In "未知的帧类型: 0x99" (warnings c') /\
    errors c' = [] /\
    dict_get result "frame_type_name" = Some (VStr "未知帧类型") /\
    dict_get result "body_data" =
      Some (VDict [ ("raw", VStr "AABB"); ("note", VStr "该帧类型暂未实现详细解析") ]).
Proof.
  assert (H1 : 8 <= len unknown_type_frame) by (vm_compute; discriminate).
  assert (H2 : table_mem YKCProtocolParser.FRAME_TYPES
                 (frame_type_code unknown_type_frame) = false) by reflexivity.
  split; [exact H1|]. split; [exact H2|].
  destruct (C4_unknown_frame_type_falls_back crc16_sample unknown_type_frame H1 H2)
    as (result & c' & E & Hw & He & Hn & _ & Hb).
  exists result, c'. split; [exact E|].
  split; [exact Hw|].
  split; [rewrite He; vm_compute; reflexivity|].
  split; [exact Hn|].
  rewrite Hb. reflexivity.
Defined.

(** C4, as first stated, fails on that frame: the name the result carries
    for an unknown type is the source's placeholder text, not the word
    "unknown". *)
Lemma C4_counterexample :
  dict_get (fst (YKCProtocolParser.parse crc16_sample "68 06 01 00 00 99 AA BB 00 00"))
           "frame_type_name" = Some (VStr "未知帧类型") /\
  dict_get (fst (YKCProtocolParser.parse crc16_sample "68 06 01 00 00 99 AA BB 00 00"))
           "frame_type_name" <> Some (VStr "unknown").
Proof.
  assert (E : dict_get (fst (YKCProtocolParser.parse crc16_sample
                               "68 06 01 00 00 99 AA BB 00 00"))
                       "frame_type_name" = Some (VStr "未知帧类型"))
    by (vm_compute; reflexivity).
  split; [exact E|]. rewrite E. discriminate.
Qed.

(* ================================================================== *)
(** * The envelope parser: the length check *)
(* ================================================================== *)

(** No error of a body decoder, and none of the other errors of the
    envelope parser, starts with the text of the length-mismatch error. *)
Lemma length_error_not_mismatch p body :
  is_length_mismatch (length_error p body) = false.
Proof. destruct p; reflexivity. Qed.

Lemma decoder_error_not_mismatch s :
  decoder_error s -> is_length_mismatch s = false.
Proof. intros [p body|n body]; [apply length_error_not_mismatch | reflexivity]. Qed.

Lemma count_length_mismatch_app es1 es2 :
  count_length_mismatch (es1 ++ es2) =
  (count_length_mismatch es1 + count_length_mismatch es2)%nat.
Proof. unfold count_length_mismatch. now rewrite filter_app, length_app. Qed.

Lemma count_length_mismatch_none es :
  Forall (fun s => is_length_mismatch s = false) es ->
  count_length_mismatch es = 0%nat.
Proof.
  unfold count_length_mismatch.
  induction 1 as [|s es Hs _ IH]; cbn [filter]; [reflexivity|].
  now rewrite Hs.
Qed.

Lemma count_header_errors data :
  count_length_mismatch (header_errors data) =
  if len data =? expected_total_length data then 0%nat else 1%nat.
Proof.
  unfold header_errors. rewrite count_length_mismatch_app.
  destruct (frame_byte data 0 =? 104);
    destruct (len data =? expected_total_length data); reflexivity.
Qed.

Lemma count_body_slice_errors data :
  count_length_mismatch (body_slice_errors data) = 0%nat.
Proof.
  unfold body_slice_errors.
  destruct (len data <? frame_body_end data); reflexivity.
Qed.

Lemma count_checksum_errors data :
  count_length_mismatch (checksum_errors data) = 0%nat.
Proof. unfold checksum_errors. destruct (checksum_readable data); reflexivity. Qed.

Lemma count_body_decode_errors data :
  count_length_mismatch (body_decode_errors data) = 0%nat.
Proof.
  unfold body_decode_errors. destruct (frame_body data); [reflexivity|].
  rewrite count_length_mismatch_app.
  rewrite count_length_mismatch_none.
  - destruct (decoder_outcome _ _) as [r|e]; reflexivity.
  - eapply Forall_impl; [|apply decoder_errors_shape].
    intros s. apply decoder_error_not_mismatch.
Qed.

(** C6: on a frame of at least eight bytes whose length is not
    1 + 1 + declared length + 2, the structural pass returns a result
    (nothing is raised), the length-mismatch error is among the errors and
    exactly one error is of that kind, and parsing goes on: every envelope
    field is in the result and, once the declared length covers the header
    fields, so are the body length, the body hex view, the validity flag of
    the checksum and the entry of the body stage (the decoder's record of
    a body that is not empty). *)
Theorem C6_length_mismatch_recorded_once :
  forall crc data,
    8 <= len data ->
    len data <> 1 + 1 + declared_length data + 2 ->
    exists result c',
      YKCProtocolParser._parse_structure crc data empty_context = (Ok result, c') /\
      In (YKCProtocolParser.length_mismatch_error (1 + 1 + declared_length data + 2) data)
         (errors c') /\
      count_length_mismatch (errors c') = 1%nat /\
      (forall k v, In (k, v) (envelope_fields data) -> dict_get result k = Some v) /\
      (4 <= declared_length data ->
       (forall k v, In (k, v) (body_fields data) -> dict_get result k = Some v) /\
       (exists valid, dict_get result "crc16_valid" = Some (VBool valid)) /\
       dict_get result "body_data" = dict_get (body_data_field data) "body_data").
Proof.
  intros crc data Hlen Hne.
  assert (Eq : (len data =? expected_total_length data) = false)
    by (apply Z.eqb_neq; exact Hne).
  assert (Hin : In (YKCProtocolParser.length_mismatch_error
                      (1 + 1 + declared_length data + 2) data) (header_errors data)).
  { unfold header_errors. rewrite Eq. apply in_or_app. right. left. reflexivity. }
  assert (Hcount : count_length_mismatch (header_errors data) = 1%nat)
    by (rewrite count_header_errors, Eq; reflexivity).
  destruct (Z.ltb_spec (declared_length data) 4) as [Hdl|Hdl].
  - rewrite parse_structure_halt by lia.
    eexists. eexists. split; [reflexivity|].
    cbn [errors warnings ctx_add empty_context app].
    split; [apply in_or_app; left; exact Hin|].
    split; [rewrite count_length_mismatch_app, Hcount; reflexivity|].
    split; [|intros; lia].
    intros k v H. rewrite <- (app_nil_r (envelope_fields data)).
    now apply envelope_fields_lookup.
  - rewrite parse_structure_body by lia.
    eexists. eexists. split; [reflexivity|].
    cbn [errors warnings ctx_add empty_context app].
    split; [apply in_or_app; left; exact Hin|].
    split.
    { rewrite !count_length_mismatch_app, Hcount, count_body_slice_errors,
        count_checksum_errors, count_body_decode_errors. reflexivity. }
    split; [intros k v H; now apply envelope_fields_lookup|].
    intros _. split; [intros k v H; now apply body_fields_lookup|].
    split; [eexists; apply crc16_valid_lookup|].
    apply body_data_lookup.
Qed.

Lemma C6_length_mismatch_recorded_once_witness :
  8 <= len login_frame_cut /\
  len login_frame_cut <> 1 + 1 + declared_length login_frame_cut + 2 /\
  exists result c',
    YKCProtocolParser._parse_structure crc16_sample login_frame_cut empty_context
      = (Ok result, c') /\
    In "报文长度不匹配: 期望9字节, 实际8字节" (errors c') /\
    count_length_mismatch (errors c') = 1%nat /\
    dict_get result "sequence_number" = Some (VInt 1) /\
    4 <= declared_length login_frame_cut /\
    dict_get result "body_length" = Some (VInt 1) /\
    dict_get result "body_data" = Some (VDict []).
Proof.
  assert (H1 : 8 <= len login_frame_cut) by (vm_compute; discriminate).
  assert (H2 : len login_frame_cut <> 1 + 1 + declared_length login_frame_cut + 2)
    by (vm_compute; discriminate).
  split; [exact H1|]. split; [exact H2|].
  destruct (C6_length_mismatch_recorded_once crc16_sample login_frame_cut H1 H2)
    as (result & c' & E & Hin & Hc & Hf & Hbody).
  assert (H3 : 4 <= declared_length login_frame_cut) by (vm_compute; discriminate).
  destruct (Hbody H3) as (Hbf & _ & Hbd).
  exists result, c'. split; [exact E|].
  split; [exact Hin|]. split; [exact Hc|].
  split; [apply Hf; right; right; left; reflexivity|].
  split; [exact H3|].
  split; [apply Hbf; left; reflexivity|].
  rewrite Hbd. vm_compute. reflexivity.
Defined.

(* ================================================================== *)
(** * The envelope parser: named types without a decoder, empty bodies *)
(* ================================================================== *)

Lemma unknown_warning_not_crc_warning code recv calc :
  YKCProtocolParser.unknown_type_warning code <>
  YKCProtocolParser.crc_mismatch_warning recv calc.
Proof.
  unfold YKCProtocolParser.unknown_type_warning, YKCProtocolParser.crc_mismatch_warning.
  cbn [append]. discriminate.
Qed.

(** C9: each of the codes 0x05, 0x06, 0x09, 0x0A, 0xF0 and 0xF1 has a
    display name and no entry in the dispatch table, so [get_parser]
    answers the default decoder; every code with a decoder has a name, and
    these six are exactly the named codes without one.  On a frame of such
    a type no unknown-type warning is recorded, and the result's
    [body_data] is the default decoder's record of the body slice, absent
    only when that slice is empty. *)
Theorem C9_named_types_without_decoder :
  (forall code, In code named_without_decoder ->
     table_mem YKCProtocolParser.FRAME_TYPES code = true /\
     table_mem FrameParserFactory._parsers code = false /\
     FrameParserFactory.get_parser code = DefaultParser) /\
  (forall code,
     table_mem FrameParserFactory._parsers code = true ->
     table_mem YKCProtocolParser.FRAME_TYPES code = true) /\
  (forall code,
     table_mem YKCProtocolParser.FRAME_TYPES code = true ->
     table_mem FrameParserFactory._parsers code = false ->
     In code named_without_decoder) /\
  (forall crc data,
     8 <= len data ->
     In (frame_type_code data) named_without_decoder ->
     exists result c',
       YKCProtocolParser._parse_structure crc data empty_context = (Ok result, c') /\
       ~ In (YKCProtocolParser.unknown_type_warning (frame_type_code data)) (warnings c') /\
       frame_parser data = DefaultParser /\
       dict_get result "body_data" =
         match frame_body data with
         | [] => None
         | _ :: _ => Some (VDict (default_record (frame_body data)))
         end).
Proof.
  assert (Hsix : forall code, In code named_without_decoder ->
            table_mem YKCProtocolParser.FRAME_TYPES code = true /\
            table_mem FrameParserFactory._parsers code = false /\
            FrameParserFactory.get_parser code = DefaultParser).
  { intros code H. unfold named_without_decoder in H. cbn [In] in H.
    repeat (destruct H as [H|H]; [subst code; repeat split|]).
    contradiction. }
  split; [exact Hsix|].
  split; [exact decoder_codes_are_named|].
  split.
  { intros code Hn Hp.
    unfold YKCProtocolParser.FRAME_TYPES in Hn. cbn [table_mem] in Hn.
    repeat (apply orb_prop in Hn; destruct Hn as [Hn|Hn];
            [apply Z.eqb_eq in Hn; subst code;
             first [discriminate Hp | cbn; tauto]|]).
    discriminate Hn. }
  intros crc data Hlen Hty.
  destruct (Hsix _ Hty) as (Hn & _ & Hp). fold (frame_parser data) in Hp.
  destruct (default_body_stage data Hp) as (Hbe & Hbw & Hbd).
  assert (Hw : type_warnings data = []) by (unfold type_warnings; now rewrite Hn).
  destruct (Z.ltb_spec (declared_length data) 4) as [Hdl|Hdl].
  - rewrite parse_structure_halt by lia.
    eexists. eexists. split; [reflexivity|].
    cbn [errors warnings ctx_add empty_context app]. rewrite Hw.
    split; [intros []|].
    split; [exact Hp | now rewrite frame_body_halt by lia].
  - rewrite parse_structure_body by lia.
    eexists. eexists. split; [reflexivity|].
    cbn [errors warnings ctx_add empty_context app]. rewrite Hw, Hbw, app_nil_r.
    split.
    + cbn [app]. unfold checksum_warnings.
      destruct (checksum_readable data); [|intros []].
      destruct (checksum_calculated crc data =? checksum_received data); [intros []|].
      intros [H|[]]. symmetry in H. revert H. apply unknown_warning_not_crc_warning.
    + split; [exact Hp|]. rewrite body_data_lookup. exact Hbd.
Qed.

Lemma C9_named_types_without_decoder_witness :
  In 0x05 named_without_decoder /\
  8 <= len billing_check_frame /\
  In (frame_type_code billing_check_frame) named_without_decoder /\
  FrameParserFactory.get_parser 0x05 = DefaultParser /\
  table_mem YKCProtocolParser.FRAME_TYPES 0x01 = true /\
  exists result c',
    YKCProtocolParser._parse_structure crc16_sample billing_check_frame empty_context
      = (Ok result, c') /\
    ~ In "未知的帧类型: 0x05" (warnings c') /\
    dict_get result "body_data" =
      Some (VDict [ ("raw", VStr "AABB"); ("note", VStr "该帧类型暂未实现详细解析") ]).
Proof.
  assert (H0 : In 0x05 named_without_decoder) by (left; reflexivity).
  assert (H1 : 8 <= len billing_check_frame) by (vm_compute; discriminate).
  assert (H2 : In (frame_type_code billing_check_frame) named_without_decoder)
    by (left; reflexivity).
  destruct C9_named_types_without_decoder as (Hsix & Hsub & _ & Hframe).
  split; [exact H0|]. split; [exact H1|]. split; [exact H2|].
  split; [apply (Hsix 0x05 H0)|].
  split; [apply Hsub; reflexivity|].
  destruct (Hframe crc16_sample billing_check_frame H1 H2)
    as (result & c' & E & Hw & _ & Hb).
  exists result, c'. split; [exact E|]. split; [exact Hw|].
  rewrite Hb. reflexivity.
Defined.

(** The errors of the envelope parser before the body stage start with a
    character outside ASCII; the error of [validate_length] starts with a
    class name. *)
Lemma length_error_starts_ascii p body : starts_ascii (length_error p body) = true.
Proof. destruct p; reflexivity. Qed.

Lemma pre_body_errors_not_ascii data s :
  In s (header_errors data ++
        (if declared_length data <? 4
         then [YKCProtocolParser.data_length_error (declared_length data)]
         else body_slice_errors data ++ checksum_errors data)) ->
  starts_ascii s = false.
Proof.
  unfold header_errors, body_slice_errors, checksum_errors.
  destruct (frame_byte data 0 =? 104);
    destruct (len data =? expected_total_length data);
    destruct (declared_length data <? 4);
    destruct (len data <? frame_body_end data);
    destruct (checksum_readable data);
    cbn [app In]; intros H;
    repeat (destruct H as [H|H]; [subst s; reflexivity|]); contradiction.
Qed.

(** C10: when the body slice of a frame is empty, the structural pass
    invokes no decoder: the result has no [body_data] entry, and the errors
    and warnings are those of the header, the body slice and the checksum
    alone; in particular no error of [validate_length] is recorded,
    whatever minimum length the decoder of the frame type declares. *)
Theorem C10_empty_body_skips_decoder :
  forall crc data,
    6 <= len data ->
    frame_body data = [] ->
    exists result c',
      YKCProtocolParser._parse_structure crc data empty_context = (Ok result, c') /\
      dict_get result "body_data" = None /\
      errors c' =
        (header_errors data ++
         (if declared_length data <? 4
          then [YKCProtocolParser.data_length_error (declared_length data)]
          else body_slice_errors data ++ checksum_errors data))%list /\
      warnings c' =
        (type_warnings data ++
         (if declared_length data <? 4 then [] else checksum_warnings crc data))%list /\
      (forall p body, ~ In (length_error p body) (errors c')).
Proof.
  intros crc data Hlen Hb.
  assert (Hno : forall es,
            es = (header_errors data ++
                  (if declared_length data <? 4
                   then [YKCProtocolParser.data_length_error (declared_length data)]
                   else body_slice_errors data ++ checksum_errors data))%list ->
            forall p body, ~ In (length_error p body) es).
  { intros es -> p body H. apply pre_body_errors_not_ascii in H.
    rewrite length_error_starts_ascii in H. discriminate H. }
  destruct (Z.ltb_spec (declared_length data) 4) as [Hdl|Hdl].
  - rewrite parse_structure_halt by lia.
    eexists. eexists. split; [reflexivity|].
    cbn [errors warnings ctx_add empty_context app].
    split; [reflexivity|]. split; [reflexivity|].
    split; [now rewrite app_nil_r|].
    apply Hno. reflexivity.
  - rewrite parse_structure_body by lia.
    eexists. eexists. split; [reflexivity|].
    cbn [errors warnings ctx_add empty_context app].
    unfold body_decode_errors, body_decode_warnings. rewrite Hb, !app_nil_r.
    split; [rewrite body_data_lookup; unfold body_data_field; now rewrite Hb|].
    split; [reflexivity|]. split; [reflexivity|].
    apply Hno. reflexivity.
Qed.

Lemma C10_empty_body_skips_decoder_witness :
  6 <= len login_frame_empty_body /\
  frame_body login_frame_empty_body = [] /\
  0 < expected_min_length (frame_parser login_frame_empty_body) /\
  exists result c',
    YKCProtocolParser._parse_structure crc16_sample login_frame_empty_body empty_context
      = (Ok result, c') /\
    dict_get result "body_data" = None /\
    errors c' = [].
Proof.
  assert (H1 : 6 <= len login_frame_empty_body) by (vm_compute; discriminate).
  assert (H3 : frame_body login_frame_empty_body = []) by reflexivity.
  split; [exact H1|]. split; [exact H3|].
  split; [reflexivity|].
  destruct (C10_empty_body_skips_decoder crc16_sample login_frame_empty_body H1 H3)
    as (result & c' & E & Hd & He & _).
  exists result, c'. split; [exact E|]. split; [exact Hd|].
  rewrite He. vm_compute. reflexivity.
Defined.

(* ================================================================== *)
(** * The status code of a decode *)
(* ================================================================== *)

(** C1 (amended): an input that passes the pre-checks of [parse] (an even
    number of characters once blanks are removed, hexadecimal digits only,
    at least eight bytes) reaches the structural pass, and its status code
    is 500 exactly when that pass recorded at least one error and 200
    exactly when it recorded none, whatever the warnings; an input that a
    pre-check rejects gets status 500 from the error response while nothing
    is recorded in the errors or the warnings. *)
Theorem C1_status_follows_errors :
  forall crc hex_str,
    let result := fst (YKCProtocolParser.parse crc hex_str) in
    let c := snd (YKCProtocolParser.parse crc hex_str) in
    match frame_of_hex hex_str with
    | Some data =>
        c = snd (YKCProtocolParser._parse_structure crc data empty_context) /\
        (status_code result = Some (VInt 500) <-> errors c <> []) /\
        (status_code result = Some (VInt 200) <-> errors c = [])
    | None =>
        status_code result = Some (VInt 500) /\ errors c = [] /\ warnings c = []
    end.
Proof.
  intros crc hex_str. cbv zeta.
  unfold YKCProtocolParser.parse, frame_of_hex.
  fold (clean_hex hex_str). fold empty_context.
  destruct (Z.of_nat (String.length (clean_hex hex_str)) mod 2 =? 0);
    cbn [negb]; [|repeat split].
  destruct (bytes_fromhex (clean_hex hex_str)) as [pos|data]; [repeat split|].
  destruct (Z.ltb_spec (len data) 8) as [Hshort|Hlen]; [repeat split|].
  destruct (parse_structure_returns crc data empty_context) as (r & c' & E); [lia|].
  rewrite E. cbn [fst snd]. split; [reflexivity|].
  unfold status_code.
  destruct (errors c') as [|e es] eqn:Ee; destruct (warnings c') as [|w ws] eqn:Ew;
    cbn [fst snd]; rewrite ?Ee; rewrite !dict_get_set;
    cbn [String.eqb Ascii.eqb Bool.eqb andb];
    (split; split; intros H; congruence).
Qed.

(** C1, as first stated, fails on the empty input: the status is 500 and
    no error was recorded. *)
Lemma C1_counterexample :
  status_code (fst (YKCProtocolParser.parse crc16_sample "")) = Some (VInt 500) /\
  errors (snd (YKCProtocolParser.parse crc16_sample "")) = [].
Proof. split; reflexivity. Qed.

(** A decode that records a warning and no error still has status 200. *)
Example warning_keeps_success :
  let r := YKCProtocolParser.parse crc16_sample
             "68 0B 01 00 00 03 32 01 02 00 00 00 11 00 00" in
  status_code (fst r) = Some (VInt 200) /\
  warnings (snd r) = ["CRC16校验失败: 期望0x0000, 计算0xD3E9"] /\
  errors (snd r) = [].
Proof. vm_compute. repeat split. Qed.

(* ================================================================== *)
(** * Hexadecimal text: rendering and reading back *)
(* ================================================================== *)

Lemma concat_empty_cons (s : string) (l : list string) :
  String.concat "" (s :: l) = s ++ String.concat "" l.
Proof.
  destruct l as [|t l]; cbn [String.concat].
  - induction s as [|a s IH]; cbn; [reflexivity | now rewrite <- IH].
  - reflexivity.
Qed.

Lemma str_remove_app c s1 s2 :
  str_remove c (s1 ++ s2) = str_remove c s1 ++ str_remove c s2.
Proof.
  induction s1 as [|a s1 IH]; cbn [append str_remove]; [reflexivity|].
  destruct (Ascii.eqb c a); cbn [append]; now rewrite IH.
Qed.

Lemma str_strip_two c1 c2 s :
  is_str_space c1 = false -> is_str_space c2 = false -> str_strip s = s ->
  str_strip (String c1 (String c2 s)) = String c1 (String c2 s).
Proof.
  unfold str_strip. intros H1 H2 Hs. cbn [str_lstrip]. rewrite H1.
  destruct s as [|a s].
  - cbn [str_rstrip]. rewrite H2. reflexivity.
  - cbn [str_lstrip] in Hs. destruct (is_str_space a) eqn:Ea.
    + exfalso.
      assert (L : forall t, (String.length (str_rstrip t) <= String.length t)%nat).
      { induction t as [|x t IH]; cbn [str_rstrip String.length]; [lia|].
        destruct (str_rstrip t); [destruct (is_str_space x)|];
          cbn [String.length] in *; lia. }
      assert (L' : forall t, (String.length (str_lstrip t) <= String.length t)%nat).
      { induction t as [|x t IH]; cbn [str_lstrip String.length]; [lia|].
        destruct (is_str_space x); cbn [String.length]; lia. }
      pose proof (L (str_lstrip s)). pose proof (L' s).
      rewrite Hs in H. cbn [String.length] in H. lia.
    + change (str_rstrip (String c1 (String c2 (String a s))))
        with (match str_rstrip (String c2 (String a s)) with
              | EmptyString => if is_str_space c1 then EmptyString else String c1 EmptyString
              | rest' => String c1 rest'
              end).
      change (str_rstrip (String c2 (String a s)))
        with (match str_rstrip (String a s) with
              | EmptyString => if is_str_space c2 then EmptyString else String c2 EmptyString
              | rest' => String c2 rest'
              end).
      rewrite Hs. reflexivity.
Qed.

Lemma concat_blank_remove (l : list string) :
  Forall (fun s => str_remove " " s = s) l ->
  str_remove " " (String.concat " " l) = String.concat "" l.
Proof.
  induction l as [|x l IH]; intros Hall; [reflexivity|].
  inversion Hall as [|? ? Hx Hl]; subst.
  destruct l as [|y l].
  - cbn [String.concat]. exact Hx.
  - change (String.concat " " (x :: y :: l))
      with (x ++ " " ++ String.concat " " (y :: l)).
    rewrite concat_empty_cons, !str_remove_app, Hx, (IH Hl). reflexivity.
Qed.

(** Texts made of one two-digit rendering per byte. *)
Section HexText.

Variable render : byte -> string.

Hypothesis render_pair :
  forall b, exists c1 c2 t u,
    render b = String c1 (String c2 "") /\
    (char_code c1 <? 128) = true /\ (char_code c2 <? 128) = true /\
    is_ascii_space c1 = false /\
    is_str_space c1 = false /\ is_str_space c2 = false /\
    Ascii.eqb " " c1 = false /\ Ascii.eqb " " c2 = false /\
    Ascii.eqb "010" c1 = false /\ Ascii.eqb "010" c2 = false /\
    hex_value c1 = Some t /\ hex_value c2 = Some u /\
    byte_of_int (16 * t + u) = b.

Lemma hex_text_length bs :
  String.length (String.concat "" (map render bs)) = (2 * length bs)%nat.
Proof.
  induction bs as [|b bs IH]; [reflexivity|].
  cbn [map]. rewrite concat_empty_cons.
  destruct (render_pair b) as (c1 & c2 & t & u & E & _).
  rewrite E. cbn [append String.length length]. rewrite IH. lia.
Qed.

Lemma hex_text_first_non_ascii bs : forall pos,
  first_non_ascii (String.concat "" (map render bs)) pos = None.
Proof.
  induction bs as [|b bs IH]; intros pos; [reflexivity|].
  cbn [map]. rewrite concat_empty_cons.
  destruct (render_pair b) as (c1 & c2 & t & u & E & H1 & H2 & _).
  rewrite E. cbn [append first_non_ascii].
  apply Z.ltb_lt in H1, H2.
  destruct (Z.leb_spec 128 (char_code c1)); [lia|].
  destruct (Z.leb_spec 128 (char_code c2)); [lia|].
  apply IH.
Qed.

Lemma hex_text_fromhex_loop bs : forall pos,
  fromhex_loop (String.concat "" (map render bs)) pos = inr bs.
Proof.
  induction bs as [|b bs IH]; intros pos; [reflexivity|].
  cbn [map]. rewrite concat_empty_cons.
  destruct (render_pair b)
    as (c1 & c2 & t & u & E & _ & _ & Hs & _ & _ & _ & _ & _ & _ & Ht & Hu & Hb).
  rewrite E. cbn [append fromhex_loop].
  rewrite Hs, Ht, Hu, IH, Hb. reflexivity.
Qed.

Lemma hex_text_reads_back bs :
  bytes_fromhex (String.concat "" (map render bs)) = inr bs.
Proof.
  unfold bytes_fromhex.
  now rewrite hex_text_first_non_ascii, hex_text_fromhex_loop.
Qed.

Lemma hex_text_remove_blank bs :
  str_remove " " (String.concat "" (map render bs)) = String.concat "" (map render bs) /\
  str_remove "010" (String.concat "" (map render bs)) = String.concat "" (map render bs).
Proof.
  induction bs as [|b bs [IH1 IH2]]; [split; reflexivity|].
  cbn [map]. rewrite concat_empty_cons.
  destruct (render_pair b)
    as (c1 & c2 & t & u & E & _ & _ & _ & _ & _ & S1 & S2 & N1 & N2 & _).
  rewrite E. cbn [append str_remove]. rewrite S1, S2, N1, N2, IH1, IH2.
  split; reflexivity.
Qed.

Lemma hex_text_strip bs :
  str_strip (String.concat "" (map render bs)) = String.concat "" (map render bs).
Proof.
  induction bs as [|b bs IH]; [reflexivity|].
  cbn [map]. rewrite concat_empty_cons.
  destruct (render_pair b) as (c1 & c2 & t & u & E & _ & _ & _ & Hs1 & Hs2 & _).
  rewrite E. cbn [append]. now apply str_strip_two.
Qed.

(** The text is left as it is by the cleaning of [parse]. *)
Lemma hex_text_clean bs :
  clean_hex (String.concat "" (map render bs)) = String.concat "" (map render bs).
Proof.
  unfold clean_hex. destruct (hex_text_remove_blank bs) as [-> ->].
  apply hex_text_strip.
Qed.

(** With one blank between the bytes, the cleaning removes the blanks. *)
Lemma hex_text_spaced_remove bs :
  str_remove " " (String.concat " " (map render bs)) = String.concat "" (map render bs).
Proof.
  apply concat_blank_remove. apply Forall_forall. intros s Hs.
  apply in_map_iff in Hs as (b & <- & _).
  destruct (hex_text_remove_blank [b]) as [Hb _].
  cbn [map String.concat] in Hb. exact Hb.
Qed.

Lemma hex_text_spaced_clean bs :
  clean_hex (String.concat " " (map render bs)) = String.concat "" (map render bs).
Proof.
  unfold clean_hex. rewrite hex_text_spaced_remove.
  destruct (hex_text_remove_blank bs) as [_ ->]. apply hex_text_strip.
Qed.

End HexText.

Lemma upper_pair (b : byte) :
  exists c1 c2 t u,
    fmt_X 2 (byte_val b) = String c1 (String c2 "") /\
    (char_code c1 <? 128) = true /\ (char_code c2 <? 128) = true /\
    is_ascii_space c1 = false /\
    is_str_space c1 = false /\ is_str_space c2 = false /\
    Ascii.eqb " " c1 = false /\ Ascii.eqb " " c2 = false /\
    Ascii.eqb "010" c1 = false /\ Ascii.eqb "010" c2 = false /\
    hex_value c1 = Some t /\ hex_value c2 = Some u /\
    byte_of_int (16 * t + u) = b.
Proof.
  exists (hex_digit_upper (byte_val b / 16)), (hex_digit_upper (byte_val b mod 16)),
         (byte_val b / 16), (byte_val b mod 16).
  destruct b; vm_compute; repeat split; reflexivity.
Qed.

Lemma lower_pair (b : byte) :
  exists c1 c2 t u,
    fmt_x 2 (byte_val b) = String c1 (String c2 "") /\
    (char_code c1 <? 128) = true /\ (char_code c2 <? 128) = true /\
    is_ascii_space c1 = false /\
    is_str_space c1 = false /\ is_str_space c2 = false /\
    Ascii.eqb " " c1 = false /\ Ascii.eqb " " c2 = false /\
    Ascii.eqb "010" c1 = false /\ Ascii.eqb "010" c2 = false /\
    hex_value c1 = Some t /\ hex_value c2 = Some u /\
    byte_of_int (16 * t + u) = b.
Proof.
  exists (hex_digit_lower (byte_val b / 16)), (hex_digit_lower (byte_val b mod 16)),
         (byte_val b / 16), (byte_val b mod 16).
  destruct b; vm_compute; repeat split; reflexivity.
Qed.

Lemma bcd_to_str_cons b bs :
  bcd_to_str (b :: bs) = fmt_X 2 (byte_val b) ++ bcd_to_str bs.
Proof. unfold bcd_to_str, str_join. cbn [map]. apply concat_empty_cons. Qed.

Lemma bcd_to_str_length bs :
  String.length (bcd_to_str bs) = (2 * length bs)%nat.
Proof. exact (hex_text_length _ upper_pair bs). Qed.

Lemma bcd_to_str_reads_back bs : bytes_fromhex (bcd_to_str bs) = inr bs.
Proof. exact (hex_text_reads_back _ upper_pair bs). Qed.

Lemma str_upper_app s1 s2 : str_upper (s1 ++ s2) = str_upper s1 ++ str_upper s2.
Proof. induction s1 as [|a s1 IH]; cbn; [reflexivity | now rewrite IH]. Qed.

Lemma byte_hex_upper (b : byte) :
  str_upper (fmt_x 2 (byte_val b)) = fmt_X 2 (byte_val b).
Proof. destruct b; vm_compute; reflexivity. Qed.

(** [bs.hex().upper()] and the join of the [%02X] renderings agree. *)
Lemma bytes_hex_upper_bcd bs : bytes_hex_upper bs = bcd_to_str bs.
Proof.
  unfold bytes_hex_upper, bytes_hex.
  induction bs as [|b bs IH]; [reflexivity|].
  cbn [map]. rewrite concat_empty_cons, str_upper_app, IH, byte_hex_upper.
  now rewrite bcd_to_str_cons.
Qed.

(** X1: [bcd_to_str] renders every byte as exactly two characters, and the
    text reads back, through [bytes.fromhex], as the bytes it was made
    from; a field filled by [bcd_to_str] therefore loses nothing of the
    wire bytes. *)
Theorem X1_bcd_to_str_reads_back :
  forall bs : list byte,
    String.length (bcd_to_str bs) = (2 * length bs)%nat /\
    bytes_fromhex (bcd_to_str bs) = inr bs.
Proof.
  intros bs. split; [apply bcd_to_str_length | apply bcd_to_str_reads_back].
Qed.

(* ================================================================== *)
(** * Fixed-width hexadecimal numbers: the physical card number *)
(* ================================================================== *)

Lemma str_app_assoc (a b c : string) : (a ++ b) ++ c = a ++ (b ++ c).
Proof. induction a as [|x a IH]; cbn; [reflexivity | now rewrite IH]. Qed.

Lemma str_app_nil_r (a : string) : a ++ "" = a.
Proof. induction a as [|x a IH]; cbn; [reflexivity | now rewrite IH]. Qed.

Lemma zfill_zeros w s : zfill w s = zeros (w - String.length s) ++ s.
Proof.
  unfold zfill. generalize (w - String.length s)%nat as k.
  induction k as [|k IH]; cbn; [reflexivity | now rewrite IH].
Qed.

Lemma zeros_snoc k : zeros k ++ "0" = zeros (S k).
Proof. induction k as [|k IH]; cbn; [reflexivity|]. cbn in IH. now rewrite IH. Qed.

Lemma hex_digits_zero w : hex_digits w 0 = zeros w.
Proof.
  induction w as [|w IH]; [reflexivity|].
  cbn [hex_digits]. rewrite Z.div_0_l, Z.mod_0_l by lia. rewrite IH.
  apply zeros_snoc.
Qed.

Lemma to_base_hex fuel : forall n acc,
  (1 <= fuel)%nat -> 0 <= n < 16 ^ Z.of_nat fuel ->
  exists t,
    to_base hex_digit_upper 16 fuel n acc = t ++ acc /\
    forall w, (1 <= w)%nat -> n < 16 ^ Z.of_nat w ->
      (String.length t <= w)%nat /\
      zeros (w - String.length t) ++ t = hex_digits w n.
Proof.
  induction fuel as [|fuel IH]; intros n acc Hf Hn; [lia|].
  cbn [to_base]. cbv zeta.
  destruct (Z.eqb_spec (n / 16) 0) as [Hq|Hq].
  - exists (String (hex_digit_upper (n mod 16)) ""). split; [reflexivity|].
    intros w Hw Hnw. cbn [String.length]. split; [lia|].
    destruct w as [|w]; [lia|].
    cbn [hex_digits]. rewrite Hq, hex_digits_zero.
    replace (S w - 1)%nat with w by lia. reflexivity.
  - assert (Hq' : 1 <= n / 16) by (pose proof (Z.div_pos n 16); lia).
    assert (Hlt : n / 16 < 16 ^ Z.of_nat fuel).
    { apply Z.div_lt_upper_bound; [lia|].
      replace (Z.of_nat (S fuel)) with (Z.of_nat fuel + 1) in Hn by lia.
      rewrite Z.pow_add_r in Hn by lia. lia. }
    assert (Hfuel : (1 <= fuel)%nat).
    { destruct fuel; [cbn in Hlt; lia | lia]. }
    destruct (IH (n / 16) (String (hex_digit_upper (n mod 16)) acc) Hfuel)
      as (t & Et & Ht); [lia|].
    exists (t ++ String (hex_digit_upper (n mod 16)) "").
    split; [rewrite Et, str_app_assoc; reflexivity|].
    intros w Hw Hnw.
    destruct w as [|w]; [lia|].
    assert (Hw' : (1 <= w)%nat).
    { destruct w; [|lia]. change (16 ^ Z.of_nat 1) with 16 in Hnw.
      rewrite Z.div_small in Hq' by lia. lia. }
    assert (Hlt' : n / 16 < 16 ^ Z.of_nat w).
    { apply Z.div_lt_upper_bound; [lia|].
      replace (Z.of_nat (S w)) with (Z.of_nat w + 1) in Hnw by lia.
      rewrite Z.pow_add_r in Hnw by lia. lia. }
    destruct (Ht w Hw' Hlt') as (Hlen & Hd).
    rewrite str_length_app. cbn [String.length]. split; [lia|].
    cbn [hex_digits]. rewrite <- Hd, str_app_assoc.
    replace (S w - (String.length t + 1))%nat with (w - String.length t)%nat by lia.
    reflexivity.
Qed.

Lemma digits_fuel_enough n : 0 <= n -> n < 16 ^ Z.of_nat (digits_fuel n).
Proof.
  intros Hn. unfold digits_fuel.
  rewrite Nat2Z.inj_succ, Z2Nat.id by apply Z.log2_nonneg.
  destruct (Z.eq_dec n 0) as [->|Hz]; [cbn; lia|].
  pose proof (Z.log2_spec n ltac:(lia)) as [_ Hup].
  eapply Z.lt_le_trans; [exact Hup|].
  apply Z.pow_le_mono_l. lia.
Qed.

(** [f"{n:0wX}"] is the fixed-width rendering when [n] fits in [w] digits. *)
Lemma fmt_X_hex_digits w n :
  (1 <= w)%nat -> 0 <= n < 16 ^ Z.of_nat w -> fmt_X w n = hex_digits w n.
Proof.
  intros Hw Hn. unfold fmt_X. rewrite zfill_zeros.
  destruct (to_base_hex (digits_fuel n) n "") as (t & Et & Ht).
  - unfold digits_fuel. lia.
  - split; [lia | apply digits_fuel_enough; lia].
  - rewrite Et, str_app_nil_r. now apply Ht.
Qed.

Lemma hex_digits_byte w b m :
  0 <= b < 256 ->
  hex_digits (S (S w)) (b + 256 * m) = hex_digits w m ++ hex_digits 2 b.
Proof.
  intros Hb. cbn [hex_digits].
  assert (H1 : (b + 256 * m) / 16 = b / 16 + 16 * m).
  { replace (b + 256 * m) with (b + (16 * m) * 16) by lia. apply Z.div_add. lia. }
  assert (H0 : 0 <= b / 16 < 16).
  { split; [apply Z.div_pos; lia | apply Z.div_lt_upper_bound; lia]. }
  assert (H2 : (b / 16 + 16 * m) / 16 = m).
  { replace (b / 16 + 16 * m) with (b / 16 + m * 16) by lia.
    rewrite Z.div_add by lia. rewrite (Z.div_small (b / 16)) by lia. lia. }
  assert (H3 : (b / 16 + 16 * m) mod 16 = b / 16 mod 16).
  { replace (b / 16 + 16 * m) with (b / 16 + m * 16) by lia.
    apply Z.mod_add. lia. }
  assert (H4 : (b + 256 * m) mod 16 = b mod 16).
  { replace (b + 256 * m) with (b + (16 * m) * 16) by lia. apply Z.mod_add. lia. }
  rewrite H1, H2, H3, H4. cbn [append]. rewrite !str_app_assoc. reflexivity.
Qed.

Lemma bcd_to_str_app bs1 bs2 :
  bcd_to_str (bs1 ++ bs2)%list = bcd_to_str bs1 ++ bcd_to_str bs2.
Proof.
  induction bs1 as [|b bs1 IH]; [reflexivity|].
  cbn [app]. rewrite !bcd_to_str_cons, IH, str_app_assoc. reflexivity.
Qed.

Lemma int_from_bytes_little_range bs :
  0 <= int_from_bytes_little bs < 256 ^ Z.of_nat (length bs).
Proof.
  induction bs as [|b bs IH]; [cbn; lia|].
  cbn [int_from_bytes_little length].
  pose proof (byte_val_range b).
  rewrite Nat2Z.inj_succ, Z.pow_succ_r by lia. lia.
Qed.

(** The little-endian number of some bytes, printed with two digits per
    byte, is the [%02X] rendering of the bytes in reverse order. *)
Lemma hex_digits_little bs :
  hex_digits (2 * length bs) (int_from_bytes_little bs) = bcd_to_str (rev bs).
Proof.
  induction bs as [|b bs IH]; [reflexivity|].
  cbn [int_from_bytes_little length rev].
  replace (2 * S (length bs))%nat with (S (S (2 * length bs))) by lia.
  rewrite hex_digits_byte by apply byte_val_range.
  rewrite IH, bcd_to_str_app. f_equal.
  rewrite <- fmt_X_hex_digits by (pose proof (byte_val_range b); cbn; lia).
  cbn [bcd_to_str str_join map String.concat]. reflexivity.
Qed.




(* ================================================================== *)
(** * The text codec *)
(* ================================================================== *)

Lemma ascii_to_str_run bs c :
  ascii_to_str bs c =
  (Ok (ascii_to_str_value bs), ctx_add c [] (ascii_to_str_warnings bs)).
Proof.
  unfold ascii_to_str, ascii_to_str_value, ascii_to_str_warnings.
  destruct (forallb is_ascii_byte (rstrip_nul bs)).
  - rewrite bind_when_warning. reflexivity.
  - rewrite bind_add_warning. reflexivity.
Qed.

Lemma rstrip_nul_forallb (P : byte -> bool) bs :
  forallb P bs = true -> forallb P (rstrip_nul bs) = true.
Proof.
  induction bs as [|b bs IH]; [reflexivity|].
  cbn [forallb rstrip_nul]. intros H. apply andb_true_iff in H as [Hb Hbs].
  specialize (IH Hbs).
  destruct (rstrip_nul bs) as [|x xs].
  - destruct (byte_val b =? 0); cbn [forallb]; [reflexivity | now rewrite Hb].
  - cbn [forallb] in *. now rewrite Hb, IH.
Qed.

Lemma rstrip_nul_ascii bs :
  forallb is_ascii_byte (rstrip_nul bs) = true -> forallb is_ascii_byte bs = true.
Proof.
  induction bs as [|b bs IH]; [reflexivity|].
  cbn [forallb rstrip_nul].
  destruct (rstrip_nul bs) as [|x xs].
  - intros H. rewrite IH by reflexivity. rewrite andb_true_r.
    destruct (Z.eqb_spec (byte_val b) 0) as [E|E].
    + unfold is_ascii_byte. apply Z.ltb_lt. lia.
    + cbn [forallb] in H. now rewrite andb_true_r in H.
  - intros H. cbn [forallb] in H. apply andb_true_iff in H as [Hb Hr].
    now rewrite Hb, IH.
Qed.

Lemma filter_forallb {A} (P : A -> bool) l :
  forallb P l = true -> filter P l = l.
Proof.
  induction l as [|a l IH]; [reflexivity|].
  cbn [forallb filter]. intros H. apply andb_true_iff in H as [Ha Hl].
  now rewrite Ha, IH.
Qed.

Lemma printable_is_ascii b : printable_or_nul b = true -> is_ascii_byte b = true.
Proof.
  unfold printable_or_nul, is_ascii_byte. intros H. apply Z.ltb_lt.
  apply orb_true_iff in H as [H|H].
  - apply andb_true_iff in H as [_ H]. apply Z.ltb_lt in H. lia.
  - apply Z.eqb_eq in H. lia.
Qed.

Lemma forallb_impl {A} (P Q : A -> bool) l :
  (forall a, P a = true -> Q a = true) -> forallb P l = true -> forallb Q l = true.
Proof.
  intros HPQ. induction l as [|a l IH]; [reflexivity|].
  cbn [forallb]. intros H. apply andb_true_iff in H as [Ha Hl].
  now rewrite (HPQ a Ha), IH.
Qed.

(** X3: [ascii_to_str] never raises and never records an error; it
    records at most one warning, and it records one exactly when some byte
    of the field is neither a printable 7-bit character (32..126) nor NUL.
    When it records none, the text is the field without its trailing NULs. *)
Theorem X3_ascii_to_str_warns_iff_unprintable :
  forall (bs : list byte) (c : ParserContext),
    exists s ws,
      ascii_to_str bs c = (Ok s, mkContext (errors c) (warnings c ++ ws)) /\
      (length ws <= 1)%nat /\
      (ws = [] <-> forallb printable_or_nul bs = true) /\
      (ws = [] -> s = string_of_list_byte (rstrip_nul bs)).
Proof.
  intros bs c.
  exists (ascii_to_str_value bs), (ascii_to_str_warnings bs).
  split.
  { rewrite ascii_to_str_run. unfold ctx_add. now rewrite app_nil_r. }
  unfold ascii_to_str_value, ascii_to_str_warnings.
  destruct (forallb is_ascii_byte (rstrip_nul bs)) eqn:E.
  - rewrite (filter_forallb _ _ (rstrip_nul_ascii bs E)).
    destruct (forallb printable_or_nul bs); cbn [negb length].
    + repeat split; auto.
    + repeat split; try lia; intros; discriminate.
  - cbn [length]. repeat split; try lia; try (intros; discriminate).
    intros H. exfalso.
    pose proof (forallb_impl _ _ bs printable_is_ascii H) as Ha.
    apply (rstrip_nul_forallb is_ascii_byte) in Ha. congruence.
Qed.

Lemma rstrip_nul_zeros n : rstrip_nul (repeat x00 n) = [].
Proof. induction n as [|n IH]; [reflexivity|]. cbn [repeat rstrip_nul]. now rewrite IH. Qed.

Lemma rstrip_nul_padded t n :
  Forall (fun b => byte_val b <> 0) t ->
  rstrip_nul (t ++ repeat x00 n) = t.
Proof.
  induction 1 as [|b t Hb Ht IH]; [apply rstrip_nul_zeros|].
  cbn [app rstrip_nul]. rewrite IH.
  destruct t; [|reflexivity].
  destruct (Z.eqb_spec (byte_val b) 0); [contradiction | reflexivity].
Qed.

(** X4: a fixed-width text field, that is printable 7-bit characters
    followed by NUL padding, decodes to exactly the characters before the
    padding, and nothing is recorded. *)
Theorem X4_ascii_to_str_padded_text :
  forall (t : list byte) (n : nat) (c : ParserContext),
    Forall (fun b => 32 <= byte_val b < 127) t ->
    ascii_to_str (t ++ repeat x00 n) c = (Ok (string_of_list_byte t), c).
Proof.
  intros t n c Ht.
  assert (Hnz : Forall (fun b => byte_val b <> 0) t).
  { eapply Forall_impl; [|exact Ht]. cbn. intros; lia. }
  assert (Hp : forallb printable_or_nul (t ++ repeat x00 n) = true).
  { rewrite forallb_app. apply andb_true_iff. split.
    - apply forallb_forall. intros b Hb.
      rewrite Forall_forall in Ht. specialize (Ht b Hb).
      unfold printable_or_nul. apply orb_true_iff. left.
      apply andb_true_iff. split; [apply Z.leb_le | apply Z.ltb_lt]; lia.
    - apply forallb_forall. intros b Hb. apply repeat_spec in Hb. now subst. }
  rewrite ascii_to_str_run.
  unfold ascii_to_str_value, ascii_to_str_warnings.
  rewrite rstrip_nul_padded by exact Hnz.
  pose proof (forallb_impl _ _ _ printable_is_ascii Hp) as Ha.
  rewrite (filter_forallb _ _ Ha), Hp.
  assert (Hat : forallb is_ascii_byte t = true).
  { rewrite forallb_app in Ha. now apply andb_true_iff in Ha as [Ha _]. }
  rewrite Hat. cbn [negb]. now rewrite ctx_add_nil.
Qed.

Lemma X4_ascii_to_str_padded_text_witness :
  Forall (fun b => 32 <= byte_val b < 127) [x59; x4b; x43] /\
  ascii_to_str [x59; x4b; x43; x00; x00; x00; x00; x00] empty_context
    = (Ok "YKC", empty_context).
Proof.
  assert (H : Forall (fun b => 32 <= byte_val b < 127) [x59; x4b; x43])
    by (repeat constructor; cbn; lia).
  split; [exact H|].
  exact (X4_ascii_to_str_padded_text [x59; x4b; x43] 5 empty_context H).
Defined.

(* ================================================================== *)
(** * Bit masks: hardware faults and stop reasons *)
(* ================================================================== *)

Lemma land_bit_eqb m k :
  0 <= k -> (Z.land m (Z.shiftl 1 k) =? 0) = negb (Z.testbit m k).
Proof.
  intros Hk. rewrite Z.shiftl_1_l.
  assert (E : Z.land m (2 ^ k) = if Z.testbit m k then 2 ^ k else 0).
  { apply Z.bits_inj'. intros n Hn.
    rewrite Z.land_spec, Z.pow2_bits_eqb by lia.
    destruct (Z.eqb_spec k n) as [->|Hne].
    - destruct (Z.testbit m n) eqn:Em; cbn [andb].
      + now rewrite Z.pow2_bits_true.
      + now rewrite Z.bits_0.
    - rewrite andb_false_r.
      destruct (Z.testbit m k); [now rewrite Z.pow2_bits_false | now rewrite Z.bits_0]. }
  rewrite E. destruct (Z.testbit m k); cbn [negb]; [|reflexivity].
  apply Z.eqb_neq. pose proof (Z.pow_pos_nonneg 2 k). lia.
Qed.

(** The labels [bit_labels] returns are those of the positions whose mask
    meets the value. *)
Lemma bit_labels_In unit step names mask name : forall i,
  In name (bit_labels unit step i names mask) <->
  exists j, nth_error names j = Some name /\
            (Z.land mask (Z.shiftl unit ((i + Z.of_nat j) * step)) =? 0) = false.
Proof.
  induction names as [|n names IH]; intros i; cbn [bit_labels].
  - split; [intros [] | intros (j & Hj & _); destruct j; discriminate].
  - cbv zeta. split.
    + intros H.
      destruct (Z.land mask (Z.shiftl unit (i * step)) =? 0) eqn:E.
      * apply IH in H as (j & Hj & Hb). exists (S j). split; [exact Hj|].
        rewrite <- Hb. do 3 f_equal. lia.
      * destruct H as [->|H].
        -- exists 0%nat. split; [reflexivity|]. rewrite <- E. do 3 f_equal. lia.
        -- apply IH in H as (j & Hj & Hb). exists (S j). split; [exact Hj|].
           rewrite <- Hb. do 3 f_equal. lia.
    + intros (j & Hj & Hb). destruct j as [|j].
      * cbn in Hj. injection Hj as ->.
        replace ((i + Z.of_nat 0) * step) with (i * step) in Hb by lia.
        rewrite Hb. now left.
      * assert (In name (bit_labels unit step (i + 1) names mask)).
        { apply IH. exists j. split; [exact Hj|]. rewrite <- Hb. do 3 f_equal. lia. }
        destruct (Z.land mask (Z.shiftl unit (i * step)) =? 0); [assumption | now right].
Qed.

Lemma fault_bits_In fault name :
  In name (bit_labels 1 1 0 fault_names fault) <->
  exists j, nth_error fault_names j = Some name /\ Z.testbit fault (Z.of_nat j) = true.
Proof.
  rewrite bit_labels_In. split; intros (j & Hj & Hb); exists j; (split; [exact Hj|]).
  - replace ((0 + Z.of_nat j) * 1) with (Z.of_nat j) in Hb by lia.
    rewrite land_bit_eqb in Hb by lia. now destruct (Z.testbit fault (Z.of_nat j)).
  - replace ((0 + Z.of_nat j) * 1) with (Z.of_nat j) by lia.
    rewrite land_bit_eqb by lia. now rewrite Hb.
Qed.

Lemma fault_names_NoDup : NoDup fault_names.
Proof.
  unfold fault_names.
  repeat (constructor; [cbn; intuition discriminate|]). constructor.
Qed.

Lemma fault_names_not_none name : In name fault_names -> name <> "无故障".
Proof. unfold fault_names. cbn. intuition (subst; discriminate). Qed.

Lemma parse_fault_bits_In fault name :
  In name fault_names ->
  (In name (parse_fault_bits fault) <-> In name (bit_labels 1 1 0 fault_names fault)).
Proof.
  intros Hn. unfold parse_fault_bits.
  destruct (bit_labels 1 1 0 fault_names fault) as [|x xs]; [|tauto].
  split; [|intros []].
  intros [E|[]]. symmetry in E. now apply fault_names_not_none in E.
Qed.

(** X5: [parse_fault_bits] lists a fault name exactly when the bit of its
    position is set in the fault word; bits 13 and above are ignored, the
    answer is the single entry for "no fault" exactly when none of the
    thirteen low bits is set, and the list is never empty. *)
Theorem X5_parse_fault_bits_reports_set_bits :
  forall fault : Z,
    (forall i name,
       nth_error fault_names i = Some name ->
       (In name (parse_fault_bits fault) <-> Z.testbit fault (Z.of_nat i) = true)) /\
    (parse_fault_bits fault = ["无故障"] <-> Z.land fault 0x1FFF = 0) /\
    parse_fault_bits fault <> [].
Proof.
  intros fault.
  assert (Hbits : forall i name, nth_error fault_names i = Some name ->
            (In name (parse_fault_bits fault) <-> Z.testbit fault (Z.of_nat i) = true)).
  { intros i name Hi.
    rewrite parse_fault_bits_In by (eapply nth_error_In; exact Hi).
    rewrite fault_bits_In. split.
    - intros (j & Hj & Hb).
      assert (i = j) as ->; [|exact Hb].
      apply (proj1 (NoDup_nth_error fault_names) fault_names_NoDup).
      + apply nth_error_Some. congruence.
      + congruence.
    - intros Hb. now exists i. }
  assert (Hlow : Z.land fault 0x1FFF = 0 <->
                 forall i, (i < 13)%nat -> Z.testbit fault (Z.of_nat i) = false).
  { change 0x1FFF with (Z.ones 13). rewrite Z.land_ones by lia. split.
    - intros E i Hi. rewrite <- (Z.mod_pow2_bits_low fault 13) by lia.
      rewrite E. apply Z.bits_0.
    - intros H. apply Z.bits_inj'. intros n Hn.
      rewrite Z.testbit_mod_pow2, Z.bits_0 by lia.
      destruct (Z.ltb_spec n 13); [|reflexivity]. cbn [andb].
      specialize (H (Z.to_nat n)). rewrite Z2Nat.id in H by lia. apply H. lia. }
  split; [exact Hbits|]. split.
  - rewrite Hlow. split.
    + intros E i Hi.
      destruct (nth_error fault_names i) as [name|] eqn:En.
      2:{ apply nth_error_None in En. cbn in En. lia. }
      destruct (Z.testbit fault (Z.of_nat i)) eqn:Eb; [|reflexivity].
      apply (Hbits i name En) in Eb. rewrite E in Eb.
      destruct Eb as [Eb|[]]. symmetry in Eb.
      apply fault_names_not_none in Eb; [contradiction|].
      eapply nth_error_In; exact En.
    + intros H. unfold parse_fault_bits.
      destruct (bit_labels 1 1 0 fault_names fault) as [|x xs] eqn:El; [reflexivity|].
      assert (Hx : In x (bit_labels 1 1 0 fault_names fault)) by (rewrite El; now left).
      apply fault_bits_In in Hx as (j & Hj & Hb).
      rewrite H in Hb; [discriminate|].
      assert (j < length fault_names)%nat by (apply nth_error_Some; congruence).
      cbn in *. lia.
  - unfold parse_fault_bits.
    destruct (bit_labels 1 1 0 fault_names fault); discriminate.
Qed.

Lemma X5_parse_fault_bits_reports_set_bits_witness :
  nth_error fault_names 12 = Some "门打开" /\
  (In "门打开" (parse_fault_bits 0x3001) <-> Z.testbit 0x3001 (Z.of_nat 12) = true) /\
  parse_fault_bits 0x3001 = ["急停按钮动作"; "门打开"] /\
  (parse_fault_bits 0x2000 = ["无故障"] <-> Z.land 0x2000 0x1FFF = 0).
Proof.
  split; [reflexivity|]. split.
  - exact (proj1 (X5_parse_fault_bits_reports_set_bits 0x3001) 12%nat "门打开" eq_refl).
  - split; [reflexivity|].
    exact (proj1 (proj2 (X5_parse_fault_bits_reports_set_bits 0x2000))).
Defined.

Lemma stop_reason_check :
  forallb (fun r =>
      Bool.eqb (String.eqb (_parse_bms_stop_reason r) "无") (r =? 0) &&
      Bool.eqb (String.eqb (_parse_charger_stop_reason r) "无") (r =? 0) &&
      Bool.eqb (String.eqb (_parse_bms_error_reason r) "无") (Z.land r 0x0F =? 0) &&
      Bool.eqb (String.eqb (_parse_charger_error_reason r) "无") (Z.land r 0x0F =? 0))
    (z_range 0 (Z.to_nat 256)) = true.
Proof. vm_compute. reflexivity. Qed.

Lemma fault_reason_check :
  forallb (fun f =>
      Bool.eqb (String.eqb (_parse_bms_fault_reason f) "无") (f =? 0) &&
      Bool.eqb (String.eqb (_parse_charger_fault_reason f) "无") (Z.land f 0x0FFF =? 0))
    (z_range 0 (Z.to_nat 65536)) = true.
Proof. vm_compute. reflexivity. Qed.

Lemma in_z_range count : forall start n,
  start <= n < start + Z.of_nat count -> In n (z_range start count).
Proof.
  induction count as [|count IH]; intros start n H; [lia|].
  cbn [z_range]. destruct (Z.eq_dec start n) as [E|E]; [now left | right].
  apply IH. lia.
Qed.

Lemma in_range_list n bound :
  0 <= n < bound -> In n (z_range 0 (Z.to_nat bound)).
Proof. intros H. apply in_z_range. lia. Qed.

Lemma eqb_string_iff (s t : string) (b : bool) :
  Bool.eqb (String.eqb s t) b = true -> (s = t <-> b = true).
Proof.
  intros H. apply Bool.eqb_prop in H. rewrite <- H. symmetry. apply String.eqb_eq.
Qed.

(** X6: the stop-reason texts of the BMS-stop and charger-stop decoders.
    A stop-reason byte and a BMS fault word are reported as "none" only
    when they are zero; the charger fault word is tested on its twelve low
    bits only, and both error bytes on their low nibble only, so a code
    whose set bits all lie above is reported as "none" although it is not
    zero. *)
Theorem X6_stop_reason_none_iff :
  forall reason fault error : Z,
    0 <= reason < 256 -> 0 <= fault < 65536 -> 0 <= error < 256 ->
    (_parse_bms_stop_reason reason = "无" <-> reason = 0) /\
    (_parse_charger_stop_reason reason = "无" <-> reason = 0) /\
    (_parse_bms_fault_reason fault = "无" <-> fault = 0) /\
    (_parse_charger_fault_reason fault = "无" <-> Z.land fault 0x0FFF = 0) /\
    (_parse_bms_error_reason error = "无" <-> Z.land error 0x0F = 0) /\
    (_parse_charger_error_reason error = "无" <-> Z.land error 0x0F = 0).
Proof.
  intros reason fault error Hr Hf He.
  pose proof (proj1 (forallb_forall _ _) stop_reason_check reason
                (in_range_list reason 256 Hr)) as Cr.
  pose proof (proj1 (forallb_forall _ _) stop_reason_check error
                (in_range_list error 256 He)) as Ce.
  pose proof (proj1 (forallb_forall _ _) fault_reason_check fault
                (in_range_list fault 65536 Hf)) as Cf.
  cbv beta in Cr, Ce, Cf.
  repeat (apply andb_true_iff in Cr; destruct Cr as [Cr ?]).
  repeat (apply andb_true_iff in Ce; destruct Ce as [Ce ?]).
  repeat (apply andb_true_iff in Cf; destruct Cf as [Cf ?]).
  repeat split;
    match goal with
    | |- ?s = "无" -> _ =>
        match goal with
        | H : Bool.eqb (String.eqb s "无") _ = true |- _ =>
            intros E; apply (eqb_string_iff _ _ _ H) in E; now apply Z.eqb_eq in E
        end
    | |- _ -> ?s = "无" =>
        match goal with
        | H : Bool.eqb (String.eqb s "无") _ = true |- _ =>
            intros E; apply (eqb_string_iff _ _ _ H); now apply Z.eqb_eq
        end
    end.
Qed.

Lemma X6_stop_reason_none_iff_witness :
  0 <= 0x30 < 256 /\ 0 <= 0x1000 < 65536 /\ 0 <= 0x10 < 256 /\
  (_parse_charger_fault_reason 0x1000 = "无" <-> Z.land 0x1000 0x0FFF = 0) /\
  (_parse_bms_fault_reason 0x1000 = "无" <-> 0x1000 = 0) /\
  (_parse_bms_error_reason 0x10 = "无" <-> Z.land 0x10 0x0F = 0).
Proof.
  assert (Hr : 0 <= 0x30 < 256) by lia.
  assert (Hf : 0 <= 0x1000 < 65536) by lia.
  assert (He : 0 <= 0x10 < 256) by lia.
  pose proof (X6_stop_reason_none_iff 0x30 0x1000 0x10 Hr Hf He)
    as (_ & _ & Hb & Hc & Hbe & _).
  repeat split; try lia; first [apply Hc | apply Hb | apply Hbe].
Defined.

(* ================================================================== *)
(** * Body decoders: what they record *)
(* ================================================================== *)

(** X7: every decoder rejects a body shorter than its declared minimum in
    the same way: it reads no byte, returns the empty record, and appends
    exactly one error, the message of [validate_length] that names the
    decoder class, the minimum and the actual length; the warnings and the
    earlier errors are untouched. *)
Theorem X7_short_body_is_rejected_once :
  forall (p : FrameParser) (body : list byte) (c : ParserContext),
    len body < expected_min_length p ->
    parse p body c =
      (Ok [], mkContext (errors c ++ [length_error p body]) (warnings c)).
Proof.
  intros p body c H. rewrite parse_short_body by exact H.
  unfold ctx_add. now rewrite app_nil_r.
Qed.

Lemma X7_short_body_is_rejected_once_witness :
  len [x01; x02; x03] < expected_min_length HeartbeatParser /\
  parse HeartbeatParser [x01; x02; x03] empty_context =
    (Ok [], mkContext ["HeartbeatParser 消息体长度不足: 需要7字节, 实际3字节"] []).
Proof.
  assert (H : len [x01; x02; x03] < expected_min_length HeartbeatParser)
    by (vm_compute; reflexivity).
  split; [exact H|].
  exact (X7_short_body_is_rejected_once HeartbeatParser [x01; x02; x03] empty_context H).
Defined.

Lemma quiet_ret {A} (a : A) : records_no_error (ret a).
Proof. exists (Ok a), []. intros c. now rewrite ctx_add_nil. Qed.

Lemma quiet_raise {A} e : records_no_error (@raise A e).
Proof. exists (Raise e), []. intros c. now rewrite ctx_add_nil. Qed.

Lemma quiet_bind {A B} (m : M A) (k : A -> M B) :
  records_no_error m -> (forall a, records_no_error (k a)) ->
  records_no_error (bind m k).
Proof.
  intros (o & ws & Hm) Hk. destruct o as [a|e].
  - destruct (Hk a) as (o' & ws' & Hk').
    exists o', (ws ++ ws')%list. intros c.
    unfold bind. rewrite Hm, Hk'. now rewrite ctx_add_add.
  - exists (Raise e), ws. intros c. unfold bind. now rewrite Hm.
Qed.

Lemma quiet_index bs i : records_no_error (index bs i).
Proof.
  unfold index.
  destruct (nth_error bs (Z.to_nat i)); [apply quiet_ret | apply quiet_raise].
Qed.

Lemma quiet_add_warning s : records_no_error (add_warning s).
Proof.
  exists (Ok tt), [s]. intros c. unfold add_warning, ctx_add. now rewrite app_nil_r.
Qed.

Lemma quiet_when b m : records_no_error m -> records_no_error (when b m).
Proof. intros H. destruct b; [exact H | apply quiet_ret]. Qed.

Lemma quiet_ascii_to_str bs : records_no_error (ascii_to_str bs).
Proof.
  exists (Ok (ascii_to_str_value bs)), (ascii_to_str_warnings bs).
  intros c. apply ascii_to_str_run.
Qed.

Lemma quiet_delete_response_loop fuel body : forall offset cards,
  records_no_error (delete_response_loop fuel body offset cards).
Proof.
  induction fuel as [|fuel IH]; intros offset cards; cbn [delete_response_loop].
  - apply quiet_ret.
  - destruct (offset + 10 <=? len body); [|apply quiet_ret].
    cbv beta zeta.
    apply quiet_bind; [apply quiet_index|intros].
    apply quiet_bind; [apply quiet_index|intros].
    apply IH.
Qed.

Lemma quiet_query_response_loop fuel body : forall offset cards,
  records_no_error (query_response_loop fuel body offset cards).
Proof.
  induction fuel as [|fuel IH]; intros offset cards; cbn [query_response_loop].
  - apply quiet_ret.
  - destruct (offset + 9 <=? len body); [|apply quiet_ret].
    cbv beta zeta.
    apply quiet_bind; [apply quiet_index|intros].
    apply IH.
Qed.

Ltac quiet_step :=
  cbv beta zeta;
  lazymatch goal with
  | |- records_no_error (ret _) => apply quiet_ret
  | |- records_no_error (bind _ _) => apply quiet_bind; [ | intros ]
  | |- records_no_error (index _ _) => apply quiet_index
  | |- records_no_error (ascii_to_str _) => apply quiet_ascii_to_str
  | |- records_no_error (add_warning _) => apply quiet_add_warning
  | |- records_no_error (when _ _) => apply quiet_when
  | |- records_no_error (delete_response_loop _ _ _ _) =>
      apply quiet_delete_response_loop
  | |- records_no_error (query_response_loop _ _ _ _) =>
      apply quiet_query_response_loop
  | |- records_no_error (if ?b then _ else _) => destruct b
  | |- records_no_error (let '(_, _) := ?e in _) => destruct e
  end.

(** Past the length check, a decoder other than the three batch decoders
    has no error left to record. *)
Lemma parse_quiet_at_minimum p body :
  is_batch_parser p = false ->
  expected_min_length p <= len body ->
  records_no_error (parse p body).
Proof.
  intros Hp H.
  assert (V : forall (k : bool -> M dict),
            records_no_error (k true) ->
            records_no_error (bind (validate_length p body) k)).
  { intros k (o & ws & Hk). exists o, ws. intros c.
    rewrite bind_validate_ok by exact H. apply Hk. }
  destruct p; try discriminate Hp; clear Hp; cbn [parse];
    try (match goal with |- records_no_error (?f body) => unfold f end;
         apply V; cbn [negb]; repeat quiet_step; fail).
  unfold DefaultParser_parse. repeat quiet_step.
Qed.

(** X8: at or above the declared minimum length, every decoder except
    [LoginParser] and [TransactionRecordParser] returns a record (no index
    it reads is out of range), and every decoder except the three
    count-prefixed batch decoders leaves the errors as they were. *)
Theorem X8_sufficient_body_is_decoded :
  forall (p : FrameParser) (body : list byte) (c : ParserContext),
    expected_min_length p <= len body ->
    (reads_past_minimum p = false -> exists r, fst (parse p body c) = Ok r) /\
    (is_batch_parser p = false -> errors (snd (parse p body c)) = errors c).
Proof.
  intros p body c H. split.
  - intros Hp. destruct (parse_safe_at_minimum p body c Hp H) as (r & c' & E).
    exists r. now rewrite E.
  - intros Hp. destruct (parse_quiet_at_minimum p body Hp H) as (o & ws & E).
    rewrite E. cbn. apply app_nil_r.
Qed.

Lemma X8_sufficient_body_is_decoded_witness :
  expected_min_length HeartbeatParser <= len [x32; x01; x02; x00; x00; x00; x11] /\
  (exists r, fst (parse HeartbeatParser [x32; x01; x02; x00; x00; x00; x11]
                    empty_context) = Ok r) /\
  errors (snd (parse HeartbeatParser [x32; x01; x02; x00; x00; x00; x11]
                 empty_context)) = [].
Proof.
  assert (H : expected_min_length HeartbeatParser
              <= len [x32; x01; x02; x00; x00; x00; x11])
    by (vm_compute; discriminate).
  split; [exact H|].
  pose proof (X8_sufficient_body_is_decoded HeartbeatParser
                [x32; x01; x02; x00; x00; x00; x11] empty_context H) as [H1 H2].
  split; [exact (H1 eq_refl) | exact (H2 eq_refl)].
Defined.

(** X9: the two decoders whose declared minimum is too small.  A login
    body of 28 or 29 bytes and a transaction-record body of 132 to 149
    bytes pass the length check and then raise [IndexError]; from 30 and
    from 150 bytes on the decoders return a record. *)
Theorem X9_login_and_transaction_need_more_than_declared :
  forall (body : list byte) (c : ParserContext),
    (28 <= len body < 30 -> fst (parse LoginParser body c) = Raise IndexError) /\
    (30 <= len body -> exists r, fst (parse LoginParser body c) = Ok r) /\
    (132 <= len body < 150 ->
       fst (parse TransactionRecordParser body c) = Raise IndexError) /\
    (150 <= len body -> exists r, fst (parse TransactionRecordParser body c) = Ok r).
Proof.
  intros body c. repeat split.
  - apply LoginParser_raises.
  - intros H. destruct (LoginParser_safe body c H) as (r & c' & E).
    exists r. now rewrite E.
  - apply TransactionRecordParser_raises.
  - intros H. destruct (TransactionRecordParser_safe body c H) as (r & c' & E).
    exists r. now rewrite E.
Qed.

Lemma X9_login_and_transaction_need_more_than_declared_witness :
  28 <= len (repeat x20 29) < 30 /\
  fst (parse LoginParser (repeat x20 29) empty_context) = Raise IndexError /\
  30 <= len (repeat x20 30) /\
  (exists r, fst (parse LoginParser (repeat x20 30) empty_context) = Ok r) /\
  132 <= len (repeat x20 149) < 150 /\
  fst (parse TransactionRecordParser (repeat x20 149) empty_context) = Raise IndexError /\
  150 <= len (repeat x20 150) /\
  (exists r, fst (parse TransactionRecordParser (repeat x20 150) empty_context) = Ok r).
Proof.
  assert (H1 : 28 <= len (repeat x20 29) < 30) by (vm_compute; split; congruence).
  assert (H2 : 30 <= len (repeat x20 30)) by (vm_compute; discriminate).
  assert (H3 : 132 <= len (repeat x20 149) < 150) by (vm_compute; split; congruence).
  assert (H4 : 150 <= len (repeat x20 150)) by (vm_compute; discriminate).
  pose proof (X9_login_and_transaction_need_more_than_declared
                (repeat x20 29) empty_context) as (A & _).
  pose proof (X9_login_and_transaction_need_more_than_declared
                (repeat x20 30) empty_context) as (_ & B & _).
  pose proof (X9_login_and_transaction_need_more_than_declared
                (repeat x20 149) empty_context) as (_ & _ & C & _).
  pose proof (X9_login_and_transaction_need_more_than_declared
                (repeat x20 150) empty_context) as (_ & _ & _ & D).
  split; [exact H1|]. split; [exact (A H1)|].
  split; [exact H2|]. split; [exact (B H2)|].
  split; [exact H3|]. split; [exact (C H3)|].
  split; [exact H4 | exact (D H4)].
Defined.

(** X10: a decoder never reads, clears or changes the diagnostics recorded
    before it runs.  Its outcome and the entries it appends depend on the
    body alone, and the only errors it appends are the length error of
    [validate_length] and the record-count error of the batch decoders. *)
Theorem X10_decoders_only_append :
  forall (p : FrameParser) (body : list byte),
    exists o es ws,
      Forall decoder_error es /\
      forall c : ParserContext,
        parse p body c = (o, mkContext (errors c ++ es) (warnings c ++ ws)).
Proof.
  intros p body. destruct (appends_parse p body) as (o & es & ws & Hes & H).
  exists o, es, ws. split; [exact Hes | exact H].
Qed.

(* ================================================================== *)
(** * Offline-card decoders: the records they read *)
(* ================================================================== *)

Lemma fmt_X_16_little bs :
  length bs = 8%nat -> fmt_X 16 (int_from_bytes_little bs) = bcd_to_str (rev bs).
Proof.
  intros Hlen. rewrite <- hex_digits_little, Hlen.
  apply fmt_X_hex_digits; [lia|].
  pose proof (int_from_bytes_little_range bs) as H. rewrite Hlen in H.
  change (16 ^ Z.of_nat (2 * 8)) with (256 ^ Z.of_nat 8). exact H.
Qed.

Lemma length_slice {A} (l : list A) a b :
  0 <= a -> a <= b -> b <= len l -> length (slice l a b) = Z.to_nat (b - a).
Proof.
  intros Ha Hab Hb. pose proof (len_slice l a b Ha Hab Hb) as H2.
  unfold len in H2. lia.
Qed.

Lemma card_numbers_loop_prefix n body : forall offset cards,
  exists rest, card_numbers_loop n body offset cards = (cards ++ rest)%list.
Proof.
  induction n as [|n IH]; intros offset cards; cbn [card_numbers_loop].
  - exists []. now rewrite app_nil_r.
  - cbv beta zeta. destruct (IH (offset + 8) (cards ++ [VStr (fmt_X 16
      (int_from_bytes_little (slice body offset (offset + 8))))])%list) as (rest & E).
    rewrite E, <- app_assoc. eauto.
Qed.

Lemma card_numbers_loop_nth n body : forall offset cards i,
  (i < n)%nat ->
  nth_error (card_numbers_loop n body offset cards) (length cards + i) =
  Some (VStr (fmt_X 16 (int_from_bytes_little
                          (slice body (offset + 8 * Z.of_nat i)
                                      (offset + 8 * Z.of_nat i + 8))))).
Proof.
  induction n as [|n IH]; intros offset cards i Hi; [lia|].
  cbn [card_numbers_loop]. cbv beta zeta.
  destruct i as [|i].
  - destruct (card_numbers_loop_prefix n body (offset + 8)
                (cards ++ [VStr (fmt_X 16 (int_from_bytes_little
                                             (slice body offset (offset + 8))))])%list)
      as (rest & E).
    rewrite E, <- !app_assoc, Nat.add_0_r, nth_error_app2 by lia.
    rewrite Nat.sub_diag. cbn [app nth_error].
    replace (offset + 8 * Z.of_nat 0) with offset by lia. reflexivity.
  - specialize (IH (offset + 8)
                   (cards ++ [VStr (fmt_X 16 (int_from_bytes_little
                                                (slice body offset (offset + 8))))])%list
                   i ltac:(lia)).
    rewrite length_app in IH. cbn [length] in IH.
    replace (length cards + 1 + i)%nat with (length cards + S i)%nat in IH by lia.
    rewrite IH.
    replace (offset + 8 + 8 * Z.of_nat i) with (offset + 8 * Z.of_nat (S i)) by lia.
    reflexivity.
Qed.

Lemma sync_cards_loop_prefix n body : forall offset cards,
  exists rest, sync_cards_loop n body offset cards = (cards ++ rest)%list.
Proof.
  induction n as [|n IH]; intros offset cards; cbn [sync_cards_loop].
  - exists []. now rewrite app_nil_r.
  - cbv beta zeta.
    match goal with
    | |- exists rest, sync_cards_loop n body ?o (cards ++ ?x)%list = _ =>
        destruct (IH o (cards ++ x)%list) as (rest & E)
    end.
    rewrite E, <- app_assoc. eauto.
Qed.

Lemma sync_cards_loop_nth n body : forall offset cards i,
  (i < n)%nat ->
  nth_error (sync_cards_loop n body offset cards) (length cards + i) =
  Some (VDict
          [ ("logical_card_number",
             VStr (bcd_to_str (slice body (offset + 16 * Z.of_nat i)
                                          (offset + 16 * Z.of_nat i + 8))));
            ("physical_card_number",
             VStr (fmt_X 16 (int_from_bytes_little
                               (slice body (offset + 16 * Z.of_nat i + 8)
                                           (offset + 16 * Z.of_nat i + 8 + 8))))) ]).
Proof.
  induction n as [|n IH]; intros offset cards i Hi; [lia|].
  cbn [sync_cards_loop]. cbv beta zeta.
  destruct i as [|i].
  - match goal with
    | |- nth_error (sync_cards_loop n body ?o (cards ++ ?x)%list) _ = _ =>
        destruct (sync_cards_loop_prefix n body o (cards ++ x)%list) as (rest & E)
    end.
    rewrite E, <- !app_assoc, Nat.add_0_r, nth_error_app2 by lia.
    rewrite Nat.sub_diag. cbn [app nth_error].
    replace (offset + 16 * Z.of_nat 0) with offset by lia. reflexivity.
  - match goal with
    | |- nth_error (sync_cards_loop n body ?o (cards ++ ?x)%list) _ = _ =>
        specialize (IH o (cards ++ x)%list i ltac:(lia))
    end.
    rewrite length_app in IH. cbn [length] in IH.
    replace (length cards + 1 + i)%nat with (length cards + S i)%nat in IH by lia.
    rewrite IH. cbn [dict_set].
    replace (offset + 8 + 8 + 16 * Z.of_nat i) with (offset + 16 * Z.of_nat (S i)) by lia.
    reflexivity.
Qed.

(** X11: when the records an offline-card sync, delete or query body
    declares all fit in the body, the decoder records nothing, returns the
    declared count and exactly that many records, and the [i]-th record is
    read at offset [8 + i * size]; bytes that follow the last declared
    record are ignored. *)
Theorem X11_batch_records_that_fit :
  forall (p : FrameParser) (body : list byte) (c : ParserContext),
    is_batch_parser p = true ->
    8 <= len body ->
    let count := byte_val (nth 7 body x00) in
    8 + count * batch_record_size p <= len body ->
    exists result cards,
      parse p body c = (Ok result, c) /\
      dict_get result "pile_code" = Some (VStr (bcd_to_str (slice body 0 7))) /\
      dict_get result "card_count" = Some (VInt count) /\
      dict_get result (batch_records_key p) = Some (VList cards) /\
      len cards = count /\
      forall i : nat,
        Z.of_nat i < count -> nth_error cards i = Some (batch_record p body (Z.of_nat i)).
Proof.
  intros p body c Hp Hl count Hc.
  pose proof (byte_val_range (nth 7 body x00)) as Hcount. fold count in Hcount.
  assert (Hmin : forall size, 0 < size -> 8 + count * size <= len body ->
            Z.to_nat (Z.min count ((len body - 8) / size)) = Z.to_nat count).
  { intros size Hs Hfit. rewrite Z.min_l; [reflexivity|].
    apply Z.div_le_lower_bound; lia. }
  destruct p; try discriminate Hp; clear Hp;
    cbn [batch_record_size batch_records_key batch_record] in *; cbn [parse];
    match goal with |- exists _ _, ?f body c = _ /\ _ => unfold f end;
    rewrite bind_validate_ok by (cbn; lia); cbn [negb];
    mstep; mstep;
    change (Z.to_nat (0 + 7)) with 7%nat; fold count;
    match goal with
    | |- context [if ?b then _ else _] =>
        replace b with false by (symmetry; apply Z.ltb_ge; lia)
    end;
    cbv beta iota zeta; rewrite ctx_add_nil; unfold ret;
    rewrite Hmin by lia;
    eexists; eexists;
    (split; [reflexivity|]); (split; [reflexivity|]); (split; [reflexivity|]);
    (split; [reflexivity|]).
  - split.
    + unfold len at 1. rewrite sync_cards_loop_length. cbn [length]. lia.
    + intros i Hi.
      pose proof (sync_cards_loop_nth (Z.to_nat count) body (0 + 7 + 1) [] i ltac:(lia)) as E.
      cbn [length Nat.add] in E. rewrite E.
      replace (0 + 7 + 1 + 16 * Z.of_nat i) with (8 + 16 * Z.of_nat i) by lia.
      replace (8 + 16 * Z.of_nat i + 8 + 8) with (8 + 16 * Z.of_nat i + 16) by lia.
      rewrite fmt_X_16_little; [reflexivity|].
      rewrite length_slice by lia. lia.
  - split.
    + unfold len at 1. rewrite card_numbers_loop_length. cbn [length]. lia.
    + intros i Hi.
      pose proof (card_numbers_loop_nth (Z.to_nat count) body (0 + 7 + 1) [] i ltac:(lia)) as E.
      cbn [length Nat.add] in E. rewrite E.
      replace (0 + 7 + 1 + 8 * Z.of_nat i) with (8 + 8 * Z.of_nat i) by lia.
      rewrite fmt_X_16_little; [reflexivity|].
      rewrite length_slice by lia. lia.
  - split.
    + unfold len at 1. rewrite card_numbers_loop_length. cbn [length]. lia.
    + intros i Hi.
      pose proof (card_numbers_loop_nth (Z.to_nat count) body (0 + 7 + 1) [] i ltac:(lia)) as E.
      cbn [length Nat.add] in E. rewrite E.
      replace (0 + 7 + 1 + 8 * Z.of_nat i) with (8 + 8 * Z.of_nat i) by lia.
      rewrite fmt_X_16_little; [reflexivity|].
      rewrite length_slice by lia. lia.
Qed.

Lemma X11_batch_records_that_fit_witness :
  is_batch_parser OfflineCardDeleteParser = true /\
  8 <= len delete_body_one_card /\
  8 + byte_val (nth 7 delete_body_one_card x00)
        * batch_record_size OfflineCardDeleteParser <= len delete_body_one_card /\
  exists result cards,
    parse OfflineCardDeleteParser delete_body_one_card empty_context
      = (Ok result, empty_context) /\
    dict_get result "pile_code" = Some (VStr "32010200000011") /\
    dict_get result "card_count" = Some (VInt 1) /\
    dict_get result "card_numbers" = Some (VList cards) /\
    len cards = 1 /\
    forall i : nat,
      Z.of_nat i < 1 ->
      nth_error cards i =
        Some (batch_record OfflineCardDeleteParser delete_body_one_card (Z.of_nat i)).
Proof.
  assert (H1 : is_batch_parser OfflineCardDeleteParser = true) by reflexivity.
  assert (H2 : 8 <= len delete_body_one_card) by (vm_compute; discriminate).
  assert (H3 : 8 + byte_val (nth 7 delete_body_one_card x00)
                     * batch_record_size OfflineCardDeleteParser
               <= len delete_body_one_card) by (vm_compute; discriminate).
  split; [exact H1|]. split; [exact H2|]. split; [exact H3|].
  exact (X11_batch_records_that_fit OfflineCardDeleteParser delete_body_one_card
           empty_context H1 H2 H3).
Defined.

(** The while loops of the two response decoders read one record per ten
    (nine) bytes left, record nothing, and leave a shorter remainder
    unread. *)
Lemma delete_response_loop_count body fuel : forall offset cards c,
  0 <= offset <= len body ->
  len body - offset < 10 * (Z.of_nat fuel + 1) ->
  exists r,
    delete_response_loop fuel body offset cards c = (Ok r, c) /\
    len r = len cards + (len body - offset) / 10.
Proof.
  induction fuel as [|fuel IH]; intros offset cards c Hoff Hfuel;
    cbn [delete_response_loop].
  - exists cards. split; [reflexivity|].
    destruct (Z.leb_spec (offset + 10) (len body)); rewrite Z.div_small by lia; lia.
  - destruct (Z.leb_spec (offset + 10) (len body)) as [Hle|Hgt].
    + cbv beta zeta.
      rewrite bind_index_ok by lia. rewrite bind_index_ok by lia.
      match goal with
      | |- exists r, delete_response_loop fuel body ?o ?cs c = _ /\ _ =>
          destruct (IH o cs c) as (r & E & Hr); [lia | lia |]
      end.
      exists r. split; [exact E|]. rewrite Hr.
      unfold len at 1. rewrite length_app. cbn [length].
      replace (len body - offset) with ((len body - (offset + 8 + 1 + 1)) + 1 * 10) by lia.
      rewrite Z.div_add by lia. unfold len. lia.
    + exists cards. split; [reflexivity|]. rewrite Z.div_small by lia. lia.
Qed.

Lemma query_response_loop_count body fuel : forall offset cards c,
  0 <= offset <= len body ->
  len body - offset < 9 * (Z.of_nat fuel + 1) ->
  exists r,
    query_response_loop fuel body offset cards c = (Ok r, c) /\
    len r = len cards + (len body - offset) / 9.
Proof.
  induction fuel as [|fuel IH]; intros offset cards c Hoff Hfuel;
    cbn [query_response_loop].
  - exists cards. split; [reflexivity|].
    destruct (Z.leb_spec (offset + 9) (len body)); rewrite Z.div_small by lia; lia.
  - destruct (Z.leb_spec (offset + 9) (len body)) as [Hle|Hgt].
    + cbv beta zeta.
      rewrite bind_index_ok by lia.
      match goal with
      | |- exists r, query_response_loop fuel body ?o ?cs c = _ /\ _ =>
          destruct (IH o cs c) as (r & E & Hr); [lia | lia |]
      end.
      exists r. split; [exact E|]. rewrite Hr.
      unfold len at 1. rewrite length_app. cbn [length].
      replace (len body - offset) with ((len body - (offset + 8 + 1)) + 1 * 9) by lia.
      rewrite Z.div_add by lia. unfold len. lia.
    + exists cards. split; [reflexivity|]. rewrite Z.div_small by lia. lia.
Qed.

(** X12: the two offline-card response decoders have no count byte: after
    the seven bytes of the pile code they read as many whole records (ten
    bytes for a delete response, nine for a query response) as the body
    holds.  They never raise and record nothing, and a remainder shorter
    than a record is dropped without a diagnostic. *)
Theorem X12_response_records_fill_the_body :
  forall (body : list byte) (c : ParserContext),
    7 <= len body ->
    (exists result cards,
       parse OfflineCardDeleteResponseParser body c = (Ok result, c) /\
       dict_get result "pile_code" = Some (VStr (bcd_to_str (slice body 0 7))) /\
       dict_get result "cards" = Some (VList cards) /\
       len cards = (len body - 7) / 10) /\
    (exists result cards,
       parse OfflineCardQueryResponseParser body c = (Ok result, c) /\
       dict_get result "pile_code" = Some (VStr (bcd_to_str (slice body 0 7))) /\
       dict_get result "cards" = Some (VList cards) /\
       len cards = (len body - 7) / 9).
Proof.
  intros body c H. split.
  - cbn [parse]. unfold OfflineCardDeleteResponseParser_parse.
    rewrite bind_validate_ok by (cbn; lia). cbn [negb]. cbv beta zeta.
    destruct (delete_response_loop_count body (length body) (0 + 7) [] c)
      as (r & E & Hr); [lia | unfold len; lia |].
    unfold bind at 1. rewrite E. unfold ret.
    eexists; exists r.
    split; [reflexivity|]. split; [reflexivity|]. split; [reflexivity|].
    rewrite Hr. replace (len body - (0 + 7)) with (len body - 7) by lia.
    reflexivity.
  - cbn [parse]. unfold OfflineCardQueryResponseParser_parse.
    rewrite bind_validate_ok by (cbn; lia). cbn [negb]. cbv beta zeta.
    destruct (query_response_loop_count body (length body) (0 + 7) [] c)
      as (r & E & Hr); [lia | unfold len; lia |].
    unfold bind at 1. rewrite E. unfold ret.
    eexists; exists r.
    split; [reflexivity|]. split; [reflexivity|]. split; [reflexivity|].
    rewrite Hr. replace (len body - (0 + 7)) with (len body - 7) by lia.
    reflexivity.
Qed.

Lemma X12_response_records_fill_the_body_witness :
  7 <= len delete_response_body_cut /\
  exists result cards,
    parse OfflineCardDeleteResponseParser delete_response_body_cut empty_context
      = (Ok result, empty_context) /\
    dict_get result "pile_code" = Some (VStr "32010200000011") /\
    dict_get result "cards" = Some (VList cards) /\
    len cards = 1.
Proof.
  assert (H : 7 <= len delete_response_body_cut) by (vm_compute; discriminate).
  split; [exact H|].
  exact (proj1 (X12_response_records_fill_the_body delete_response_body_cut
                  empty_context H)).
Defined.

(** X13: the default decoder accepts every body, records nothing, and its
    [raw] field reads back, through [bytes.fromhex], as the body. *)
Theorem X13_default_decoder_keeps_the_bytes :
  forall (body : list byte) (c : ParserContext),
    exists raw,
      parse DefaultParser body c =
        (Ok [ ("raw", VStr raw); ("note", VStr "该帧类型暂未实现详细解析") ], c) /\
      String.length raw = (2 * length body)%nat /\
      bytes_fromhex raw = inr body.
Proof.
  intros body c. exists (bytes_hex_upper body). split; [reflexivity|].
  rewrite bytes_hex_upper_bcd.
  split; [apply bcd_to_str_length | apply bcd_to_str_reads_back].
Qed.

(* ================================================================== *)
(** * The dispatch table *)
(* ================================================================== *)

Lemma table_get_In {A} (table : list (Z * A)) code (default v : A) :
  table_get table code default = v -> v <> default -> In (code, v) table.
Proof.
  induction table as [|[k x] table IH]; cbn [table_get]; intros E Hv.
  - congruence.
  - destruct (Z.eqb_spec code k) as [->|Hne].
    + left. congruence.
    + right. now apply IH.
Qed.

Lemma unique_values_key {A} (table : list (Z * A)) a b v :
  NoDup (map snd table) -> In (a, v) table -> In (b, v) table -> a = b.
Proof.
  induction table as [|[k x] table IH]; cbn [map snd]; intros Hnd Ha Hb; [destruct Ha|].
  inversion Hnd as [|? ? Hnotin Hnd']; subst.
  destruct Ha as [Ea|Ha], Hb as [Eb|Hb].
  - congruence.
  - exfalso. apply Hnotin. injection Ea as -> ->.
    change v with (snd (b, v)). now apply in_map.
  - exfalso. apply Hnotin. injection Eb as -> ->.
    change v with (snd (a, v)). now apply in_map.
  - now apply IH.
Qed.

Lemma parsers_values_NoDup : NoDup (map snd FrameParserFactory._parsers).
Proof.
  cbn [FrameParserFactory._parsers map snd].
  repeat (constructor; [cbn [In]; intuition discriminate|]). constructor.
Qed.

Lemma qr_decoders_not_in_table code :
  ~ In (code, QRCodePrefixSetParser) FrameParserFactory._parsers /\
  ~ In (code, QRCodePrefixSetResponseParser) FrameParserFactory._parsers.
Proof.
  split; cbn [FrameParserFactory._parsers In]; intuition discriminate.
Qed.

(** X14: what the dispatch table reaches.  No frame-type code selects the
    two QR-code prefix decoders, although frame_parsers.py defines them;
    and two different codes never select the same decoder, unless both
    fall back on the default decoder. *)
Theorem X14_dispatch_reaches_each_decoder_once :
  forall code code' : Z,
    FrameParserFactory.get_parser code <> QRCodePrefixSetParser /\
    FrameParserFactory.get_parser code <> QRCodePrefixSetResponseParser /\
    (FrameParserFactory.get_parser code = FrameParserFactory.get_parser code' ->
     code = code' \/ FrameParserFactory.get_parser code = DefaultParser).
Proof.
  intros code code'. unfold FrameParserFactory.get_parser.
  destruct (qr_decoders_not_in_table code) as [Hq1 Hq2].
  split; [|split].
  - intros E. apply Hq1. eapply table_get_In; [exact E | discriminate].
  - intros E. apply Hq2. eapply table_get_In; [exact E | discriminate].
  - intros E.
    remember (table_get FrameParserFactory._parsers code DefaultParser) as p eqn:Ep.
    assert (Hdec : p = DefaultParser \/ p <> DefaultParser).
    { destruct p; (left; reflexivity) || (right; discriminate). }
    destruct Hdec as [Hd|Hd]; [now right | left].
    eapply unique_values_key.
    + exact parsers_values_NoDup.
    + eapply table_get_In; [symmetry; exact Ep | exact Hd].
    + eapply table_get_In; [symmetry; exact E | exact Hd].
Qed.

Lemma X14_dispatch_reaches_each_decoder_once_witness :
  FrameParserFactory.get_parser 0xF0 <> QRCodePrefixSetParser /\
  FrameParserFactory.get_parser 0xF1 <> QRCodePrefixSetResponseParser /\
  (FrameParserFactory.get_parser 0x05 = FrameParserFactory.get_parser 0x06 ->
   0x05 = 0x06 \/ FrameParserFactory.get_parser 0x05 = DefaultParser).
Proof.
  split; [exact (proj1 (X14_dispatch_reaches_each_decoder_once 0xF0 0xF0))|].
  split; [exact (proj1 (proj2 (X14_dispatch_reaches_each_decoder_once 0xF1 0xF1)))|].
  exact (proj2 (proj2 (X14_dispatch_reaches_each_decoder_once 0x05 0x06))).
Defined.

Lemma table_get_set {A} (table : list (Z * A)) k (v default : A) code :
  table_get (table_set table k v) code default =
  if code =? k then v else table_get table code default.
Proof.
  induction table as [|[k' x] table IH]; cbn [table_set table_get].
  - reflexivity.
  - destruct (Z.eqb_spec k k') as [->|Hne]; cbn [table_get].
    + destruct (code =? k'); reflexivity.
    + rewrite IH. destruct (Z.eqb_spec code k') as [->|Hne'].
      * destruct (Z.eqb_spec k' k); [congruence | reflexivity].
      * reflexivity.
Qed.

Lemma table_keys_set {A} (table : list (Z * A)) k (v : A) :
  table_keys (table_set table k v) =
  if table_mem table k then table_keys table else (table_keys table ++ [k])%list.
Proof.
  unfold table_keys.
  induction table as [|[k' x] table IH]; cbn [table_set table_mem map fst app].
  - reflexivity.
  - destruct (Z.eqb_spec k k') as [->|Hne]; cbn [orb map fst].
    + reflexivity.
    + rewrite IH. destruct (table_mem table k); reflexivity.
Qed.

(** X15: [register_parser] followed by [get_parser].  The registered code
    selects the registered decoder, every other code selects what it
    selected before; a code the table already has keeps its place, a new
    code goes last, so the table never holds a code twice because of a
    registration. *)
Theorem X15_register_then_get_parser :
  forall (parsers : list (Z * FrameParser)) (frame_type : Z)
         (parser_class : FrameParser) (code : Z),
    FrameParserFactory.get_parser_in
      (FrameParserFactory.register_parser parsers frame_type parser_class) code =
      (if code =? frame_type then parser_class
       else FrameParserFactory.get_parser_in parsers code) /\
    table_keys (FrameParserFactory.register_parser parsers frame_type parser_class) =
      (if table_mem parsers frame_type then table_keys parsers
       else table_keys parsers ++ [frame_type])%list /\
    FrameParserFactory.get_parser code =
      FrameParserFactory.get_parser_in FrameParserFactory._parsers code.
Proof.
  intros parsers frame_type parser_class code.
  unfold FrameParserFactory.get_parser_in, FrameParserFactory.register_parser.
  split; [apply table_get_set|]. split; [apply table_keys_set | reflexivity].
Qed.

Lemma sorted_insert_perm x l : Permutation (sorted_insert x l) (x :: l).
Proof.
  induction l as [|y l IH]; cbn [sorted_insert]; [reflexivity|].
  destruct (x <=? y); [reflexivity|].
  rewrite IH. apply perm_swap.
Qed.

Lemma sorted_insert_sorted x l :
  StronglySorted Z.le l -> StronglySorted Z.le (sorted_insert x l).
Proof.
  induction 1 as [|y l Hs IH Hy]; cbn [sorted_insert].
  - repeat constructor.
  - destruct (Z.leb_spec x y) as [Hle|Hgt].
    + constructor; [now constructor|].
      constructor; [exact Hle|].
      rewrite Forall_forall in *. intros z Hz. specialize (Hy z Hz). lia.
    + constructor; [exact IH|].
      rewrite Forall_forall in *. intros z Hz.
      apply (Permutation_in _ (sorted_insert_perm x l)) in Hz.
      destruct Hz as [<-|Hz]; [lia | now apply Hy].
Qed.

Lemma sorted_perm l : Permutation (sorted l) l.
Proof.
  induction l as [|x l IH]; [reflexivity|].
  cbn [sorted fold_right]. fold (sorted l).
  rewrite sorted_insert_perm. now constructor.
Qed.

Lemma sorted_sorted l : StronglySorted Z.le (sorted l).
Proof.
  induction l as [|x l IH]; [constructor|].
  cbn [sorted fold_right]. fold (sorted l). now apply sorted_insert_sorted.
Qed.

Lemma table_mem_In {A} (table : list (Z * A)) code :
  table_mem table code = true <-> In code (table_keys table).
Proof.
  unfold table_keys.
  induction table as [|[k x] table IH]; cbn [table_mem map fst In].
  - split; [discriminate | intros []].
  - rewrite orb_true_iff, IH, Z.eqb_eq. intuition.
Qed.

(** X16: [get_supported_frame_types], whatever was registered: the answer
    is in ascending order, it lists exactly the codes [get_parser] has an
    entry for, each as often as the table holds it; and for the table as
    the module defines it the answer is the 47 keys in the order of the
    source text. *)
Theorem X16_supported_frame_types_are_the_sorted_keys :
  forall parsers : list (Z * FrameParser),
    StronglySorted Z.le (FrameParserFactory.get_supported_frame_types parsers) /\
    Permutation (FrameParserFactory.get_supported_frame_types parsers)
                (table_keys parsers) /\
    (forall code,
       In code (FrameParserFactory.get_supported_frame_types parsers) <->
       table_mem parsers code = true) /\
    FrameParserFactory.get_supported_frame_types FrameParserFactory._parsers =
      table_keys FrameParserFactory._parsers.
Proof.
  intros parsers. unfold FrameParserFactory.get_supported_frame_types.
  split; [apply sorted_sorted|]. split; [apply sorted_perm|]. split.
  - intros code. rewrite table_mem_In. split; intros H.
    + eapply Permutation_in; [apply sorted_perm | exact H].
    + eapply Permutation_in; [symmetry; apply sorted_perm | exact H].
  - vm_compute. reflexivity.
Qed.

(* ================================================================== *)
(** * The envelope parser on short frames, and the top-level result *)
(* ================================================================== *)

Lemma parse_structure_tiny crc data c :
  len data < 2 ->
  fst (YKCProtocolParser._parse_structure crc data c) = Raise IndexError.
Proof.
  intros H. unfold YKCProtocolParser._parse_structure.
  destruct (Z.lt_ge_cases (len data) 1) as [H0|H1].
  - rewrite bind_index_out by lia. reflexivity.
  - do 2 mstep. rewrite bind_index_out by lia. reflexivity.
Qed.

Lemma parse_structure_short crc data c :
  2 <= len data < 6 ->
  exists r es,
    YKCProtocolParser._parse_structure crc data c = (Ok r, ctx_add c es []) /\
    es <> [] /\ dict_get r "frame_type" = None.
Proof.
  intros H. unfold YKCProtocolParser._parse_structure.
  do 4 mstep.
  destruct (Z.leb_spec 4 (len data)) as [H4|H4]; cbn [negb].
  - destruct (Z.leb_spec 5 (len data)) as [H5|H5]; cbn [negb].
    + mstep.
      replace (6 <=? len data) with false by (symmetry; apply Z.leb_gt; lia).
      cbn [negb]. rewrite bind_add_error. unfold ret. rewrite !ctx_add_add.
      eexists; eexists. split; [reflexivity|]. split.
      * intros E. apply app_eq_nil in E as [_ E]. apply app_eq_nil in E as [_ E].
        discriminate.
      * rewrite !dict_get_set. reflexivity.
    + rewrite bind_add_error. unfold ret. rewrite !ctx_add_add.
      eexists; eexists. split; [reflexivity|]. split.
      * intros E. apply app_eq_nil in E as [_ E]. apply app_eq_nil in E as [_ E].
        discriminate.
      * rewrite !dict_get_set. reflexivity.
  - rewrite bind_add_error. unfold ret. rewrite !ctx_add_add.
    eexists; eexists. split; [reflexivity|]. split.
    + intros E. apply app_eq_nil in E as [_ E]. apply app_eq_nil in E as [_ E].
      discriminate.
    + rewrite !dict_get_set. reflexivity.
Qed.

(** X17: [_parse_structure] raises only when the frame has fewer than two
    bytes (it reads the start flag and the length before any check).  A
    frame of two to five bytes stops at the first header field it cannot
    read: it returns the fields read so far, without a frame type, leaves
    the warnings alone and appends at least one error.  From six bytes on
    the pass always returns a result. *)
Theorem X17_structural_pass_raises_only_below_two_bytes :
  forall (crc : list byte -> N) (data : list byte) (c : ParserContext),
    (len data < 2 ->
       fst (YKCProtocolParser._parse_structure crc data c) = Raise IndexError) /\
    (2 <= len data < 6 ->
       exists r es,
         YKCProtocolParser._parse_structure crc data c =
           (Ok r, mkContext (errors c ++ es) (warnings c)) /\
         es <> [] /\ dict_get r "frame_type" = None) /\
    (6 <= len data ->
       exists r c', YKCProtocolParser._parse_structure crc data c = (Ok r, c')).
Proof.
  intros crc data c. split; [apply parse_structure_tiny|]. split.
  - intros H. destruct (parse_structure_short crc data c H) as (r & es & E & Hes & Hr).
    exists r, es. split; [|tauto]. rewrite E. unfold ctx_add. now rewrite app_nil_r.
  - apply parse_structure_returns.
Qed.

Lemma X17_structural_pass_raises_only_below_two_bytes_witness :
  len [x68] < 2 /\
  fst (YKCProtocolParser._parse_structure crc16_sample [x68] empty_context)
    = Raise IndexError /\
  2 <= len [x68; x00; x01; x00] < 6 /\
  (exists r es,
     YKCProtocolParser._parse_structure crc16_sample [x68; x00; x01; x00] empty_context
       = (Ok r, mkContext (errors empty_context ++ es) (warnings empty_context)) /\
     es <> [] /\ dict_get r "frame_type" = None).
Proof.
  assert (H1 : len [x68] < 2) by (vm_compute; reflexivity).
  assert (H2 : 2 <= len [x68; x00; x01; x00] < 6) by (vm_compute; split; congruence).
  split; [exact H1|].
  split; [exact (proj1 (X17_structural_pass_raises_only_below_two_bytes
                          crc16_sample [x68] empty_context) H1)|].
  split; [exact H2|].
  exact (proj1 (proj2 (X17_structural_pass_raises_only_below_two_bytes
                         crc16_sample [x68; x00; x01; x00] empty_context)) H2).
Defined.

Lemma dict_set_fresh (d : dict) k v :
  dict_get d k = None -> dict_set d k v = (d ++ [(k, v)])%list.
Proof.
  induction d as [|[k' v'] d IH]; cbn [dict_get dict_set app]; [reflexivity|].
  destruct (String.eqb k k'); [discriminate|]. intros H. now rewrite IH.
Qed.

(** The keys [parse] assigns are not keys of the structural result. *)
Lemma structure_result_fresh crc data c r c' k :
  6 <= len data ->
  YKCProtocolParser._parse_structure crc data c = (Ok r, c') ->
  In k ["code"; "msg"; "errors"; "warnings"] ->
  dict_get r k = None.
Proof.
  intros Hlen E Hk.
  destruct (Z.lt_ge_cases (declared_length data) 4) as [Hdl|Hdl].
  - rewrite parse_structure_halt in E by assumption.
    assert (Er : r = envelope_fields data) by congruence. subst r. clear E.
    cbn [In] in Hk. unfold envelope_fields.
    repeat (destruct Hk as [<-|Hk]; [reflexivity|]). contradiction.
  - rewrite parse_structure_body in E by assumption.
    assert (Er : r = (envelope_fields data ++ body_fields data ++
                      checksum_fields crc data ++ body_data_field data)%list)
      by congruence.
    subst r. clear E. rewrite !dict_get_app.
    unfold envelope_fields, body_fields, checksum_fields, body_data_field.
    cbn [In] in Hk.
    repeat (destruct Hk as [<-|Hk];
            [destruct (checksum_readable data); destruct (frame_body data); reflexivity|]).
    contradiction.
Qed.

Lemma parse_reaches_structure crc hex_str data :
  frame_of_hex hex_str = Some data ->
  exists r c,
    YKCProtocolParser._parse_structure crc data empty_context = (Ok r, c) /\
    YKCProtocolParser.parse crc hex_str = ((r ++ final_fields c)%list, c).
Proof.
  unfold frame_of_hex, YKCProtocolParser.parse.
  fold (clean_hex hex_str). fold empty_context.
  destruct (Z.of_nat (String.length (clean_hex hex_str)) mod 2 =? 0);
    cbn [negb]; [|discriminate].
  destruct (bytes_fromhex (clean_hex hex_str)) as [pos|data']; [discriminate|].
  destruct (Z.ltb_spec (len data') 8) as [Hshort|Hlen]; [discriminate|].
  intros E. injection E as ->.
  destruct (parse_structure_returns crc data empty_context) as (r & c' & E); [lia|].
  exists r, c'. split; [exact E|]. rewrite E.
  assert (F : forall k, In k ["code"; "msg"; "errors"; "warnings"] -> dict_get r k = None).
  { intros k. apply (structure_result_fresh crc data empty_context r c'); [lia | exact E]. }
  unfold final_fields.
  destruct (errors c') as [|e es] eqn:Ee; destruct (warnings c') as [|w ws] eqn:Ew;
    f_equal;
    repeat (rewrite dict_set_fresh
              by (repeat (rewrite dict_get_set || rewrite dict_get_app);
                  rewrite F by (cbn [In]; auto); reflexivity));
    rewrite <- ?app_assoc; cbn [app]; rewrite ?app_nil_r; reflexivity.
Qed.

(** X18: the result [parse] returns.  For an input that passes the three
    pre-checks it is the record of the structural pass, unchanged, followed
    by the status, the message, the errors when there are any and the
    warnings when there are any.  For any other input it is the error
    response with one of three messages (odd number of characters, not
    hexadecimal, fewer than eight bytes) and nothing is recorded; the
    response of the catch-all exception handler never occurs. *)
Theorem X18_top_level_result_layout :
  forall (crc : list byte -> N) (hex_str : string),
    match frame_of_hex hex_str with
    | Some data =>
        exists r c,
          YKCProtocolParser._parse_structure crc data empty_context = (Ok r, c) /\
          YKCProtocolParser.parse crc hex_str = ((r ++ final_fields c)%list, c)
    | None =>
        exists msg,
          YKCProtocolParser.parse crc hex_str =
            (YKCProtocolParser._error_response msg, empty_context) /\
          (msg = "报文长度必须是偶数个十六进制字符" \/
           (exists pos, msg = "十六进制字符串格式错误: " ++ fromhex_error pos) \/
           (exists n, 0 <= n < 8 /\
                      msg = "报文长度过短: " ++ str_int n ++ "字节,最少需要8字节"))
    end.
Proof.
  intros crc hex_str.
  destruct (frame_of_hex hex_str) as [data|] eqn:Ef.
  - now apply parse_reaches_structure.
  - revert Ef. unfold frame_of_hex, YKCProtocolParser.parse.
    fold (clean_hex hex_str). fold empty_context.
    destruct (Z.of_nat (String.length (clean_hex hex_str)) mod 2 =? 0); cbn [negb].
    + destruct (bytes_fromhex (clean_hex hex_str)) as [pos|data'].
      * intros _. eexists. split; [reflexivity|]. right. left. now exists pos.
      * destruct (Z.ltb_spec (len data') 8) as [Hshort|Hlen]; [|discriminate].
        intros _. eexists. split; [reflexivity|]. right. right.
        exists (len data'). split; [unfold len in *; lia | reflexivity].
    + intros _. eexists. split; [reflexivity|]. now left.
Qed.

(* ================================================================== *)
(** * Frames shorter than announced, and the frames that succeed *)
(* ================================================================== *)

Lemma frame_body_length data :
  6 <= len data -> 4 <= declared_length data ->
  len (frame_body data) = Z.min (len data - 6) (declared_length data - 4).
Proof.
  intros Hlen Hdl. unfold frame_body, frame_body_end.
  destruct (Z.ltb_spec (len data) (6 + (declared_length data - 4))).
  - unfold slice_from, len in *. rewrite length_skipn. lia.
  - rewrite len_slice by lia. lia.
Qed.

(** X19: a frame shorter than its length byte announces.  The structural
    pass still returns a result; the length mismatch and the unreadable
    checksum are both recorded as errors, no received checksum is reported
    and [crc16_valid] is false: the bytes that are present after the header
    are all taken as body, up to the announced body length.  When not even
    the announced body is complete, the truncation is a third error. *)
Theorem X19_cut_frame_has_no_checksum :
  forall (crc : list byte -> N) (data : list byte) (c : ParserContext),
    6 <= len data ->
    4 <= declared_length data ->
    len data < declared_length data + 4 ->
    exists r c',
      YKCProtocolParser._parse_structure crc data c = (Ok r, c') /\
      In (YKCProtocolParser.length_mismatch_error (1 + 1 + declared_length data + 2) data)
         (errors c') /\
      In YKCProtocolParser.crc_short_error (errors c') /\
      dict_get r "crc16_valid" = Some (VBool false) /\
      dict_get r "crc16_received" = None /\
      dict_get r "body_length" =
        Some (VInt (Z.min (len data - 6) (declared_length data - 4))) /\
      (len data < declared_length data + 2 ->
       In (YKCProtocolParser.truncated_body_error (6 + (declared_length data - 4)) data)
          (errors c')).
Proof.
  intros crc data c Hlen Hdl Hcut.
  rewrite parse_structure_body by assumption.
  eexists; eexists. split; [reflexivity|].
  assert (Hcr : checksum_readable data = false).
  { unfold checksum_readable, frame_body_end. apply Z.leb_gt. lia. }
  unfold ctx_add. cbn [errors]. repeat split.
  - apply in_or_app. right. apply in_or_app. left.
    unfold header_errors, expected_total_length. apply in_or_app. right.
    destruct (Z.eqb_spec (len data) (1 + 1 + declared_length data + 2)); [lia|].
    now left.
  - apply in_or_app. right. apply in_or_app. right. apply in_or_app. right.
    apply in_or_app. left. unfold checksum_errors. rewrite Hcr. now left.
  - rewrite crc16_valid_lookup, Hcr. reflexivity.
  - rewrite !dict_get_app. unfold checksum_fields. rewrite Hcr.
    unfold envelope_fields, body_fields, body_data_field.
    destruct (frame_body data); reflexivity.
  - rewrite <- frame_body_length by assumption.
    apply body_fields_lookup. now left.
  - intros Htr. apply in_or_app. right. apply in_or_app. right.
    apply in_or_app. left. unfold body_slice_errors, frame_body_end.
    destruct (Z.ltb_spec (len data) (6 + (declared_length data - 4))); [|lia].
    now left.
Qed.

Lemma X19_cut_frame_has_no_checksum_witness :
  6 <= len login_frame_cut /\
  4 <= declared_length login_frame_cut /\
  len login_frame_cut < declared_length login_frame_cut + 4 /\
  exists r c',
    YKCProtocolParser._parse_structure crc16_sample login_frame_cut empty_context
      = (Ok r, c') /\
    In (YKCProtocolParser.length_mismatch_error
          (1 + 1 + declared_length login_frame_cut + 2) login_frame_cut) (errors c') /\
    In YKCProtocolParser.crc_short_error (errors c') /\
    dict_get r "crc16_valid" = Some (VBool false) /\
    dict_get r "crc16_received" = None.
Proof.
  assert (H1 : 6 <= len login_frame_cut) by (vm_compute; discriminate).
  assert (H2 : 4 <= declared_length login_frame_cut) by (vm_compute; discriminate).
  assert (H3 : len login_frame_cut < declared_length login_frame_cut + 4)
    by (vm_compute; reflexivity).
  split; [exact H1|]. split; [exact H2|]. split; [exact H3|].
  destruct (X19_cut_frame_has_no_checksum crc16_sample login_frame_cut empty_context
              H1 H2 H3) as (r & c' & E & A & B & C & D & _).
  exists r, c'. repeat split; assumption.
Defined.

Lemma frame_of_hex_len hex_str data : frame_of_hex hex_str = Some data -> 8 <= len data.
Proof.
  unfold frame_of_hex.
  destruct (Z.of_nat (String.length (clean_hex hex_str)) mod 2 =? 0); [|discriminate].
  destruct (bytes_fromhex (clean_hex hex_str)) as [pos|data']; [discriminate|].
  destruct (Z.ltb_spec (len data') 8); [discriminate|].
  intros E. injection E as <-. assumption.
Qed.

Lemma final_status (r : dict) c :
  dict_get r "code" = None ->
  (status_code (r ++ final_fields c)%list = Some (VInt 200) <-> errors c = []).
Proof.
  intros F. unfold status_code, final_fields. rewrite dict_get_app, F.
  destruct (errors c); cbn; split; intros H; congruence.
Qed.

Lemma app_nil_iff {A} (l1 l2 : list A) : (l1 ++ l2)%list = [] <-> l1 = [] /\ l2 = [].
Proof.
  split; [apply app_eq_nil | intros [-> ->]; reflexivity].
Qed.

Lemma structure_errors_none crc data r c :
  8 <= len data ->
  YKCProtocolParser._parse_structure crc data empty_context = (Ok r, c) ->
  (errors c = [] <->
   frame_byte data 0 = 0x68 /\
   len data = declared_length data + 4 /\
   (frame_body data = [] \/
    (exists body_data,
       decoder_outcome (frame_parser data) (frame_body data) = Ok body_data) /\
    decoder_errors (frame_parser data) (frame_body data) = [])).
Proof.
  intros Hlen E.
  assert (Hh : header_errors data = [] <->
               frame_byte data 0 = 0x68 /\ len data = declared_length data + 4).
  { unfold header_errors, expected_total_length. rewrite app_nil_iff.
    destruct (Z.eqb_spec (frame_byte data 0) 0x68),
             (Z.eqb_spec (len data) (1 + 1 + declared_length data + 2));
      split; intros [H1 H2]; try discriminate; try lia; split; (reflexivity || lia). }
  destruct (Z.lt_ge_cases (declared_length data) 4) as [Hdl|Hdl].
  - rewrite parse_structure_halt in E by (assumption || lia).
    assert (Ec : c = ctx_add empty_context
                   (header_errors data ++
                    [YKCProtocolParser.data_length_error (declared_length data)])
                   (type_warnings data)) by congruence.
    subst c. cbn [ctx_add errors empty_context app]. split.
    + intros H. apply app_eq_nil in H as [_ H]. discriminate.
    + intros (_ & H & _). lia.
  - rewrite parse_structure_body in E by (assumption || lia).
    assert (Ec : c = ctx_add empty_context
                   (header_errors data ++ body_slice_errors data ++
                    checksum_errors data ++ body_decode_errors data)
                   (type_warnings data ++ checksum_warnings crc data ++
                    body_decode_warnings data)) by congruence.
    subst c. cbn [ctx_add errors empty_context app].
    rewrite !app_nil_iff, Hh.
    assert (Hd : body_decode_errors data = [] <->
              (frame_body data = [] \/
               (exists body_data,
                  decoder_outcome (frame_parser data) (frame_body data) = Ok body_data) /\
               decoder_errors (frame_parser data) (frame_body data) = [])).
    { unfold body_decode_errors. destruct (frame_body data) as [|b0 body'] eqn:Eb.
      - split; [now left | reflexivity].
      - rewrite app_nil_iff.
        destruct (decoder_outcome (frame_parser data) (b0 :: body')) as [bd|e].
        + split.
          * intros [H _]. right. split; [now exists bd | exact H].
          * intros [H|[_ H]]; [discriminate | now split].
        + split.
          * intros [_ H]. discriminate.
          * intros [H|[[bd H] _]]; discriminate. }
    rewrite Hd. split.
    + intros (H1 & _ & _ & H4). tauto.
    + intros (H1 & H2 & H3). split; [tauto|]. split; [|split; [|exact H3]].
      * unfold body_slice_errors, frame_body_end.
        destruct (Z.ltb_spec (len data) (6 + (declared_length data - 4))); [lia|reflexivity].
      * unfold checksum_errors, checksum_readable, frame_body_end.
        destruct (Z.leb_spec (6 + (declared_length data - 4) + 2) (len data)); [reflexivity|lia].
Qed.

(** X20: when a decode succeeds.  For an input that reaches the structural
    pass the status is 200 exactly when the first byte is 0x68, the frame
    is four bytes longer than its length byte says, and the body is empty
    or its decoder returns a record without recording an error.  The value
    of the checksum plays no part, and neither does any warning. *)
Theorem X20_success_exactly_when :
  forall (crc : list byte -> N) (hex_str : string) (data : list byte),
    frame_of_hex hex_str = Some data ->
    (status_code (fst (YKCProtocolParser.parse crc hex_str)) = Some (VInt 200) <->
     frame_byte data 0 = 0x68 /\
     len data = declared_length data + 4 /\
     (frame_body data = [] \/
      (exists body_data,
         decoder_outcome (frame_parser data) (frame_body data) = Ok body_data) /\
      decoder_errors (frame_parser data) (frame_body data) = [])).
Proof.
  intros crc hex_str data Hf.
  pose proof (frame_of_hex_len _ _ Hf) as Hlen.
  destruct (parse_reaches_structure crc hex_str data Hf) as (r & c & E & Ep).
  rewrite Ep. cbn [fst].
  rewrite final_status.
  - now apply (structure_errors_none crc data r c).
  - apply (structure_result_fresh crc data empty_context r c); [lia | exact E | now left].
Qed.

Lemma X20_success_exactly_when_witness :
  frame_of_hex "68 0B 01 00 00 03 32 01 02 00 00 00 11 00 00"
    = Some [x68; x0b; x01; x00; x00; x03; x32; x01; x02; x00; x00; x00; x11; x00; x00] /\
  status_code (fst (YKCProtocolParser.parse crc16_sample
                      "68 0B 01 00 00 03 32 01 02 00 00 00 11 00 00"))
    = Some (VInt 200).
Proof.
  assert (H : frame_of_hex "68 0B 01 00 00 03 32 01 02 00 00 00 11 00 00"
              = Some [x68; x0b; x01; x00; x00; x03; x32; x01; x02; x00; x00; x00; x11;
                      x00; x00]) by (vm_compute; reflexivity).
  split; [exact H|].
  apply (proj2 (X20_success_exactly_when crc16_sample _ _ H)).
  split; [reflexivity|]. split; [vm_compute; reflexivity|].
  right. split; [eexists|]; vm_compute; reflexivity.
Defined.

(* ================================================================== *)
(** * The input text *)
(* ================================================================== *)

Lemma parse_depends_on_clean_hex crc s1 s2 :
  clean_hex s1 = clean_hex s2 ->
  YKCProtocolParser.parse crc s1 = YKCProtocolParser.parse crc s2.
Proof.
  intros H. unfold YKCProtocolParser.parse.
  fold (clean_hex s1). fold (clean_hex s2). now rewrite H.
Qed.

(** X21: blanks and line feeds are dropped wherever they stand in the
    input, between two bytes or between the two digits of one byte, before
    anything else is looked at: a text with one more blank or line feed
    decodes to the same result and the same diagnostics. *)
Theorem X21_blanks_and_line_feeds_are_ignored :
  forall (crc : list byte -> N) (s1 s2 : string),
    YKCProtocolParser.parse crc (s1 ++ String " " s2) =
      YKCProtocolParser.parse crc (s1 ++ s2) /\
    YKCProtocolParser.parse crc (s1 ++ String "010" s2) =
      YKCProtocolParser.parse crc (s1 ++ s2).
Proof.
  intros crc s1 s2.
  split; apply parse_depends_on_clean_hex; unfold clean_hex;
    rewrite !str_remove_app; cbn [str_remove Ascii.eqb Bool.eqb];
    rewrite ?str_remove_app; cbn [str_remove Ascii.eqb Bool.eqb]; reflexivity.
Qed.

Lemma frame_of_hex_clean s data :
  clean_hex s = bcd_to_str data \/ clean_hex s = bytes_hex data ->
  8 <= len data ->
  frame_of_hex s = Some data.
Proof.
  intros Hc Hlen. unfold frame_of_hex.
  assert (E : Z.of_nat (String.length (clean_hex s)) mod 2 = 0 /\
              bytes_fromhex (clean_hex s) = inr data).
  { destruct Hc as [-> | ->].
    - rewrite bcd_to_str_length, bcd_to_str_reads_back. split; [|reflexivity].
      rewrite Nat2Z.inj_mul, Z.mul_comm. apply Z.mod_mul. lia.
    - unfold bytes_hex.
      rewrite (hex_text_length _ lower_pair), (hex_text_reads_back _ lower_pair).
      split; [|reflexivity].
      rewrite Nat2Z.inj_mul, Z.mul_comm. apply Z.mod_mul. lia. }
  destruct E as [E1 E2]. rewrite E1, E2. cbn [Z.eqb].
  destruct (Z.ltb_spec (len data) 8); [lia | reflexivity].
Qed.

(** X22: the hexadecimal text of a frame of at least eight bytes, written
    in upper case, in lower case, or with a blank between the bytes, passes
    the three pre-checks of [parse], and the structural pass then runs on
    exactly the bytes the text was written from; the result of [parse] is
    the record of that pass followed by the status fields. *)
Theorem X22_hex_text_of_a_frame_is_decoded :
  forall (crc : list byte -> N) (data : list byte),
    8 <= len data ->
    exists r c,
      YKCProtocolParser._parse_structure crc data empty_context = (Ok r, c) /\
      YKCProtocolParser.parse crc (bcd_to_str data) = ((r ++ final_fields c)%list, c) /\
      YKCProtocolParser.parse crc (bytes_hex data) = ((r ++ final_fields c)%list, c) /\
      YKCProtocolParser.parse crc (spaced_hex data) = ((r ++ final_fields c)%list, c).
Proof.
  intros crc data Hlen.
  assert (F1 : frame_of_hex (bcd_to_str data) = Some data).
  { apply frame_of_hex_clean; [left | exact Hlen].
    exact (hex_text_clean _ upper_pair data). }
  assert (F2 : frame_of_hex (bytes_hex data) = Some data).
  { apply frame_of_hex_clean; [right | exact Hlen].
    exact (hex_text_clean _ lower_pair data). }
  assert (F3 : frame_of_hex (spaced_hex data) = Some data).
  { apply frame_of_hex_clean; [left | exact Hlen].
    exact (hex_text_spaced_clean _ upper_pair data). }
  destruct (parse_reaches_structure crc _ _ F1) as (r & c & E & P1).
  destruct (parse_reaches_structure crc _ _ F2) as (r2 & c2 & E2 & P2).
  destruct (parse_reaches_structure crc _ _ F3) as (r3 & c3 & E3 & P3).
  assert (r2 = r /\ c2 = c) as [-> ->] by (split; congruence).
  assert (r3 = r /\ c3 = c) as [-> ->] by (split; congruence).
  exists r, c. repeat split; assumption.
Qed.

Lemma X22_hex_text_of_a_frame_is_decoded_witness :
  8 <= len heartbeat_frame_bad_crc /\
  exists r c,
    YKCProtocolParser._parse_structure crc16_sample heartbeat_frame_bad_crc empty_context
      = (Ok r, c) /\
    YKCProtocolParser.parse crc16_sample (bcd_to_str heartbeat_frame_bad_crc)
      = ((r ++ final_fields c)%list, c) /\
    YKCProtocolParser.parse crc16_sample (bytes_hex heartbeat_frame_bad_crc)
      = ((r ++ final_fields c)%list, c) /\
    YKCProtocolParser.parse crc16_sample (spaced_hex heartbeat_frame_bad_crc)
      = ((r ++ final_fields c)%list, c).
Proof.
  assert (H : 8 <= len heartbeat_frame_bad_crc) by (vm_compute; discriminate).
  split; [exact H|].
  exact (X22_hex_text_of_a_frame_is_decoded crc16_sample heartbeat_frame_bad_crc H).
Defined.

Lemma concat_blank_remove_all (l : list string) :
  str_remove " " (String.concat " " l) = str_remove " " (String.concat "" l).
Proof.
  induction l as [|x l IH]; [reflexivity|].
  destruct l as [|y l].
  - reflexivity.
  - change (String.concat " " (x :: y :: l))
      with (x ++ " " ++ String.concat " " (y :: l)).
    rewrite concat_empty_cons, !str_remove_app, IH. reflexivity.
Qed.

(** X23: the command line.  Without an argument [main] prints the usage
    response and decodes nothing.  With arguments it decodes their
    concatenation: how the hexadecimal text is split over the arguments
    makes no difference to what is printed. *)
Theorem X23_main_joins_its_arguments :
  forall (crc : list byte -> N) (prog arg : string) (args : list string),
    main crc [] =
      [ ("code", VInt 500); ("msg", VStr "用法: python parse_ykc_v2.py <hex_string>");
        ("data", VNone) ] /\
    main crc [prog] = main crc [] /\
    main crc (prog :: arg :: args) =
      fst (YKCProtocolParser.parse crc (String.concat "" (arg :: args))).
Proof.
  intros crc prog arg args. split; [reflexivity|]. split; [reflexivity|].
  unfold main.
  replace (len (prog :: arg :: args) <? 2) with false
    by (symmetry; apply Z.ltb_ge; unfold len; cbn [length]; lia).
  cbv zeta. change (slice_from (prog :: arg :: args) 1) with (arg :: args).
  f_equal. apply parse_depends_on_clean_hex. unfold clean_hex, str_join.
  now rewrite concat_blank_remove_all.
Qed.

(* ================================================================== *)
(** * Frames laid out as the parser expects them *)
(* ================================================================== *)

Lemma byte_of_int_check :
  forallb (fun n => byte_val (byte_of_int n) =? n) (z_range 0 (Z.to_nat 256)) = true.
Proof. vm_compute. reflexivity. Qed.

Lemma byte_val_of_int n : 0 <= n < 256 -> byte_val (byte_of_int n) = n.
Proof.
  intros H. apply Z.eqb_eq.
  exact (proj1 (forallb_forall _ _) byte_of_int_check n (in_range_list n 256 H)).
Qed.

Lemma firstn_exact {A} (l1 l2 : list A) n :
  n = length l1 -> firstn n (l1 ++ l2) = l1.
Proof.
  intros ->. rewrite firstn_app, Nat.sub_diag, firstn_all. cbn [firstn].
  apply app_nil_r.
Qed.

Lemma skipn_exact {A} (l1 l2 : list A) n :
  n = length l1 -> skipn n (l1 ++ l2) = l2.
Proof.
  intros ->. rewrite skipn_app, Nat.sub_diag, skipn_all. reflexivity.
Qed.

Section MadeFrame.

Variable crc : list byte -> N.
Variables seq_lo seq_hi enc ft : byte.
Variable body : list byte.

Hypothesis body_fits : len body <= 251.
Hypothesis sum_fits : Z.of_N (crc (seq_lo :: seq_hi :: enc :: ft :: body)) < 65536.

Let payload : list byte := seq_lo :: seq_hi :: enc :: ft :: body.
Let sum : Z := Z.of_N (crc payload).
Let data : list byte := make_frame crc seq_lo seq_hi enc ft body.

Lemma made_frame_shape :
  data = (x68 :: byte_of_int (len body + 4) :: seq_lo :: seq_hi :: enc :: ft ::
          body ++ [byte_of_int (sum / 256); byte_of_int (sum mod 256)])%list.
Proof.
  unfold data, make_frame. cbv zeta. fold payload. fold sum.
  replace (len payload) with (len body + 4)
    by (unfold payload, len; cbn [length]; lia).
  reflexivity.
Qed.

Lemma made_frame_len : len data = len body + 8.
Proof.
  rewrite made_frame_shape. unfold len. cbn [length]. rewrite length_app.
  cbn [length]. lia.
Qed.

Lemma made_frame_declared : declared_length data = len body + 4.
Proof.
  rewrite made_frame_shape. unfold declared_length, frame_byte. cbn [nth].
  apply byte_val_of_int. unfold len in *. lia.
Qed.

Lemma made_frame_body_end : frame_body_end data = 6 + len body.
Proof. unfold frame_body_end. rewrite made_frame_declared. lia. Qed.

Lemma made_frame_body : frame_body data = body.
Proof.
  unfold frame_body. rewrite made_frame_body_end, made_frame_len.
  destruct (Z.ltb_spec (len body + 8) (6 + len body)); [lia|].
  rewrite made_frame_shape. unfold slice.
  change (Z.to_nat 6) with 6%nat. cbn [skipn].
  apply firstn_exact. unfold len. lia.
Qed.

Lemma made_frame_checksummed : slice data 2 (frame_body_end data) = payload.
Proof.
  rewrite made_frame_body_end, made_frame_shape. unfold slice.
  change (Z.to_nat 2) with 2%nat. cbn [skipn].
  change (seq_lo :: seq_hi :: enc :: ft ::
          body ++ [byte_of_int (sum / 256); byte_of_int (sum mod 256)])%list
    with (payload ++ [byte_of_int (sum / 256); byte_of_int (sum mod 256)])%list.
  apply firstn_exact. unfold payload, len. cbn [length]. lia.
Qed.

Lemma made_frame_calculated : checksum_calculated crc data = sum.
Proof. unfold checksum_calculated. now rewrite made_frame_checksummed. Qed.

Lemma made_frame_received : checksum_received data = sum.
Proof.
  unfold checksum_received. rewrite made_frame_body_end, made_frame_shape.
  unfold slice.
  replace (Z.to_nat (6 + len body + 2 - (6 + len body))) with 2%nat by lia.
  replace (Z.to_nat (6 + len body)) with (6 + length body)%nat by (unfold len; lia).
  cbn [Nat.add skipn]. rewrite skipn_exact by reflexivity.
  cbn [firstn int_from_bytes_big fold_left].
  assert (0 <= sum) by (unfold sum; lia).
  assert (sum < 65536) by exact sum_fits.
  rewrite !byte_val_of_int.
  - pose proof (Z.div_mod sum 256 ltac:(lia)). lia.
  - apply Z.mod_pos_bound. lia.
  - split; [apply Z.div_pos; lia | apply Z.div_lt_upper_bound; lia].
Qed.

Lemma made_frame_checksum_fields :
  checksum_readable data = true /\
  checksum_errors data = [] /\ checksum_warnings crc data = [].
Proof.
  assert (R : checksum_readable data = true).
  { unfold checksum_readable. rewrite made_frame_body_end, made_frame_len.
    apply Z.leb_le. lia. }
  unfold checksum_errors, checksum_warnings.
  rewrite R, made_frame_calculated, made_frame_received, Z.eqb_refl. auto.
Qed.

Lemma made_frame_header : header_errors data = [] /\ body_slice_errors data = [].
Proof.
  unfold header_errors, body_slice_errors, expected_total_length.
  rewrite made_frame_body_end, made_frame_declared, made_frame_len.
  replace (frame_byte data 0) with 0x68
    by (rewrite made_frame_shape; reflexivity).
  cbn [Z.eqb Pos.eqb].
  destruct (Z.eqb_spec (len body + 8) (1 + 1 + (len body + 4) + 2)); [|lia].
  destruct (Z.ltb_spec (len body + 8) (6 + len body)); [lia|]. auto.
Qed.

Lemma made_frame_run c :
  YKCProtocolParser._parse_structure crc data c =
    (Ok (envelope_fields data ++ body_fields data ++ checksum_fields crc data ++
         body_data_field data)%list,
     ctx_add c (body_decode_errors data)
               (type_warnings data ++ body_decode_warnings data)).
Proof.
  rewrite parse_structure_body
    by (rewrite ?made_frame_len, ?made_frame_declared; unfold len; lia).
  destruct made_frame_header as [-> ->].
  destruct made_frame_checksum_fields as (_ & -> & ->).
  reflexivity.
Qed.

End MadeFrame.

(** X24: a frame laid out as the structural pass reads it (start flag
    0x68, length byte equal to the body length plus four, the checksum of
    the bytes after the length byte in the last two bytes, high byte
    first) is taken apart into the parts it was made from.  The sequence
    number, the frame type and the body are the ones given, the checksum is
    reported valid, the envelope records no error, and the only diagnostics
    are those of the body decoder and, for a type without a name, the
    unknown-type warning. *)
Theorem X24_well_formed_frame_is_taken_apart :
  forall (crc : list byte -> N) (seq_lo seq_hi enc ft : byte) (body : list byte)
         (c : ParserContext),
    len body <= 251 ->
    Z.of_N (crc (seq_lo :: seq_hi :: enc :: ft :: body)) < 65536 ->
    let data := make_frame crc seq_lo seq_hi enc ft body in
    exists r c',
      YKCProtocolParser._parse_structure crc data c = (Ok r, c') /\
      dict_get r "sequence_number" =
        Some (VInt (byte_val seq_lo + 256 * byte_val seq_hi)) /\
      dict_get r "frame_type" = Some (VStr ("0x" ++ fmt_X 2 (byte_val ft))) /\
      dict_get r "body_length" = Some (VInt (len body)) /\
      dict_get r "body_hex" = Some (VStr (bcd_to_str body)) /\
      dict_get r "crc16_valid" = Some (VBool true) /\
      errors c' =
        (errors c ++
         match body with
         | [] => []
         | _ :: _ =>
             decoder_errors (FrameParserFactory.get_parser (byte_val ft)) body ++
             match decoder_outcome (FrameParserFactory.get_parser (byte_val ft)) body with
             | Ok _ => []
             | Raise e => [YKCProtocolParser.body_parse_error e]
             end
         end)%list /\
      warnings c' =
        (warnings c ++
         (if table_mem YKCProtocolParser.FRAME_TYPES (byte_val ft) then []
          else [YKCProtocolParser.unknown_type_warning (byte_val ft)]) ++
         match body with
         | [] => []
         | _ :: _ => decoder_warnings (FrameParserFactory.get_parser (byte_val ft)) body
         end)%list.
Proof.
  intros crc seq_lo seq_hi enc ft body c Hbody Hsum data.
  pose proof (made_frame_shape crc seq_lo seq_hi enc ft body) as Hshape.
  pose proof (made_frame_body crc seq_lo seq_hi enc ft body Hbody) as Hb.
  pose proof (made_frame_checksum_fields crc seq_lo seq_hi enc ft body Hbody Hsum)
    as (Hr & _ & _).
  pose proof (made_frame_calculated crc seq_lo seq_hi enc ft body Hbody) as Hcalc.
  pose proof (made_frame_received crc seq_lo seq_hi enc ft body Hbody Hsum) as Hrecv.
  fold data in Hshape, Hb, Hr, Hcalc, Hrecv.
  assert (Hft : frame_type_code data = byte_val ft).
  { unfold frame_type_code, frame_byte. rewrite Hshape. reflexivity. }
  assert (Hseq : int_from_bytes_little (slice data 2 4)
                 = byte_val seq_lo + 256 * byte_val seq_hi).
  { rewrite Hshape. unfold slice.
    change (Z.to_nat (4 - 2)) with 2%nat. change (Z.to_nat 2) with 2%nat.
    cbn [skipn firstn int_from_bytes_little]. lia. }
  eexists; eexists. split.
  { apply (made_frame_run crc seq_lo seq_hi enc ft body Hbody Hsum). }
  fold data.
  split. { rewrite <- Hseq. apply envelope_fields_lookup. cbn. tauto. }
  split. { rewrite <- Hft. apply envelope_fields_lookup. cbn. tauto. }
  split. { rewrite <- Hb at 1. apply body_fields_lookup. now left. }
  split. { rewrite <- bytes_hex_upper_bcd. rewrite <- Hb at 1.
           apply body_fields_lookup. right. now left. }
  split. { rewrite crc16_valid_lookup, Hr, Hcalc, Hrecv, Z.eqb_refl. reflexivity. }
  split.
  - unfold ctx_add. cbn [errors]. f_equal.
    unfold body_decode_errors, frame_parser. rewrite Hb, Hft. reflexivity.
  - unfold ctx_add. cbn [warnings]. f_equal.
    unfold type_warnings, body_decode_warnings, frame_parser. rewrite Hb, Hft.
    reflexivity.
Qed.

Lemma X24_well_formed_frame_is_taken_apart_witness :
  len [x32; x01; x02; x00; x00; x00; x11] <= 251 /\
  Z.of_N (crc16_sample
            (x01 :: x00 :: x00 :: x03 :: [x32; x01; x02; x00; x00; x00; x11])) < 65536 /\
  exists r c',
    YKCProtocolParser._parse_structure crc16_sample heartbeat_frame_made empty_context
      = (Ok r, c') /\
    dict_get r "sequence_number" = Some (VInt 1) /\
    dict_get r "frame_type" = Some (VStr "0x03") /\
    dict_get r "body_length" = Some (VInt 7) /\
    dict_get r "body_hex" = Some (VStr "32010200000011") /\
    dict_get r "crc16_valid" = Some (VBool true) /\
    errors c' = [] /\
    warnings c' = [].
Proof.
  assert (H1 : len [x32; x01; x02; x00; x00; x00; x11] <= 251)
    by (vm_compute; discriminate).
  assert (H2 : Z.of_N (crc16_sample
                         (x01 :: x00 :: x00 :: x03 ::
                          [x32; x01; x02; x00; x00; x00; x11])) < 65536)
    by (vm_compute; reflexivity).
  split; [exact H1|]. split; [exact H2|].
  exact (X24_well_formed_frame_is_taken_apart crc16_sample x01 x00 x00 x03
           [x32; x01; x02; x00; x00; x00; x11] empty_context H1 H2).
Defined.

(** A decoder that raises past its length check has recorded no error of
    its own. *)
Lemma raising_decoder_stage p body c :
  is_batch_parser p = false ->
  expected_min_length p <= len body ->
  fst (parse p body c) = Raise IndexError ->
  decoder_outcome p body = Raise IndexError /\ decoder_errors p body = [].
Proof.
  intros Hp Hmin Hr.
  destruct (parse_quiet_at_minimum p body Hp Hmin) as (o & ws & E).
  unfold decoder_outcome, decoder_errors.
  rewrite E in Hr. rewrite E. cbn [fst snd] in *. split; [exact Hr | reflexivity].
Qed.

(** X25: what the too small minimum of the login and transaction-record
    decoders means for a whole frame.  A login frame (type 0x01) with a
    body of 28 or 29 bytes and a transaction record (type 0x3B) with a body
    of 132 to 149 bytes, laid out correctly and with the right checksum,
    are still reported as failed: the decoder raises, [body_data] is
    [None], and the only error recorded is the body-parse failure with the
    text of the index error. *)
Theorem X25_short_login_and_transaction_frames_fail :
  forall (crc : list byte -> N) (seq_lo seq_hi enc ft : byte) (body : list byte)
         (c : ParserContext),
    (ft = x01 /\ 28 <= len body < 30) \/ (ft = x3b /\ 132 <= len body < 150) ->
    Z.of_N (crc (seq_lo :: seq_hi :: enc :: ft :: body)) < 65536 ->
    exists r c',
      YKCProtocolParser._parse_structure crc (make_frame crc seq_lo seq_hi enc ft body) c
        = (Ok r, c') /\
      dict_get r "crc16_valid" = Some (VBool true) /\
      dict_get r "body_data" = Some VNone /\
      errors c' = (errors c ++ ["消息体解析失败: index out of range"])%list.
Proof.
  intros crc seq_lo seq_hi enc ft body c Hcase Hsum.
  assert (Hbody : len body <= 251) by (destruct Hcase as [[_ H]|[_ H]]; lia).
  assert (Hne : body <> []).
  { intros ->. destruct Hcase as [[_ H]|[_ H]]; cbn in H; lia. }
  set (data := make_frame crc seq_lo seq_hi enc ft body).
  pose proof (made_frame_shape crc seq_lo seq_hi enc ft body) as Hshape.
  pose proof (made_frame_body crc seq_lo seq_hi enc ft body Hbody) as Hb.
  pose proof (made_frame_checksum_fields crc seq_lo seq_hi enc ft body Hbody Hsum)
    as (Hr & _ & _).
  pose proof (made_frame_calculated crc seq_lo seq_hi enc ft body Hbody) as Hcalc.
  pose proof (made_frame_received crc seq_lo seq_hi enc ft body Hbody Hsum) as Hrecv.
  fold data in Hshape, Hb, Hr, Hcalc, Hrecv.
  assert (Hft : frame_type_code data = byte_val ft).
  { unfold frame_type_code, frame_byte. rewrite Hshape. reflexivity. }
  assert (Hstage : decoder_outcome (frame_parser data) body = Raise IndexError /\
                   decoder_errors (frame_parser data) body = []).
  { unfold frame_parser. rewrite Hft.
    destruct Hcase as [[-> H]|[-> H]].
    - change (FrameParserFactory.get_parser (byte_val x01)) with LoginParser.
      apply (raising_decoder_stage LoginParser body empty_context eq_refl);
        [cbn; lia | now apply LoginParser_raises].
    - change (FrameParserFactory.get_parser (byte_val x3b)) with TransactionRecordParser.
      apply (raising_decoder_stage TransactionRecordParser body empty_context eq_refl);
        [cbn; lia | now apply TransactionRecordParser_raises]. }
  destruct Hstage as (Ho & He).
  eexists; eexists. split.
  { apply (made_frame_run crc seq_lo seq_hi enc ft body Hbody Hsum). }
  fold data.
  split. { rewrite crc16_valid_lookup, Hr, Hcalc, Hrecv, Z.eqb_refl. reflexivity. }
  split. { rewrite body_data_lookup. unfold body_data_field. rewrite Hb.
           destruct body as [|b0 body']; [congruence|]. rewrite Ho. reflexivity. }
  unfold ctx_add. cbn [errors]. f_equal.
  unfold body_decode_errors. rewrite Hb.
  destruct body as [|b0 body']; [congruence|]. rewrite Ho, He. reflexivity.
Qed.

Lemma X25_short_login_and_transaction_frames_fail_witness :
  ((x01 = x01 /\ 28 <= len (repeat x20 28) < 30) \/
   (x01 = x3b /\ 132 <= len (repeat x20 28) < 150)) /\
  Z.of_N (crc16_sample (x01 :: x00 :: x00 :: x01 :: repeat x20 28)) < 65536 /\
  exists r c',
    YKCProtocolParser._parse_structure crc16_sample
      (make_frame crc16_sample x01 x00 x00 x01 (repeat x20 28)) empty_context
      = (Ok r, c') /\
    dict_get r "crc16_valid" = Some (VBool true) /\
    dict_get r "body_data" = Some VNone /\
    errors c' = ["消息体解析失败: index out of range"].
Proof.
  assert (H1 : (x01 = x01 /\ 28 <= len (repeat x20 28) < 30) \/
               (x01 = x3b /\ 132 <= len (repeat x20 28) < 150)).
  { left. split; [reflexivity|]. vm_compute. split; congruence. }
  assert (H2 : Z.of_N (crc16_sample (x01 :: x00 :: x00 :: x01 :: repeat x20 28)) < 65536)
    by (vm_compute; reflexivity).
  split; [exact H1|]. split; [exact H2|].
  exact (X25_short_login_and_transaction_frames_fail crc16_sample x01 x00 x00 x01
           (repeat x20 28) empty_context H1 H2).
Defined.
